(** * server_benchmark: the benchmark orchestration engine

    A shallow embedding of [server_benchmark.py]: the result store
    ([BenchmarkDatabase]), the four sub-benchmark adapters and the
    orchestrator ([BenchmarkRunner]), and the request handlers that start
    a run ([BenchmarkHTTPHandler]).

    External processes, the clock, the uuid generator and the host facts
    are inputs of the model (record [Env]); library functions whose
    behaviour is text or decimal arithmetic ([float], [round], [json]) are
    fields of the class [PyLib].  Binary64 arithmetic is Rocq's primitive
    [float]. *)

From Stdlib Require Import ZArith String Ascii List Bool Floats Lia.
From stdpp Require Import base gmap strings list pretty.

#[local] Set Warnings "-register-all,-inexact-float".
#[local] Open Scope Z_scope.
#[local] Open Scope string_scope.
#[local] Open Scope list_scope.

(** ** Python's [str] methods used by the parsers

    Tool output is modelled as ASCII text. *)
Module PyStr.

(** [c.isspace()] on the ASCII range: TAB..CR, FS..US and the blank. *)
Definition is_space (c : ascii) : bool :=
  let n := nat_of_ascii c in
  ((9 <=? n)%nat && (n <=? 13)%nat) || ((28 <=? n)%nat && (n <=? 32)%nat).

Definition lower_char (c : ascii) : ascii :=
  let n := nat_of_ascii c in
  if ((65 <=? n)%nat && (n <=? 90)%nat) then ascii_of_nat (n + 32) else c.

(** [s.lower()] *)
Fixpoint lower (s : string) : string :=
  match s with
  | EmptyString => EmptyString
  | String c s' => String (lower_char c) (lower s')
  end.

(** [sub in s] *)
Fixpoint contains (sub s : string) : bool :=
  String.prefix sub s ||
  match s with
  | EmptyString => false
  | String _ s' => contains sub s'
  end.

(** [s.split(sep)] for a non-empty [sep] (every call site passes a
    non-empty literal).  [skip] counts the characters of a separator
    that was just matched and is still to be passed over; [cur] is the
    current piece, reversed. *)
Fixpoint split_aux (sep : string) (skip : nat) (cur : list ascii) (s : string)
  : list string :=
  match s with
  | EmptyString => [string_of_list_ascii (rev cur)]
  | String c s' =>
      match skip with
      | S k => split_aux sep k cur s'
      | O =>
          if String.prefix sep s
          then string_of_list_ascii (rev cur)
                 :: split_aux sep (String.length sep - 1) [] s'
          else split_aux sep O (c :: cur) s'
      end
  end.

Definition split (sep s : string) : list string := split_aux sep O [] s.

(** [s.split()]: pieces between runs of whitespace, no empty piece. *)
Fixpoint split_ws_aux (cur : list ascii) (s : string) : list string :=
  match s with
  | EmptyString =>
      match cur with
      | [] => []
      | _ => [string_of_list_ascii (rev cur)]
      end
  | String c s' =>
      if is_space c
      then match cur with
           | [] => split_ws_aux [] s'
           | _ => string_of_list_ascii (rev cur) :: split_ws_aux [] s'
           end
      else split_ws_aux (c :: cur) s'
  end.

Definition split_ws (s : string) : list string := split_ws_aux [] s.

Fixpoint lstrip (s : string) : string :=
  match s with
  | EmptyString => EmptyString
  | String c s' => if is_space c then lstrip s' else s
  end.

Definition rev_string (s : string) : string :=
  string_of_list_ascii (rev (list_ascii_of_string s)).

(** [s.strip()] *)
Definition strip (s : string) : string :=
  rev_string (lstrip (rev_string (lstrip s))).

(** The newline character, and [s.split(newline)]. *)
Definition nl : string := String "010" EmptyString.
Definition lines (s : string) : list string := split nl s.

Definition join_lines (l : list string) : string := String.concat nl l.

End PyStr.

(** ** Exceptions, values and the object heap *)

(** The exception classes the handlers tell apart; every one is a subclass
    of [Exception].  [exn_str] is [str(e)]. *)
Inductive exn_class :=
| TimeoutExpired | FileNotFoundError | ValueError | IndexError | KeyError
| TypeError | OtherError.

Record exn := Exn { exn_cls : exn_class; exn_str : string }.

(** A computation that returns or raises. *)
Definition res (A : Type) : Type := exn + A.

Definition res_bind {A B} (m : res A) (k : A -> res B) : res B :=
  match m with
  | inl e => inl e
  | inr a => k a
  end.

Declare Scope res_scope.
Delimit Scope res_scope with res.
Notation "x <- m ;; k" := (res_bind m (fun x => k))
  (at level 100, m at next level, right associativity) : res_scope.

Definition loc := nat.

(** Python values.  Dict objects that are mutated while shared (the run
    envelope and its [benchmarks] mapping) live in the heap and are held
    by reference ([VRef]); dicts that are built and then only read are
    [VDict]. *)
Inductive value :=
| VNone
| VBool (b : bool)
| VInt (z : Z)
| VFloat (f : float)
| VStr (s : string)
| VList (l : list value)
| VDict (d : gmap string value)
| VRef (l : loc).

Abbreviation dict := (gmap string value).
Abbreviation heap := (gmap loc (gmap string value)).

(** [l[i]] *)
Definition py_index {A} (l : list A) (i : nat) : res A :=
  match nth_error l i with
  | Some a => inr a
  | None => inl (Exn IndexError "list index out of range")
  end.

(** binary64 of an integer (round to nearest even). *)
Definition float_of_Z (z : Z) : float :=
  SF2Prim (SpecFloat.binary_normalize FloatOps.prec FloatOps.emax z 0 false).

(** [a / b] on two ints. *)
Definition int_truediv (a b : Z) : float :=
  PrimFloat.div (float_of_Z a) (float_of_Z b).

(** [x == 0] for an int or a float. *)
Definition num_is_zero (v : value) : bool :=
  match v with
  | VInt z => (z =? 0)%Z
  | VFloat f => PrimFloat.eqb f PrimFloat.zero
  | _ => false
  end.

(** The library functions that read or write text.  [float_of_string s]
    is [float(s)], [inl m] when it raises [ValueError] with message [m];
    [round2 x] is [round(x, 2)]; [float_sum l] is [sum(l)] on floats;
    [json_loads] is [json.loads], [inl m] when it raises;
    [json_iterencode h v] is the sequence of chunks that
    [json.dump(v, indent=2, fp=f)] writes for the object graph [v] in [h]. *)
Class PyLib := {
  float_of_string : string -> string + float;
  round2 : float -> float;
  float_sum : list float -> float;
  json_loads : string -> string + value;
  json_iterencode : heap -> value -> list string
}.

(** [float(s)] *)
Definition py_float `{L : PyLib} (s : string) : res float :=
  match float_of_string s with
  | inl m => inl (Exn ValueError m)
  | inr f => inr f
  end.

(** ** External interactions *)

(** What [subprocess.run(..., capture_output=True)] returns. *)
Record completed := Completed { returncode : Z; stdout : string; stderr : string }.

(** The command lines the program runs with [subprocess.run]. *)
Inductive command :=
| SysbenchCpu        (* sysbench cpu --cpu-max-prime=20000 --threads=4 run *)
| SysbenchMemory     (* sysbench memory --memory-block-size=1M --memory-total-size=10G run *)
| FileioPrepare      (* sysbench fileio --file-total-size=2G prepare *)
| FileioRun          (* sysbench fileio ... --file-test-mode=rndrw --time=10 run *)
| FileioCleanup      (* sysbench fileio --file-total-size=2G cleanup *)
| DdWrite            (* dd if=/dev/zero of=/tmp/benchmark_test bs=1M count=1024 conv=fdatasync *)
| DdRead             (* dd if=/tmp/benchmark_test of=/dev/null bs=1M *)
| RmScratch          (* rm -f /tmp/benchmark_test *)
| IperfClient        (* iperf3 -c 127.0.0.1 -t 5 -J *)
| IpRouteDefault     (* ip route show default *)
| Ping (gateway : string).  (* ping -c 10 -q gateway *)

(** Every interaction with the outside, in the order it happens. *)
Inductive call :=
| Run (c : command)
| NetIoCounters                     (* psutil.net_io_counters() *)
| PopenIperfServer                  (* subprocess.Popen(iperf3 -s -1) *)
| WaitIperfServer                   (* server_proc.wait(timeout=2) *)
| GetHostByName (domain : string).  (* socket.gethostbyname(domain) *)

(** The outside world of one run: what each interaction returns or raises.
    [get_system_info] is the dict of host facts that the method of that
    name builds; [resolve d] is the time in seconds that [gethostbyname d]
    took; [completed_now] and [saved_now] are [datetime.now().isoformat()]
    when the run completes and when its envelope is stored, [uuid4] is
    [str(uuid.uuid4())] at that moment. *)
Record Env := {
  get_system_info : gmap string value;
  subprocess_run : command -> res completed;
  net_io_counters : res (Z * Z);
  popen_iperf_server : res unit;
  wait_iperf_server : res unit;
  resolve : string -> res float;
  completed_now : string;
  uuid4 : string;
  saved_now : string
}.

(** ** The runner, the database and the shared state *)

(** [BenchmarkRunner.progress] *)
Record Progress := mkProgress {
  current_test : string;
  progress : Z;
  total_tests : Z;
  message : string
}.

(** The state shared by all threads: the heap of dict objects, the fields
    of the single [BenchmarkRunner] ([results] is a reference to the
    current envelope), the records of the [BenchmarkDatabase]
    ([self.data] under key servers) and the content of its backing file
    ([None] when the file does not exist). *)
Record World := mkWorld {
  objs : gmap loc (gmap string value);
  running : bool;
  prog : Progress;
  results : loc;
  servers : list loc;
  db_file : option string
}.

Definition set_objs (h : heap) (w : World) : World :=
  mkWorld h (running w) (prog w) (results w) (servers w) (db_file w).
Definition set_running (b : bool) (w : World) : World :=
  mkWorld (objs w) b (prog w) (results w) (servers w) (db_file w).
Definition set_prog (p : Progress) (w : World) : World :=
  mkWorld (objs w) (running w) p (results w) (servers w) (db_file w).
Definition set_results (l : loc) (w : World) : World :=
  mkWorld (objs w) (running w) (prog w) l (servers w) (db_file w).
Definition set_servers (s : list loc) (w : World) : World :=
  mkWorld (objs w) (running w) (prog w) (results w) s (db_file w).
Definition set_db_file (f : option string) (w : World) : World :=
  mkWorld (objs w) (running w) (prog w) (results w) (servers w) f.

(** The dict object at [l] (empty when [l] is not allocated). *)
Definition deref (w : World) (l : loc) : gmap string value :=
  default ∅ (objs w !! l).

(** [obj[k] = v] on the dict object at [l]. *)
Definition store (l : loc) (k : string) (v : value) (w : World) : World :=
  set_objs (<[l := <[k := v]> (deref w l)]> (objs w)) w.

(** What happens during a computation, in order: a write to the shared
    state (with the state it leaves) or an interaction with the outside. *)
Inductive event :=
| Snap (w : World)
| Called (c : call).

(** Statements: state passing, with the log of events. *)
Definition M (A : Type) : Type := World -> A * World * list event.

Definition ret {A} (a : A) : M A := fun w => (a, w, []).

Definition bind {A B} (m : M A) (k : A -> M B) : M B :=
  fun w =>
    let '(a, w1, t1) := m w in
    let '(b, w2, t2) := k a w1 in
    (b, w2, t1 ++ t2).

Declare Scope m_scope.
Delimit Scope m_scope with M.
Notation "x <- m ;; k" := (bind m (fun x => k))
  (at level 100, m at next level, right associativity) : m_scope.
Notation "m ;; k" := (bind m (fun _ => k))
  (at level 100, right associativity) : m_scope.

(** A write to the shared state. *)
Definition write (f : World -> World) : M unit :=
  fun w => (tt, f w, [Snap (f w)]).

(** A read of the shared state. *)
Definition get {A} (f : World -> A) : M A := fun w => (f w, w, []).

(** An interaction with the outside: logged, its outcome taken from [Env]. *)
Definition perform {A} (c : call) (outcome : A) : M A :=
  fun w => (outcome, w, [Called c]).

Definition run_value {A} (m : M A) (w : World) : A := (m w).1.1.
Definition run_world {A} (m : M A) (w : World) : World := (m w).1.2.
Definition run_log {A} (m : M A) (w : World) : list event := (m w).2.

(** The states of the log, and the interactions of the log. *)
Definition snaps (t : list event) : list World :=
  omap (fun e => match e with Snap w => Some w | Called _ => None end) t.
Definition calls (t : list event) : list call :=
  omap (fun e => match e with Called c => Some c | Snap _ => None end) t.

(** [self.progress[...] = ...] *)
Definition set_current_test (s : string) : M unit :=
  write (fun w => set_prog (mkProgress s (progress (prog w)) (total_tests (prog w)) (message (prog w))) w).
Definition set_message (s : string) : M unit :=
  write (fun w => set_prog (mkProgress (current_test (prog w)) (progress (prog w)) (total_tests (prog w)) s) w).
Definition set_progress (n : Z) : M unit :=
  write (fun w => set_prog (mkProgress (current_test (prog w)) n (total_tests (prog w)) (message (prog w))) w).
(** [self.progress[progress] += 1] *)
Definition incr_progress : M unit :=
  write (fun w => set_prog (mkProgress (current_test (prog w)) (progress (prog w) + 1) (total_tests (prog w)) (message (prog w))) w).

(** [subprocess.run(argv, ...)] *)
Definition subprocess (E : Env) (c : command) : M (res completed) :=
  perform (Run c) (subprocess_run E c).

(** ** The CPU and memory adapters *)

Section Adapters.
Context `{L : PyLib}.
Variable E : Env.

(** [{error: msg, status: error}] *)
Definition error_result (msg : string) : gmap string value :=
  {[ "error" := VStr msg; "status" := VStr "error" ]}.

(** The three [except] clauses shared by the CPU and the memory adapter;
    each one counts the test as done before it returns. *)
Definition sysbench_except (e : exn) : M (gmap string value) :=
  match exn_cls e with
  | TimeoutExpired =>
      (incr_progress ;; ret (error_result "Timeout"))%M
  | FileNotFoundError =>
      (incr_progress ;; ret (error_result "sysbench not installed"))%M
  | _ =>
      (incr_progress ;; ret (error_result (exn_str e)))%M
  end.

(** [float(line.split(colon)[1].strip())] *)
Definition colon_figure (line : string) : res float :=
  (field <- py_index (PyStr.split ":" line) 1 ;; py_float (PyStr.strip field))%res.

(** The loop of [run_cpu_benchmark] over the lines of the report, up to
    the first line with the marker: the figure it gives, the exception it
    raises, or [None] when no line has the marker. *)
Fixpoint cpu_scan (ls : list string) : res (option float) :=
  match ls with
  | [] => inr None
  | line :: rest =>
      if PyStr.contains "events per second:" line
      then (eps <- colon_figure line ;; inr (Some eps))%res
      else cpu_scan rest
  end.

Definition run_cpu_benchmark : M (gmap string value) :=
  (set_current_test "CPU" ;;
   set_message "Testing CPU performance..." ;;
   r <- subprocess E SysbenchCpu ;;
   match (result <- r ;; cpu_scan (PyStr.lines (stdout result)))%res with
   | inr (Some eps) =>
       incr_progress ;;
       ret {[ "events_per_second" := VFloat eps; "status" := VStr "completed" ]}
   | inr None =>
       incr_progress ;;
       ret {[ "events_per_second" := VInt 0; "status" := VStr "completed" ]}
   | inl e => sysbench_except e
   end)%M.

(** The loop of [run_memory_benchmark] up to the first line with both
    markers: the text [parts] cut out of it. *)
Fixpoint memory_scan (ls : list string) : res (option string) :=
  match ls with
  | [] => inr None
  | line :: rest =>
      if PyStr.contains "MiB/sec" line && PyStr.contains "transferred" line
      then (after <- py_index (PyStr.split "(" line) 1 ;;
            before <- py_index (PyStr.split "MiB/sec" after) 0 ;;
            inr (Some (PyStr.strip before)))%res
      else memory_scan rest
  end.

(** In the matching branch the counter is incremented first and
    [float(parts)] is evaluated after it, inside the [return] statement
    and still inside the [try]. *)
Definition run_memory_benchmark : M (gmap string value) :=
  (set_current_test "Memory" ;;
   set_message "Testing memory throughput..." ;;
   r <- subprocess E SysbenchMemory ;;
   match (result <- r ;; memory_scan (PyStr.lines (stdout result)))%res with
   | inr (Some parts) =>
       incr_progress ;;
       match py_float parts with
       | inr v =>
           ret {[ "throughput_mib_per_sec" := VFloat v; "status" := VStr "completed" ]}
       | inl e => sysbench_except e
       end
   | inr None =>
       incr_progress ;;
       ret {[ "throughput_mib_per_sec" := VInt 0; "status" := VStr "completed" ]}
   | inl e => sysbench_except e
   end)%M.

(** ** The disk adapter *)

(** The factor from MB/s to MiB/s. *)
Definition mb_to_mib : float := 0.9537%float.

(** The inner loop of a legacy line: [for i, part in enumerate(parts)],
    at the first part after the line's first that contains mb, convert
    the part before it and stop. *)
Fixpoint legacy_figure (parts : list string) (i : nat) (rest : list string)
  : res (option float) :=
  match rest with
  | [] => inr None
  | part :: rest' =>
      if PyStr.contains "mb" (PyStr.lower part) && (0 <? i)%nat
      then (tok <- py_index parts (i - 1) ;;
            mb <- py_float tok ;;
            inr (Some (PrimFloat.mul mb mb_to_mib)))%res
      else legacy_figure parts (S i) rest'
  end.

(** One turn of the loop over the lines of the fileio report; the pair
    is ([read_mib], [write_mib]).  Each branch has its own
    [try ... except: pass]. *)
Definition disk_line (acc : value * value) (line : string) : value * value :=
  let line_lower := PyStr.lower line in
  if PyStr.contains "read, mib/s:" line_lower then
    match colon_figure line with
    | inr v => (VFloat v, acc.2)
    | inl _ => acc
    end
  else if PyStr.contains "written, mib/s:" line_lower then
    match colon_figure line with
    | inr v => (acc.1, VFloat v)
    | inl _ => acc
    end
  else if PyStr.contains "read" line_lower
          && (PyStr.contains "mb/sec" line_lower || PyStr.contains "mb/s" line_lower) then
    match legacy_figure (PyStr.split_ws line) 0 (PyStr.split_ws line) with
    | inr (Some v) => (VFloat v, acc.2)
    | _ => acc
    end
  else if PyStr.contains "written" line_lower
          && (PyStr.contains "mb/sec" line_lower || PyStr.contains "mb/s" line_lower) then
    match legacy_figure (PyStr.split_ws line) 0 (PyStr.split_ws line) with
    | inr (Some v) => (acc.1, VFloat v)
    | _ => acc
    end
  else acc.

(** The parse of the whole fileio report, from [read_mib = write_mib = 0]. *)
Definition disk_parse (output : string) : value * value :=
  fold_left disk_line (PyStr.lines output) (VInt 0, VInt 0).

(** The inner loop of a dd trailer: the first comma-separated part with
    a MB/s or GB/s unit gives the figure. *)
Fixpoint dd_speed (parts : list string) : res (option float) :=
  match parts with
  | [] => inr None
  | part :: rest =>
      if PyStr.contains "mb/s" (PyStr.lower part) || PyStr.contains "gb/s" (PyStr.lower part)
      then (speed_str <- py_index (PyStr.split_ws (PyStr.strip part)) 0 ;;
            v <- py_float speed_str ;;
            inr (Some v))%res
      else dd_speed rest
  end.

(** The loop over the lines of dd's stderr: the value assigned so far,
    and the exception that ended the loop if one was raised. *)
Fixpoint dd_scan (cur : value) (ls : list string) : value * option exn :=
  match ls with
  | [] => (cur, None)
  | line :: rest =>
      if PyStr.contains "bytes" line && PyStr.contains "copied" line
      then match dd_speed (PyStr.split "," line) with
           | inr (Some v) => dd_scan (VFloat v) rest
           | inr None => dd_scan cur rest
           | inl e => (cur, Some e)
           end
      else dd_scan cur rest
  end.

(** The fallback measurement with dd, one [try] whose handler only prints:
    an exception ends the block and keeps what was assigned before it. *)
Definition dd_fallback (read_mib write_mib : value) : M (value * value) :=
  (set_message "Using fallback dd test..." ;;
   w <- subprocess E DdWrite ;;
   match w with
   | inl _ => ret (read_mib, write_mib)
   | inr dd_write =>
       match dd_scan write_mib (PyStr.lines (stderr dd_write)) with
       | (write_mib', Some _) => ret (read_mib, write_mib')
       | (write_mib', None) =>
           r <- subprocess E DdRead ;;
           match r with
           | inl _ => ret (read_mib, write_mib')
           | inr dd_read =>
               match dd_scan read_mib (PyStr.lines (stderr dd_read)) with
               | (read_mib', Some _) => ret (read_mib', write_mib')
               | (read_mib', None) =>
                   _ <- subprocess E RmScratch ;;
                   ret (read_mib', write_mib')
               end
           end
       end
   end)%M.

(** The handler of the adapter's outer [try]. *)
Definition disk_except (e : exn) : M (gmap string value) :=
  (incr_progress ;; ret (error_result (exn_str e)))%M.

Definition run_disk_benchmark : M (gmap string value) :=
  (set_current_test "Disk" ;;
   set_message "Preparing test files..." ;;
   prep_result <- subprocess E FileioPrepare ;;
   match prep_result with
   | inl e => disk_except e
   | inr _ =>
       set_message "Testing disk I/O performance..." ;;
       r <- subprocess E FileioRun ;;
       match r with
       | inl e => disk_except e
       | inr result =>
           set_message "Cleaning up test files..." ;;
           c <- subprocess E FileioCleanup ;;
           match c with
           | inl e => disk_except e
           | inr _ =>
               let parsed := disk_parse (stdout result) in
               measured <- (if num_is_zero parsed.1 && num_is_zero parsed.2
                            then dd_fallback parsed.1 parsed.2
                            else ret parsed) ;;
               incr_progress ;;
               ret {[ "read_mib_per_sec" := measured.1;
                      "write_mib_per_sec" := measured.2;
                      "status" := VStr "completed" ]}
           end
       end
   end)%M.

End Adapters.

(** ** The network adapter *)

Section Network.
Context `{L : PyLib}.
Variable E : Env.

(** [type(v).__name__] *)
Definition type_name (v : value) : string :=
  match v with
  | VNone => "NoneType"
  | VBool _ => "bool"
  | VInt _ => "int"
  | VFloat _ => "float"
  | VStr _ => "str"
  | VList _ => "list"
  | VDict _ | VRef _ => "dict"
  end.

(** [obj[key]] on a value that [json.loads] returned. *)
Definition subscript (obj : value) (key : string) : res value :=
  match obj with
  | VDict d =>
      match d !! key with
      | Some v => inr v
      | None => inl (Exn KeyError ("'" ++ key ++ "'")%string)
      end
  | VList _ => inl (Exn TypeError "list indices must be integers or slices, not str")
  | VStr _ => inl (Exn TypeError "string indices must be integers, not 'str'")
  | _ => inl (Exn TypeError ("'" ++ type_name obj ++ "' object is not subscriptable")%string)
  end.

(** [x / 1000000] on a JSON number. *)
Definition div_million (x : value) : res float :=
  match x with
  | VInt z => inr (int_truediv z 1000000)
  | VBool b => inr (int_truediv (if b then 1 else 0) 1000000)
  | VFloat f => inr (PrimFloat.div f (float_of_Z 1000000))
  | _ => inl (Exn TypeError ("unsupported operand type(s) for /: '" ++ type_name x
                             ++ "' and 'int'")%string)
  end.

(** The [except] clauses of the throughput probe. *)
Definition throughput_except (e : exn) (results : gmap string value)
  : gmap string value :=
  match exn_cls e with
  | TimeoutExpired => <["throughput_error" := VStr "iperf3 timeout"]> results
  | FileNotFoundError => <["throughput_error" := VStr "iperf3 not installed"]> results
  | _ => <["throughput_error" := VStr (exn_str e)]> results
  end.

(** [data[end][which][bits_per_second] / 1000000] *)
Definition mbps (data : value) (which : string) : res float :=
  (e <- subscript data "end" ;;
   s <- subscript e which ;;
   bps <- subscript s "bits_per_second" ;;
   div_million bps)%res.

(** The body of [if result.returncode == 0] in the throughput probe. *)
Definition throughput_parse (output : string) (results : gmap string value)
  : gmap string value :=
  match json_loads output with
  | inl m => throughput_except (Exn ValueError m) results
  | inr data =>
      match mbps data "sum_sent" with
      | inl e => throughput_except e results
      | inr send =>
          let results1 := <["throughput_send_mbps" := VFloat (round2 send)]> results in
          match mbps data "sum_received" with
          | inl e => throughput_except e results1
          | inr recv => <["throughput_recv_mbps" := VFloat (round2 recv)]> results1
          end
      end
  end.

Definition throughput_probe (results : gmap string value) : M (gmap string value) :=
  (set_message "Testing network throughput with iperf3..." ;;
   server_proc <- perform PopenIperfServer (popen_iperf_server E) ;;
   match server_proc with
   | inl e => ret (throughput_except e results)
   | inr _ =>
       r <- subprocess E IperfClient ;;
       match r with
       | inl e => ret (throughput_except e results)
       | inr result =>
           waited <- perform WaitIperfServer (wait_iperf_server E) ;;
           match waited with
           | inl e => ret (throughput_except e results)
           | inr _ =>
               if (returncode result =? 0)%Z
               then ret (throughput_parse (stdout result) results)
               else ret results
           end
       end
   end)%M.

Definition latency_except (e : exn) (results : gmap string value)
  : gmap string value :=
  <["latency_error" := VStr (exn_str e)]> results.

(** The body of the loop of the latency probe at the summary line; the
    three figures are stored one after the other. *)
Definition latency_line (gateway line : string) (results : gmap string value)
  : gmap string value :=
  match (after <- py_index (PyStr.split "=" line) 1 ;;
         py_index (PyStr.split_ws (PyStr.strip after)) 0)%res with
  | inl e => latency_except e results
  | inr stats =>
      match PyStr.split "/" stats with
      | [min_ms; avg_ms; max_ms; mdev] =>
          match py_float min_ms with
          | inl e => latency_except e results
          | inr mn =>
              let results1 := <["latency_min_ms" := VFloat mn]> results in
              match py_float avg_ms with
              | inl e => latency_except e results1
              | inr av =>
                  let results2 := <["latency_avg_ms" := VFloat av]> results1 in
                  match py_float max_ms with
                  | inl e => latency_except e results2
                  | inr mx =>
                      <["latency_gateway" := VStr gateway]>
                        (<["latency_max_ms" := VFloat mx]> results2)
                  end
              end
          end
      | parts =>
          latency_except
            (Exn ValueError
               (if (length parts <? 4)%nat
                then ("not enough values to unpack (expected 4, got "
                      ++ pretty (length parts) ++ ")")%string
                else "too many values to unpack (expected 4)"))
            results
      end
  end.

(** The loop over the lines of ping's report: the first summary line
    decides, then [break]. *)
Fixpoint latency_scan (gateway : string) (ls : list string)
  (results : gmap string value) : gmap string value :=
  match ls with
  | [] => results
  | line :: rest =>
      if PyStr.contains "rtt min/avg/max" line
         || PyStr.contains "round-trip min/avg/max" line
      then latency_line gateway line results
      else latency_scan gateway rest results
  end.

Definition latency_probe (results : gmap string value) : M (gmap string value) :=
  (set_message "Testing network latency..." ;;
   g <- subprocess E IpRouteDefault ;;
   match g with
   | inl e => ret (latency_except e results)
   | inr gw_result =>
       if (returncode gw_result =? 0)%Z
       then match py_index (PyStr.split_ws (stdout gw_result)) 2 with
            | inl e => ret (latency_except e results)
            | inr gateway =>
                p <- subprocess E (Ping gateway) ;;
                match p with
                | inl e => ret (latency_except e results)
                | inr ping_result =>
                    if (returncode ping_result =? 0)%Z
                    then ret (latency_scan gateway (PyStr.lines (stdout ping_result)) results)
                    else ret results
                end
            end
       else ret results
   end)%M.

Definition test_domains : list string := ["google.com"; "github.com"; "cloudflare.com"].

(** The loop over the domains: the times in milliseconds, or the first
    exception. *)
Fixpoint dns_loop (domains : list string) (dns_times : list float)
  : M (res (list float)) :=
  match domains with
  | [] => ret (inr dns_times)
  | domain :: rest =>
      (r <- perform (GetHostByName domain) (resolve E domain) ;;
       match r with
       | inl e => ret (inl e)
       | inr dt => dns_loop rest (dns_times ++ [PrimFloat.mul dt (float_of_Z 1000)])
       end)%M
  end.

(** [min(l)] and [max(l)] of a non-empty list: the first smallest and the
    first largest for the comparison of floats. *)
Definition py_min (x : float) (l : list float) : float :=
  fold_left (fun cur y => if PrimFloat.ltb y cur then y else cur) l x.
Definition py_max (x : float) (l : list float) : float :=
  fold_left (fun cur y => if PrimFloat.ltb cur y then y else cur) l x.

Definition dns_probe (results : gmap string value) : M (gmap string value) :=
  (set_message "Testing DNS resolution speed..." ;;
   r <- dns_loop test_domains [] ;;
   match r with
   | inl e => ret (<["dns_error" := VStr (exn_str e)]> results)
   | inr [] => ret (<["dns_error" := VStr "division by zero"]> results)
   | inr (t :: ts) =>
       let n := float_of_Z (Z.of_nat (length (t :: ts))) in
       ret (<["dns_max_ms" := VFloat (round2 (py_max t ts))]>
              (<["dns_min_ms" := VFloat (round2 (py_min t ts))]>
                 (<["dns_avg_ms" := VFloat (round2 (PrimFloat.div (float_sum (t :: ts)) n))]>
                    results)))
   end)%M.

(** The counters probe: [except: pass], so a failure leaves no trace in
    the result. *)
Definition counters_probe (results : gmap string value) : M (gmap string value) :=
  (c <- perform NetIoCounters (net_io_counters E) ;;
   match c with
   | inr (bytes_sent, bytes_recv) =>
       ret (<["total_bytes_recv_gb" := VFloat (round2 (int_truediv bytes_recv (1024 ^ 3)))]>
              (<["total_bytes_sent_gb" := VFloat (round2 (int_truediv bytes_sent (1024 ^ 3)))]>
                 results))
   | inl _ => ret results
   end)%M.

Definition run_network_benchmark : M (gmap string value) :=
  (set_current_test "Network" ;;
   set_message "Testing network performance..." ;;
   results1 <- counters_probe ∅ ;;
   results2 <- throughput_probe results1 ;;
   results3 <- latency_probe results2 ;;
   results4 <- dns_probe results3 ;;
   incr_progress ;;
   ret (<["status" := VStr "completed"]> results4))%M.

End Network.

(** ** The orchestrator *)

Section Runner.
Context `{L : PyLib}.
Variable E : Env.

(** A new dict object. *)
Definition alloc (d : gmap string value) : M loc :=
  fun w =>
    let l := fresh (dom (objs w)) in
    (l, set_objs (<[l := d]> (objs w)) w, []).

(** [self.results[k] = v] *)
Definition results_set (k : string) (v : value) (w : World) : World :=
  store (results w) k v w.

(** [self.results[benchmarks][name] = v]: the mapping is reached through
    [self.results] at the time of the assignment. *)
Definition benchmarks_set (name : string) (v : value) (w : World) : World :=
  match deref w (results w) !! "benchmarks" with
  | Some (VRef b) => store b name v w
  | _ => w
  end.

(** [if custom_name:] *)
Definition truthy (custom_name : option string) : bool :=
  match custom_name with
  | Some s => negb (String.eqb s "")
  | None => false
  end.

Definition run_all_benchmarks (custom_name : option string) : M loc :=
  (write (set_running true) ;;
   write (set_prog (mkProgress "Starting" 0 5 "Initializing benchmark...")) ;;
   benchmarks <- alloc ∅ ;;
   envelope <- alloc {[ "system_info" := VDict (get_system_info E);
                        "benchmarks" := VRef benchmarks ]} ;;
   write (set_results envelope) ;;
   (if truthy custom_name
    then write (results_set "custom_name" (VStr (default "" custom_name)))
    else ret tt) ;;
   set_progress 1 ;;
   cpu <- run_cpu_benchmark E ;;
   write (benchmarks_set "cpu" (VDict cpu)) ;;
   memory <- run_memory_benchmark E ;;
   write (benchmarks_set "memory" (VDict memory)) ;;
   disk <- run_disk_benchmark E ;;
   write (benchmarks_set "disk" (VDict disk)) ;;
   network <- run_network_benchmark E ;;
   write (benchmarks_set "network" (VDict network)) ;;
   set_current_test "Completed" ;;
   set_progress 5 ;;
   set_message "All benchmarks completed!" ;;
   write (results_set "completed_at" (VStr (completed_now E))) ;;
   write (set_running false) ;;
   get results)%M.

End Runner.

(** ** The result store *)

Section Database.
Context `{L : PyLib}.

(** [self.data] *)
Definition db_data (w : World) : value :=
  VDict {[ "servers" := VList (VRef <$> servers w) ]}.

(** [fp.write(chunk)] for each chunk of the encoder (the file object may
    hand several consecutive chunks to the file system at once). *)
Fixpoint write_chunks (chunks : list string) : M unit :=
  match chunks with
  | [] => ret tt
  | c :: rest =>
      (write (fun w => set_db_file (Some (default "" (db_file w) ++ c)%string) w) ;;
       write_chunks rest)%M
  end.

(** [save]: [open(self.db_file, w)] creates the file or truncates it,
    then [json.dump] writes into it. *)
Definition save : M unit :=
  (write (set_db_file (Some "")) ;;
   chunks <- get (fun w => json_iterencode (objs w) (db_data w)) ;;
   write_chunks chunks)%M.

(** [add_result(result)], with the uuid and the time it draws. *)
Definition add_result (new_id now : string) (result : loc) : M value :=
  (write (store result "id" (VStr new_id)) ;;
   write (store result "timestamp" (VStr now)) ;;
   write (fun w => set_servers (servers w ++ [result]) w) ;;
   save ;;
   get (fun w => default VNone (deref w result !! "id")))%M.

Definition get_all : M (list loc) := get servers.

(** [s.get(id) != result_id] for a string [result_id]. *)
Definition id_differs (w : World) (result_id : string) (s : loc) : bool :=
  match deref w s !! "id" with
  | Some (VStr i) => negb (String.eqb i result_id)
  | _ => true
  end.

Definition delete (result_id : string) : M unit :=
  (write (fun w => set_servers (List.filter (id_differs w result_id) (servers w)) w) ;;
   save)%M.

Definition clear_all : M unit :=
  (write (set_servers []) ;; save)%M.

(** [_run_and_save(custom_name)] of the request handler. *)
Definition _run_and_save (E : Env) (custom_name : option string) : M unit :=
  (result <- run_all_benchmarks E custom_name ;;
   _ <- add_result (uuid4 E) (saved_now E) result ;;
   ret tt)%M.

(** What a reader of [/api/status] is sent: the flag, the envelope that
    [results] refers to, and the progress. *)
Definition status_response (w : World) : bool * gmap string value * Progress :=
  (running w, deref w (results w), prog w).

End Database.

(** ** Running the model

    An implementation of [PyLib] for running the model on examples:
    [float] on plain decimal numerals, [round] by exact arithmetic on the
    binary value, [sum] as a left fold, [json.loads] on the one report
    used below, and an encoder that lays a document out as
    [json.dump(indent=2)] does. *)
Module Reference.

Definition is_digit (c : ascii) : bool :=
  let n := nat_of_ascii c in ((48 <=? n)%nat && (n <=? 57)%nat).

Definition digit_val (c : ascii) : Z := Z.of_nat (nat_of_ascii c) - 48.

(** Digits, then optionally a point and digits: the integer made of all
    the digits, the number of them, and of those after the point. *)
Fixpoint digits (s : string) (m : Z) (n : nat) (frac : option nat)
  : option (Z * nat * nat) :=
  match s with
  | EmptyString => Some (m, n, default O frac)
  | String c s' =>
      if is_digit c
      then digits s' (10 * m + digit_val c) (S n) (S <$> frac)
      else if Ascii.eqb c "."
           then match frac with
                | None => digits s' m n (Some O)
                | Some _ => None
                end
           else None
  end.

(** [float(s)] for an optionally signed decimal numeral with at most
    fifteen digits, where one division of two exact floats gives the
    nearest binary64. *)
Definition float_of_string (s : string) : string + float :=
  let t := PyStr.strip s in
  let '(neg, body) :=
    match t with
    | String "-" r => (true, r)
    | String "+" r => (false, r)
    | _ => (false, t)
    end in
  match digits body 0 O None with
  | Some (m, n, k) =>
      if ((0 <? n)%nat && (n <=? 15)%nat)
      then inr (PrimFloat.div (float_of_Z (if neg then - m else m))
                              (float_of_Z (10 ^ Z.of_nat k)))
      else inl ("could not convert string to float: '" ++ s ++ "'")%string
  | None => inl ("could not convert string to float: '" ++ s ++ "'")%string
  end.

(** [num / den] rounded to the nearest integer, ties to even. *)
Definition round_half_even (num den : Z) : Z :=
  let q := num / den in
  let r := num mod den in
  if (2 * r <? den)%Z then q
  else if (den <? 2 * r)%Z then q + 1
  else if Z.even q then q else q + 1.

(** The nearest integer to [x * k], for a finite [x]. *)
Definition scaled (x : float) (k : Z) : option Z :=
  match Prim2SF x with
  | SpecFloat.S754_zero _ => Some 0
  | SpecFloat.S754_finite s m e =>
      let n := if (0 <=? e)%Z
               then Z.pos m * k * 2 ^ e
               else round_half_even (Z.pos m * k) (2 ^ (- e)) in
      Some (if s then - n else n)
  | _ => None
  end.

(** [round(x, 2)] *)
Definition round2 (x : float) : float :=
  match scaled x 100 with
  | Some n =>
      if (Z.abs n <? 2 ^ 53)%Z
      then if (n =? 0)%Z then PrimFloat.mul x PrimFloat.zero
           else PrimFloat.div (float_of_Z n) (float_of_Z 100)
      else x
  | None => x
  end.

Definition float_sum (l : list float) : float :=
  fold_left PrimFloat.add l PrimFloat.zero.

(** The double quote. *)
Definition dq : string := String "034" EmptyString.

Definition quoted (s : string) : string := (dq ++ s ++ dq)%string.

(** The end of an iperf3 report, and what [json.loads] makes of it. *)
Definition iperf_report : string :=
  ("{" ++ quoted "end" ++ ": {"
       ++ quoted "sum_sent" ++ ": {" ++ quoted "bits_per_second" ++ ": 9400000000}, "
       ++ quoted "sum_received" ++ ": {" ++ quoted "bits_per_second" ++ ": 9300000000}}}")%string.

Definition iperf_data : value :=
  VDict {[ "end" := VDict {[ "sum_sent" := VDict {[ "bits_per_second" := VInt 9400000000 ]};
                             "sum_received" := VDict {[ "bits_per_second" := VInt 9300000000 ]} ]} ]}.

Definition json_loads (s : string) : string + value :=
  if String.eqb s iperf_report then inr iperf_data
  else inl "Expecting value: line 1 column 1 (char 0)".

(** A float with at most six decimals. *)
Definition float_text (x : float) : string :=
  match scaled x 1000000 with
  | Some n =>
      let a := Z.abs n in
      let frac := pretty (1000000 + a mod 1000000) in
      ((if (n <? 0)%Z then "-" else "") ++ pretty (a / 1000000) ++ "."
         ++ String.substring 1 6 frac)%string
  | None => "NaN"
  end.

Definition indent (level : nat) : string :=
  (PyStr.nl ++ String.concat "" (replicate level "  "))%string.

(** The members of a container, one per line at [level]. *)
Definition laid_out (level : nat) (opening closing : string)
  (members : list (list string)) : list string :=
  match members with
  | [] => [(opening ++ closing)%string]
  | m :: ms =>
      [opening; indent (S level)] ++ m
        ++ concat ((fun x => ("," ++ indent (S level))%string :: x) <$> ms)
        ++ [indent level; closing]
  end.

(** The encoder, to a depth of [fuel] containers. *)
Fixpoint encode (fuel : nat) (h : heap) (level : nat) (v : value) : list string :=
  match fuel with
  | O => ["null"]
  | S fuel' =>
      let member (kv : string * value) :=
        quoted kv.1 :: ": " :: encode fuel' h (S level) kv.2 in
      match v with
      | VNone => ["null"]
      | VBool b => [if b then "true" else "false"]
      | VInt z => [pretty z]
      | VFloat f => [float_text f]
      | VStr s => [quoted s]
      | VList l => laid_out level "[" "]" (encode fuel' h (S level) <$> l)
      | VDict d => laid_out level "{" "}" (member <$> map_to_list d)
      | VRef l => laid_out level "{" "}" (member <$> map_to_list (default ∅ (h !! l)))
      end
  end.

Definition json_iterencode (h : heap) (v : value) : list string := encode 8 h O v.

End Reference.

Definition reference_lib : PyLib := {|
  float_of_string := Reference.float_of_string;
  round2 := Reference.round2;
  float_sum := Reference.float_sum;
  json_loads := Reference.json_loads;
  json_iterencode := Reference.json_iterencode
|}.

(** The state of a fresh process: [BenchmarkRunner.__init__] (the empty
    results dict is the object at 0) and a [BenchmarkDatabase] whose
    backing file does not exist yet. *)
Definition initial_world : World :=
  mkWorld {[ O := ∅ ]} false (mkProgress "" 0 5 "") O [] None.

(** ** Request handlers and run threads

    The threads of the server, as far as the guard on [running] is
    concerned.  A handler of GET /api/benchmark evaluates
    [not self.benchmark_runner.running], starts a thread on
    [run_all_benchmarks] if that was true, and then reads [running] again
    for its response.  The started thread sets the flag in its first
    statement and clears it in its last but one.  Threads interleave
    between statements. *)
Module Server.

Inductive handler :=
| HCheck                       (* before [if not self.benchmark_runner.running] *)
| HStart                       (* the flag was read False: before [thread.start()] *)
| HRespond                     (* before the response is built *)
| HDone (sent_running : bool). (* the response was written *)

Inductive run :=
| RSetRunning                  (* before [self.running = True] *)
| RBenchmarks                  (* from the reset of the progress to [completed_at] *)
| RClear                       (* before [self.running = False] *)
| RFinished.

Record state := mkState {
  flag : bool;                 (* [self.benchmark_runner.running] *)
  handlers : list handler;
  runs : list run              (* the threads started so far *)
}.

(** One statement of handler [i]. *)
Definition handler_step (s : state) (i : nat) : option state :=
  match handlers s !! i with
  | Some HCheck =>
      Some (mkState (flag s)
              (<[i := if flag s then HRespond else HStart]> (handlers s)) (runs s))
  | Some HStart =>
      Some (mkState (flag s) (<[i := HRespond]> (handlers s)) (runs s ++ [RSetRunning]))
  | Some HRespond =>
      Some (mkState (flag s) (<[i := HDone (flag s)]> (handlers s)) (runs s))
  | _ => None
  end.

(** One statement of run thread [j]. *)
Definition run_step (s : state) (j : nat) : option state :=
  match runs s !! j with
  | Some RSetRunning =>
      Some (mkState true (handlers s) (<[j := RBenchmarks]> (runs s)))
  | Some RBenchmarks =>
      Some (mkState (flag s) (handlers s) (<[j := RClear]> (runs s)))
  | Some RClear =>
      Some (mkState false (handlers s) (<[j := RFinished]> (runs s)))
  | _ => None
  end.

Inductive step : state -> state -> Prop :=
| step_handler s i s' : handler_step s i = Some s' -> step s s'
| step_run s j s' : run_step s j = Some s' -> step s s'.

(** [n] requests arrive at an idle server. *)
Definition arrivals (n : nat) : state := mkState false (replicate n HCheck) [].

(** A handler that runs its statements without another thread in between. *)
Definition handle (s : state) (i : nat) : option state :=
  s1 ← handler_step s i;
  match handlers s1 !! i with
  | Some HStart => s2 ← handler_step s1 i; handler_step s2 i
  | _ => handler_step s1 i
  end.

End Server.

(** ** Notions used in the statements *)

(** [w'] differs from [w] in the progress only. *)
Definition same_frame (w w' : World) : Prop :=
  objs w' = objs w /\ running w' = running w /\ results w' = results w
  /\ servers w' = servers w /\ db_file w' = db_file w.

(** A statement that writes nothing but the progress. *)
Definition progress_only {A} (m : M A) : Prop :=
  forall w, same_frame w (run_world m w) /\ Forall (same_frame w) (snaps (run_log m w)).

(** From a state in [P], the statement [m] ends with a value and a state
    in [Q], and every state it writes is in [I]. *)
Definition triple {A} (P : World -> Prop) (m : M A) (Q : A -> World -> Prop)
  (I : World -> Prop) : Prop :=
  forall w, P w ->
    Q (run_value m w) (run_world m w) /\ Forall I (snaps (run_log m w)).

(** The value of the progress counter in each state that a statement writes. *)
Definition counters {A} (m : M A) (w : World) : list Z :=
  (fun s => progress (prog s)) <$> snaps (run_log m w).

(** The content of the backing file at each point where a statement can
    be cut short. *)
Definition files_during {A} (m : M A) (w : World) : list (option string) :=
  db_file <$> snaps (run_log m w).

(** The envelope that [results] refers to, and its mapping of benchmarks. *)
Definition envelope_of (w : World) : gmap string value := deref w (results w).

Definition benchmarks_of (w : World) : gmap string value :=
  match envelope_of w !! "benchmarks" with
  | Some (VRef b) => deref w b
  | _ => ∅
  end.

Definition adapter_names : gset string := {[ "cpu"; "memory"; "disk"; "network" ]}.

(** The keys of a result that name an error of a probe. *)
Definition error_fields (d : gmap string value) : list string :=
  List.filter (PyStr.contains "_error") (elements (dom d)).

(** *** Shapes of the lines of a fileio report *)
Module Report.

Definition modern (l : string) : bool :=
  PyStr.contains "read, mib/s:" (PyStr.lower l)
  || PyStr.contains "written, mib/s:" (PyStr.lower l).

Definition has_unit (l : string) : bool :=
  PyStr.contains "mb/sec" (PyStr.lower l) || PyStr.contains "mb/s" (PyStr.lower l).

(** A line that no branch of the parser looks at. *)
Definition silent (l : string) : bool :=
  negb (modern l)
  && negb ((PyStr.contains "read" (PyStr.lower l) || PyStr.contains "written" (PyStr.lower l))
           && has_unit l).

(** A legacy line for the read figure, and one for the written figure. *)
Definition legacy_read (l : string) : bool :=
  negb (modern l) && PyStr.contains "read" (PyStr.lower l) && has_unit l.

Definition legacy_written (l : string) : bool :=
  negb (modern l) && negb (PyStr.contains "read" (PyStr.lower l))
  && PyStr.contains "written" (PyStr.lower l) && has_unit l.

(** [fig] stands just before the first word of [l], after its first
    word, that contains mb. *)
Definition figure_of (l fig : string) : Prop :=
  exists pre unit post,
    PyStr.split_ws l = pre ++ fig :: unit :: post
    /\ PyStr.contains "mb" (PyStr.lower unit) = true
    /\ Forall (fun t => PyStr.contains "mb" (PyStr.lower t) = false) (tail (pre ++ [fig])).

End Report.

(** *** Sample environments *)
Module Sample.

Definition missing (tool : string) : exn :=
  Exn FileNotFoundError ("[Errno 2] No such file or directory: '" ++ tool ++ "'")%string.

Definition timed_out (argv : string) (seconds : string) : exn :=
  Exn TimeoutExpired ("Command '" ++ argv ++ "' timed out after " ++ seconds ++ " seconds")%string.

Definition info : gmap string value :=
  {[ "hostname" := VStr "node-a"; "cpu_cores" := VInt 4 ]}.

Definition ok (out : string) : res completed := inr (Completed 0 out "").

(** A host with none of the tools and no network. *)
Definition bare : Env := {|
  get_system_info := info;
  subprocess_run := fun c =>
    match c with
    | SysbenchCpu | SysbenchMemory | FileioPrepare | FileioRun | FileioCleanup =>
        inl (missing "sysbench")
    | DdWrite | DdRead => inl (missing "dd")
    | RmScratch => inl (missing "rm")
    | IperfClient => inl (missing "iperf3")
    | IpRouteDefault => inl (missing "ip")
    | Ping _ => inl (missing "ping")
    end;
  net_io_counters := inl (Exn OtherError "no counters");
  popen_iperf_server := inl (missing "iperf3");
  wait_iperf_server := inr tt;
  resolve := fun d => inl (Exn OtherError "[Errno -2] Name or service not known");
  completed_now := "2024-05-01T10:00:40";
  uuid4 := "0b7c1e0e-5f0a-4c55-9d0e-2f4f2f1f7a11";
  saved_now := "2024-05-01T10:00:41"
|}.

(** [E] with other outcomes for the commands. *)
Definition with_commands (f : command -> option (res completed)) (E : Env) : Env := {|
  get_system_info := get_system_info E;
  subprocess_run := fun c => default (subprocess_run E c) (f c);
  net_io_counters := net_io_counters E;
  popen_iperf_server := popen_iperf_server E;
  wait_iperf_server := wait_iperf_server E;
  resolve := resolve E;
  completed_now := completed_now E;
  uuid4 := uuid4 E;
  saved_now := saved_now E
|}.

Definition cpu_report : string :=
  PyStr.join_lines
    ["CPU speed:";
     "    events per second:  1234.56";
     "";
     "General statistics:";
     "    events per second:  99.00"].

Definition memory_report : string :=
  PyStr.join_lines ["Total operations: 10240 (9313.41 per second)";
                    "10240.00 MiB transferred (9313.41 MiB/sec)"].

(** A memory report whose throughput is not a number. *)
Definition memory_report_nan : string :=
  PyStr.join_lines ["Total operations: 10240";
                    "10240.00 MiB transferred (n/a MiB/sec)"].

Definition fileio_modern : string :=
  PyStr.join_lines ["Throughput:";
                    "    read, MiB/s:                  12.50";
                    "    written, MiB/s:               8.25"].

Definition fileio_legacy : string :=
  PyStr.join_lines ["Throughput:"; "read 100 mb/sec"; "written 50 mb/sec"].

(** Legacy phrasing with both figures on one line. *)
Definition fileio_legacy_one_line : string := "read 100 mb/sec written 50 mb/sec".

Definition ping_report : string :=
  PyStr.join_lines ["10 packets transmitted, 10 received, 0% packet loss, time 9012ms";
                    "rtt min/avg/max/mdev = 0.321/0.456/0.789/0.101 ms"].

(** sysbench is installed and prints the reports above; the memory
    report is the one without a number. *)
Definition sysbench_host (memory fileio : string) : Env :=
  with_commands
    (fun c =>
       match c with
       | SysbenchCpu => Some (ok cpu_report)
       | SysbenchMemory => Some (ok memory)
       | FileioPrepare | FileioCleanup => Some (ok "")
       | FileioRun => Some (ok fileio)
       | _ => None
       end) bare.

(** The cleanup of the disk test runs into its timeout. *)
Definition cleanup_times_out : Env :=
  with_commands
    (fun c =>
       match c with
       | FileioCleanup => Some (inl (timed_out "['sysbench', 'fileio', '--file-total-size=2G', 'cleanup']" "10"))
       | _ => None
       end) (sysbench_host memory_report fileio_modern).

(** A host with a network: iperf3, a gateway and a resolver; the
    interface counters cannot be read. *)
Definition network_host : Env := {|
  get_system_info := info;
  subprocess_run := fun c =>
    match c with
    | IperfClient => ok Reference.iperf_report
    | IpRouteDefault => ok "default via 192.168.1.1 dev eth0"
    | Ping _ => ok ping_report
    | _ => inl (missing "sysbench")
    end;
  net_io_counters := inl (Exn OtherError "no counters");
  popen_iperf_server := inr tt;
  wait_iperf_server := inr tt;
  resolve := fun d => inr 0.012%float;
  completed_now := "2024-05-01T10:00:40";
  uuid4 := "0b7c1e0e-5f0a-4c55-9d0e-2f4f2f1f7a11";
  saved_now := "2024-05-01T10:00:41"
|}.

End Sample.

(** *** Notions used in the proofs *)

(** The envelope at [le] is being filled: it refers to the mapping at [lb],
    which has the entries [N], and has no completion time yet. *)
Definition filling (le lb : loc) (N : gset string) (s : World) : Prop :=
  results s = le /\ le <> lb /\
  exists e bm, objs s !! le = Some e /\ e !! "benchmarks" = Some (VRef lb)
               /\ e !! "completed_at" = None
               /\ objs s !! lb = Some bm /\ dom bm = N.

(** In a state whose current envelope is [le]: a completion time only with
    all four entries. *)
Definition completed_only_when_filled (le : loc) (s : World) : Prop :=
  results s = le -> is_Some (envelope_of s !! "completed_at") ->
  dom (benchmarks_of s) = adapter_names.

(** The text that a sequence of writes leaves in an empty file. *)
Definition written (chunks : list string) : string :=
  fold_right String.append "" chunks.

(** The statement [m] rewrites the backing file in place with the whole
    collection: after [before] writes that leave the file alone, the file
    is emptied and then filled chunk by chunk with the encoding of the
    collection as [m] leaves it. *)
Definition rewrites_in_place `{L : PyLib} {A} (m : M A) (before : nat) (w : World) : Prop :=
  let w' := run_world m w in
  let chunks := json_iterencode (objs w') (db_data w') in
  db_file w' = Some (written chunks)
  /\ files_during m w
     = replicate before (db_file w)
       ++ ((fun k => Some (written (take k chunks))) <$> seq 0 (S (length chunks))).

(** The id under which the record at [l] is stored, if it is a string. *)
Definition record_id (w : World) (l : loc) : option string :=
  match deref w l !! "id" with
  | Some (VStr i) => Some i
  | _ => None
  end.

(** The state in which [add_result] calls [save]. *)
Definition added (new_id now : string) (result : loc) (w : World) : World :=
  set_servers (servers w ++ [result])
    (store result "timestamp" (VStr now) (store result "id" (VStr new_id) w)).

(** A word without mb. *)
Definition no_mb (t : string) : Prop := PyStr.contains "mb" (PyStr.lower t) = false.

(** The message of the throughput probe for an exception. *)
Definition iperf_message (e : exn) : string :=
  match exn_cls e with
  | TimeoutExpired => "iperf3 timeout"
  | FileNotFoundError => "iperf3 not installed"
  | _ => exn_str e
  end.

(** The statement [m] adds [k] to the progress counter. *)
Definition advances {A} (m : M A) (k : Z) : Prop :=
  forall w, progress (prog (run_world m w)) = progress (prog w) + k.

(** The interaction [c] takes place whenever the statement [m] runs. *)
Definition logs {A} (c : call) (m : M A) : Prop :=
  forall w, c ∈ calls (run_log m w).

(** ** Host facts and the load of the store *)

(** The loop of [_get_cpu_model] over the lines of /proc/cpuinfo: the
    first line with the marker decides. *)
Fixpoint cpu_model_scan (ls : list string) : res string :=
  match ls with
  | [] => inr "Unknown"
  | line :: rest =>
      if PyStr.contains "model name" line
      then (field <- py_index (PyStr.split ":" line) 1 ;; inr (PyStr.strip field))%res
      else cpu_model_scan rest
  end.

(** [_get_cpu_model]; [cpuinfo] is what opening the file and iterating
    over it gives: the lines, or an exception. *)
Definition _get_cpu_model (cpuinfo : res (list string)) : string :=
  match (ls <- cpuinfo ;; cpu_model_scan ls)%res with
  | inr model => model
  | inl _ => "Unknown"
  end.

(** The collection without records. *)
Definition empty_data : value := VDict {[ "servers" := VList [] ]}.

(** [_load], for a backing file that can be read when it exists: what
    [json.load] returns, and the empty collection when the file does not
    exist or [json.load] raises. *)
Definition _load `{L : PyLib} (w : World) : value :=
  match db_file w with
  | Some text =>
      match json_loads text with
      | inr data => data
      | inl _ => empty_data
      end
  | None => empty_data
  end.

(** *** Further notions used in the statements *)

(** The value and the interactions of [m] do not depend on the state. *)
Definition state_free {A} (m : M A) : Prop :=
  forall w w', run_value m w = run_value m w'
               /\ calls (run_log m w) = calls (run_log m w').

(** The handlers that have not yet passed the start of a thread. *)
Definition pending (hs : list Server.handler) : nat :=
  length (List.filter (fun h => match h with
                                | Server.HCheck | Server.HStart => true
                                | _ => false
                                end) hs).

(** A run that has set the flag and not yet cleared it. *)
Definition holds_flag (r : Server.run) : Prop :=
  r = Server.RBenchmarks \/ r = Server.RClear.

(** [s] has the records, the backing file and the dict objects of [w]. *)
Definition keeps_store (w s : World) : Prop :=
  servers s = servers w /\ db_file s = db_file w
  /\ forall l, l ∈ dom (objs w) -> objs s !! l = objs w !! l.

(** The progress at the end of a run. *)
Definition final_progress : Progress :=
  mkProgress "Completed" 5 5 "All benchmarks completed!".

(** The statement [m] leaves the total of the progress as it is. *)
Definition keeps_total {A} (m : M A) : Prop :=
  forall w, total_tests (prog (run_world m w)) = total_tests (prog w).

(** *** Notions used in the further properties *)

(** The keys a probe of the network adapter may write. *)
Definition throughput_keys : list string :=
  ["throughput_send_mbps"; "throughput_recv_mbps"; "throughput_error"].

Definition latency_keys : list string :=
  ["latency_min_ms"; "latency_avg_ms"; "latency_max_ms"; "latency_gateway";
   "latency_error"].

(** A line of ping's report that is not the summary. *)
Definition no_summary (line : string) : bool :=
  negb (PyStr.contains "rtt min/avg/max" line
        || PyStr.contains "round-trip min/avg/max" line).

(** Additional hosts for the network adapter. *)
Module MoreSamples.

(** The iperf3 client and the route lookup end with exit status 1. *)
Definition refused_host : Env :=
  Sample.with_commands
    (fun c =>
       match c with
       | IperfClient => Some (inr (Completed 1 "" "iperf3: error - unable to connect to server"))
       | IpRouteDefault => Some (inr (Completed 1 "" ""))
       | _ => None
       end) Sample.network_host.

(** The route lookup prints two words only. *)
Definition short_route_host : Env :=
  Sample.with_commands
    (fun c =>
       match c with
       | IpRouteDefault => Some (Sample.ok "default via")
       | _ => None
       end) Sample.network_host.

(** A summary of ping whose average is not a number. *)
Definition ping_half_report : string :=
  PyStr.join_lines ["10 packets transmitted, 10 received, 0% packet loss, time 9012ms";
                    "rtt min/avg/max/mdev = 0.321/n.a/0.789/0.101 ms"].

Definition half_host : Env :=
  Sample.with_commands
    (fun c =>
       match c with
       | Ping _ => Some (Sample.ok ping_half_report)
       | _ => None
       end) Sample.network_host.

End MoreSamples.

(** The [try] block of the dd fallback reaches its last statement: both
    dd commands return and both trailers are read without an exception. *)
Definition dd_completes `{L : PyLib} (E : Env) (read_mib write_mib : value) : bool :=
  match subprocess_run E DdWrite with
  | inr dd_write =>
      match dd_scan write_mib (PyStr.lines (stderr dd_write)) with
      | (_, None) =>
          match subprocess_run E DdRead with
          | inr dd_read =>
              match dd_scan read_mib (PyStr.lines (stderr dd_read)) with
              | (_, None) => true
              | (_, Some _) => false
              end
          | inl _ => false
          end
      | (_, Some _) => false
      end
  | inl _ => false
  end.

(** The interactions of the dd fallback after the first one. *)
Definition dd_calls_after_write `{L : PyLib} (E : Env) (read_mib write_mib : value)
  : list call :=
  match subprocess_run E DdWrite with
  | inr dd_write =>
      match dd_scan write_mib (PyStr.lines (stderr dd_write)) with
      | (_, None) =>
          Run DdRead :: (if dd_completes E read_mib write_mib then [Run RmScratch] else [])
      | (_, Some _) => []
      end
  | inl _ => []
  end.

(** The current envelope is the object at [le] with the content [env], and
    its mapping of benchmarks is the object at [lb] with the content [bm]. *)
Definition holding (le lb : loc) (env bm : gmap string value) (s : World) : Prop :=
  results s = le /\ le <> lb /\ objs s !! le = Some env /\ objs s !! lb = Some bm
  /\ env !! "benchmarks" = Some (VRef lb).

(** The envelope as [run_all_benchmarks] creates it, with the name when
    one is given and not empty. *)
Definition new_envelope (E : Env) (custom_name : option string) (lb : loc)
  : gmap string value :=
  let base : gmap string value :=
    {[ "system_info" := VDict (get_system_info E); "benchmarks" := VRef lb ]} in
  if truthy custom_name
  then <["custom_name" := VStr (default "" custom_name)]> base
  else base.

(** A handler that has not yet passed the start of a thread. *)
Definition is_pending (h : Server.handler) : bool :=
  match h with
  | Server.HCheck | Server.HStart => true
  | _ => false
  end.

(** *** Shapes of the lines of dd's trailer *)
Module Trailer.

(** A part of a line that names a rate. *)
Definition has_rate (part : string) : bool :=
  PyStr.contains "mb/s" (PyStr.lower part) || PyStr.contains "gb/s" (PyStr.lower part).

(** A line that the loop over dd's stderr does not look at. *)
Definition other (line : string) : bool :=
  negb (PyStr.contains "bytes" line && PyStr.contains "copied" line).

(** The line is a trailer, and the first of its comma-separated parts
    that names a rate starts with the number [v]. *)
Definition gives `{L : PyLib} (line : string) (v : float) : Prop :=
  PyStr.contains "bytes" line && PyStr.contains "copied" line = true
  /\ exists pre part post tok,
       PyStr.split "," line = pre ++ part :: post
       /\ forallb (fun p => negb (has_rate p)) pre = true
       /\ has_rate part = true
       /\ py_index (PyStr.split_ws (PyStr.strip part)) 0 = inr tok
       /\ float_of_string tok = inr v.

End Trailer.

Module MoreDisk.

Definition dd_trailer (rate : string) : string :=
  PyStr.join_lines ["1024+0 records in"; "1024+0 records out";
                    ("1073741824 bytes (1.1 GB, 1.0 GiB) copied, 0.5 s, " ++ rate)%string].

(** sysbench prints nothing that the parser reads; dd reports 2.1 GB/s
    written and 850 MB/s read. *)
Definition dd_host : Env :=
  Sample.with_commands
    (fun c =>
       match c with
       | DdWrite => Some (inr (Completed 0 "" (dd_trailer "2.1 GB/s")))
       | DdRead => Some (inr (Completed 0 "" (dd_trailer "850 MB/s")))
       | RmScratch => Some (inr (Completed 0 "" ""))
       | _ => None
       end) (Sample.sysbench_host Sample.memory_report "").

End MoreDisk.

(** *** The exceptions of the probes of the network adapter *)

(** The statements of the latency probe at the summary line of ping, as
    a computation that returns the three figures or raises:
    [stats = line.split(=)[1].strip().split()[0]], the unpacking of
    [stats.split(/)] into four names, and the three calls of [float]. *)
Definition summary_figures `{L : PyLib} (line : string) : res (float * float * float) :=
  (after <- py_index (PyStr.split "=" line) 1 ;;
   stats <- py_index (PyStr.split_ws (PyStr.strip after)) 0 ;;
   match PyStr.split "/" stats with
   | [min_ms; avg_ms; max_ms; mdev] =>
       mn <- py_float min_ms ;;
       av <- py_float avg_ms ;;
       mx <- py_float max_ms ;;
       inr (mn, av, mx)
   | parts =>
       inl (Exn ValueError
              (if (length parts <? 4)%nat
               then ("not enough values to unpack (expected 4, got "
                     ++ pretty (length parts) ++ ")")%string
               else "too many values to unpack (expected 4)"))
   end)%res.

(** The [try] block of the throughput probe raises [e]: at the start of
    the server, at the client, at the wait for the server, or, the client
    having exited with status 0, at [json.loads] or at the reading of the
    sent or of the received rate. *)
Definition throughput_raises `{L : PyLib} (E : Env) (e : exn) : Prop :=
  popen_iperf_server E = inl e
  \/ exists u, popen_iperf_server E = inr u /\
       (subprocess_run E IperfClient = inl e
        \/ exists result, subprocess_run E IperfClient = inr result /\
             (wait_iperf_server E = inl e
              \/ exists u', wait_iperf_server E = inr u' /\ returncode result = 0 /\
                   ((exists m, json_loads (stdout result) = inl m /\ e = Exn ValueError m)
                    \/ exists data, json_loads (stdout result) = inr data /\
                         (mbps data "sum_sent" = inl e
                          \/ exists send, mbps data "sum_sent" = inr send
                                          /\ mbps data "sum_received" = inl e)))).

(** The [try] block of the latency probe raises [e]: at the route lookup,
    or, the lookup having exited with status 0, at the third word of its
    output, at ping, or, ping having exited with status 0, at the first
    summary line of its report. *)
Definition latency_raises `{L : PyLib} (E : Env) (e : exn) : Prop :=
  subprocess_run E IpRouteDefault = inl e
  \/ exists gw, subprocess_run E IpRouteDefault = inr gw /\ returncode gw = 0 /\
       (py_index (PyStr.split_ws (stdout gw)) 2 = inl e
        \/ exists gateway, py_index (PyStr.split_ws (stdout gw)) 2 = inr gateway /\
             (subprocess_run E (Ping gateway) = inl e
              \/ exists p, subprocess_run E (Ping gateway) = inr p /\ returncode p = 0 /\
                   exists pre line post,
                     PyStr.lines (stdout p) = pre ++ line :: post
                     /\ forallb no_summary pre = true /\ no_summary line = false
                     /\ summary_figures line = inl e)).

(** The [try] block of the DNS probe raises [e]: at the first domain that
    does not resolve. *)
Definition dns_raises (E : Env) (e : exn) : Prop :=
  exists done d rest,
    test_domains = done ++ d :: rest
    /\ Forall (fun x => exists t, resolve E x = inr t) done
    /\ resolve E d = inl e.

(** * Proofs *)

(** * Statements: how they run *)

Lemma run_bind {A B} (m : M A) (k : A -> M B) (w : World) :
  bind m k w
  = (run_value (k (run_value m w)) (run_world m w),
     run_world (k (run_value m w)) (run_world m w),
     run_log m w ++ run_log (k (run_value m w)) (run_world m w)).
Proof.
  unfold bind, run_value, run_world, run_log.
  destruct (m w) as [[a w1] t1]; simpl.
  destruct (k a w1) as [[b w2] t2]; reflexivity.
Qed.

Lemma run_value_bind {A B} (m : M A) (k : A -> M B) w :
  run_value (bind m k) w = run_value (k (run_value m w)) (run_world m w).
Proof. unfold run_value at 1. rewrite run_bind. reflexivity. Qed.

Lemma run_world_bind {A B} (m : M A) (k : A -> M B) w :
  run_world (bind m k) w = run_world (k (run_value m w)) (run_world m w).
Proof. unfold run_world at 1. rewrite run_bind. reflexivity. Qed.

Lemma run_log_bind {A B} (m : M A) (k : A -> M B) w :
  run_log (bind m k) w = run_log m w ++ run_log (k (run_value m w)) (run_world m w).
Proof. unfold run_log at 1. rewrite run_bind. reflexivity. Qed.

Lemma snaps_app (t1 t2 : list event) : snaps (t1 ++ t2) = snaps t1 ++ snaps t2.
Proof. apply omap_app. Qed.

Lemma calls_app (t1 t2 : list event) : calls (t1 ++ t2) = calls t1 ++ calls t2.
Proof. apply omap_app. Qed.

(** * Statements that write the progress only *)

Lemma same_frame_refl w : same_frame w w.
Proof. repeat split. Qed.

Lemma same_frame_trans w1 w2 w3 : same_frame w1 w2 -> same_frame w2 w3 -> same_frame w1 w3.
Proof. unfold same_frame. intros (?&?&?&?&?) (?&?&?&?&?). repeat split; congruence. Qed.

Lemma same_frame_set_prog w p : same_frame w (set_prog p w).
Proof. repeat split. Qed.

Lemma same_frame_eq w w' : same_frame w w' -> w' = set_prog (prog w') w.
Proof.
  destruct w, w'; unfold same_frame, set_prog; simpl.
  intros (?&?&?&?&?); subst; reflexivity.
Qed.

Lemma po_ret {A} (a : A) : progress_only (ret a).
Proof. intros w. split; [apply same_frame_refl | constructor]. Qed.

Lemma po_perform {A} c (a : A) : progress_only (perform c a).
Proof. intros w. split; [apply same_frame_refl | constructor]. Qed.

Lemma po_write_prog (f : Progress -> Progress) :
  progress_only (write (fun w => set_prog (f (prog w)) w)).
Proof.
  intros w. split; [apply same_frame_set_prog |].
  repeat constructor.
Qed.

Lemma po_bind {A B} (m : M A) (k : A -> M B) :
  progress_only m -> (forall a, progress_only (k a)) -> progress_only (bind m k).
Proof.
  intros Hm Hk w. rewrite run_world_bind, run_log_bind, snaps_app.
  destruct (Hm w) as [Hw Ht].
  destruct (Hk (run_value m w) (run_world m w)) as [Hw' Ht'].
  split; [eapply same_frame_trans; eauto |].
  apply Forall_app; split; [exact Ht |].
  eapply Forall_impl; [exact Ht' |].
  intros s Hs. eapply same_frame_trans; eauto.
Qed.

Lemma po_set_current_test s : progress_only (set_current_test s).
Proof. apply (po_write_prog (fun p => mkProgress s (progress p) (total_tests p) (message p))). Qed.
Lemma po_set_message s : progress_only (set_message s).
Proof. apply (po_write_prog (fun p => mkProgress (current_test p) (progress p) (total_tests p) s)). Qed.
Lemma po_set_progress n : progress_only (set_progress n).
Proof. apply (po_write_prog (fun p => mkProgress (current_test p) n (total_tests p) (message p))). Qed.
Lemma po_incr_progress : progress_only incr_progress.
Proof. apply (po_write_prog (fun p => mkProgress (current_test p) (progress p + 1) (total_tests p) (message p))). Qed.

Ltac po_step :=
  lazymatch goal with
  | |- progress_only (bind _ _) => apply po_bind; [| intros ?]
  | |- progress_only (ret _) => apply po_ret
  | |- progress_only (perform _ _) => apply po_perform
  | |- progress_only (subprocess _ _) => apply po_perform
  | |- progress_only (set_current_test _) => apply po_set_current_test
  | |- progress_only (set_message _) => apply po_set_message
  | |- progress_only (set_progress _) => apply po_set_progress
  | |- progress_only incr_progress => apply po_incr_progress
  | |- progress_only (match ?x with _ => _ end) => destruct x
  end.
Ltac po := repeat po_step.

Section AdaptersFrame.
Context `{L : PyLib}.
Variable E : Env.

Lemma po_sysbench_except e : progress_only (sysbench_except e).
Proof. unfold sysbench_except. po. Qed.

Lemma po_cpu : progress_only (run_cpu_benchmark E).
Proof. unfold run_cpu_benchmark. po; apply po_sysbench_except. Qed.

Lemma po_memory : progress_only (run_memory_benchmark E).
Proof. unfold run_memory_benchmark. po; apply po_sysbench_except. Qed.

Lemma po_dd_fallback r w : progress_only (dd_fallback E r w).
Proof. unfold dd_fallback. po. Qed.

Lemma po_disk : progress_only (run_disk_benchmark E).
Proof. unfold run_disk_benchmark, disk_except. po; apply po_dd_fallback. Qed.

Lemma po_dns_loop ds ts : progress_only (dns_loop E ds ts).
Proof. revert ts. induction ds as [|d ds IH]; intros ts; simpl; po. apply IH. Qed.

Lemma po_network : progress_only (run_network_benchmark E).
Proof.
  unfold run_network_benchmark, counters_probe, throughput_probe, latency_probe, dns_probe.
  po; apply po_dns_loop.
Qed.
End AdaptersFrame.

(** * Triples *)

Lemma triple_bind {A B} P (m : M A) Q (k : A -> M B) R I :
  triple P m Q I -> (forall a, triple (Q a) (k a) R I) -> triple P (bind m k) R I.
Proof.
  intros Hm Hk w HP.
  rewrite run_value_bind, run_world_bind, run_log_bind, snaps_app.
  destruct (Hm w HP) as [HQ Ht].
  destruct (Hk _ _ HQ) as [HR Ht'].
  split; [exact HR | apply Forall_app; split; assumption].
Qed.

Lemma triple_write (P : World -> Prop) f (Q : unit -> World -> Prop) (I : World -> Prop) :
  (forall w, P w -> Q tt (f w) /\ I (f w)) -> triple P (write f) Q I.
Proof.
  intros Hf w HP. destruct (Hf w HP) as [HQ HI].
  split; [exact HQ | repeat constructor; exact HI].
Qed.

Lemma triple_ret {A} (P : World -> Prop) (a : A) (Q : A -> World -> Prop) I :
  (forall w, P w -> Q a w) -> triple P (ret a) Q I.
Proof. intros Hq w HP. split; [apply Hq, HP | constructor]. Qed.

Lemma triple_get {A} (P : World -> Prop) (f : World -> A) (Q : A -> World -> Prop) I :
  (forall w, P w -> Q (f w) w) -> triple P (get f) Q I.
Proof. intros Hq w HP. split; [apply Hq, HP | constructor]. Qed.

Lemma triple_alloc (P : World -> Prop) d (Q : loc -> World -> Prop) I :
  (forall w, P w ->
     Q (fresh (dom (objs w))) (set_objs (<[fresh (dom (objs w)) := d]> (objs w)) w)) ->
  triple P (alloc d) Q I.
Proof. intros Hq w HP. split; [apply Hq, HP | constructor]. Qed.

(** A statement that writes the progress only keeps an assertion and an
    invariant that do not read the progress. *)
Lemma triple_frame {A} (m : M A) (P I : World -> Prop) (V : A -> Prop) :
  progress_only m ->
  (forall w, V (run_value m w)) ->
  (forall w p, P w -> P (set_prog p w) /\ I (set_prog p w)) ->
  triple P m (fun a s => V a /\ P s) I.
Proof.
  intros Hm HV Hp w HP. destruct (Hm w) as [Hw Ht].
  split.
  - split; [apply HV |]. rewrite (same_frame_eq _ _ Hw). apply Hp, HP.
  - eapply Forall_impl; [exact Ht |].
    intros s Hs. rewrite (same_frame_eq _ _ Hs). apply Hp, HP.
Qed.

(** * The envelope while a run fills it *)

Lemma filling_set_prog le lb N s p : filling le lb N s -> filling le lb N (set_prog p s).
Proof. intros H. exact H. Qed.

Lemma filling_inv le lb N s : filling le lb N s -> completed_only_when_filled le s.
Proof.
  intros (Hr & Hne & e & bm & He & Hb & Hc & Hbm & Hd) _ [v Hv].
  unfold envelope_of, deref in Hv. rewrite Hr, He in Hv. simpl in Hv. congruence.
Qed.

Lemma filling_store le lb N s name v :
  filling le lb N s -> filling le lb ({[ name ]} ∪ N) (benchmarks_set name v s).
Proof.
  intros (Hr & Hne & e & bm & He & Hb & Hc & Hbm & Hd).
  unfold benchmarks_set, deref. rewrite Hr, He. simpl. rewrite Hb.
  unfold store, deref. rewrite Hbm. simpl.
  split; [exact Hr |]. split; [exact Hne |].
  exists e, (<[name := v]> bm). simpl.
  rewrite lookup_insert_ne by congruence. rewrite lookup_insert_eq.
  repeat split; try assumption.
  rewrite dom_insert_L, Hd. reflexivity.
Qed.

Lemma filling_custom_name le lb N s v :
  filling le lb N s -> filling le lb N (results_set "custom_name" v s).
Proof.
  intros (Hr & Hne & e & bm & He & Hb & Hc & Hbm & Hd).
  unfold results_set, store, deref. rewrite Hr, He. simpl.
  split; [exact Hr |]. split; [exact Hne |].
  exists (<["custom_name" := v]> e), bm. simpl.
  rewrite lookup_insert_eq.
  rewrite (lookup_insert_ne _ le lb) by exact Hne.
  rewrite !lookup_insert_ne by discriminate.
  repeat split; assumption.
Qed.

(** The envelope at [le] is complete: all [N] entries and a completion time. *)
Lemma filling_completed le lb N s v :
  filling le lb N s ->
  let s' := results_set "completed_at" v s in
  results s' = le /\ envelope_of s' !! "completed_at" = Some v /\ dom (benchmarks_of s') = N.
Proof.
  intros (Hr & Hne & e & bm & He & Hb & Hc & Hbm & Hd). simpl.
  unfold benchmarks_of, envelope_of, results_set, store, deref; simpl.
  rewrite Hr, He. simpl. rewrite !lookup_insert_eq. simpl.
  rewrite lookup_insert_eq, lookup_insert_ne by discriminate. rewrite Hb.
  rewrite lookup_insert_ne by congruence. rewrite Hbm. simpl.
  repeat split; assumption.
Qed.

Lemma unallocated_inv le s : objs s !! le = None -> completed_only_when_filled le s.
Proof.
  intros Hn Hr [v Hv]. unfold envelope_of, deref in Hv.
  rewrite Hr, Hn in Hv. simpl in Hv. rewrite lookup_empty in Hv. discriminate.
Qed.

Lemma triple_frame_filling {A} `{L : PyLib} (m : M A) le lb N :
  progress_only m ->
  triple (filling le lb N) m (fun _ => filling le lb N) (completed_only_when_filled le).
Proof.
  intros Hm w HP. destruct (Hm w) as [Hw Ht].
  split.
  - rewrite (same_frame_eq _ _ Hw). exact HP.
  - eapply Forall_impl; [exact Ht |].
    intros s Hs. rewrite (same_frame_eq _ _ Hs). eapply filling_inv, HP.
Qed.

Section RunAll.
Context `{L : PyLib}.
Variable E : Env.
Variable custom_name : option string.
Variable w0 : World.

Let lb : loc := fresh (dom (objs w0)).
Let le : loc := fresh (dom (<[lb := ∅]> (objs w0))).

Lemma le_fresh : <[lb := (∅ : gmap string value)]> (objs w0) !! le = None.
Proof. apply not_elem_of_dom. apply is_fresh. Qed.

Lemma le_lb : le <> lb.
Proof.
  intros Heq. pose proof le_fresh as Hf. rewrite Heq, lookup_insert_eq in Hf. discriminate.
Qed.

Lemma le_unallocated : objs w0 !! le = None.
Proof.
  pose proof le_fresh as Hf. rewrite lookup_insert_ne in Hf; [exact Hf |].
  intros Heq. apply le_lb. symmetry. exact Heq.
Qed.

Lemma run_all_triple :
  triple (fun s => s = w0) (run_all_benchmarks E custom_name)
    (fun l s => l = le /\ results s = le
                /\ envelope_of s !! "completed_at" = Some (VStr (completed_now E))
                /\ dom (benchmarks_of s) = adapter_names)
    (completed_only_when_filled le).
Proof.
  unfold run_all_benchmarks.
  (* self.running = True *)
  eapply triple_bind with (Q := fun _ s => objs s = objs w0).
  { apply triple_write. intros w ->. split; [reflexivity |].
    apply unallocated_inv. apply le_unallocated. }
  intros ?; cbv beta.
  (* self.progress = {...} *)
  eapply triple_bind with (Q := fun _ s => objs s = objs w0).
  { apply triple_write. intros w Hw. split; [exact Hw |].
    apply unallocated_inv. simpl. rewrite Hw. apply le_unallocated. }
  intros ?; cbv beta.
  (* the two dict objects *)
  eapply triple_bind with (Q := fun l s => l = lb /\ objs s = <[lb := ∅]> (objs w0)).
  { apply triple_alloc. intros w Hw. simpl. rewrite Hw. split; reflexivity. }
  intros benchmarks.
  eapply triple_bind with
    (Q := fun l s => l = le /\
            objs s = <[le := {[ "system_info" := VDict (get_system_info E);
                                "benchmarks" := VRef lb ]}]> (<[lb := ∅]> (objs w0))).
  { apply triple_alloc. intros w [-> Hw]. simpl. rewrite Hw. split; reflexivity. }
  intros envelope.
  (* self.results = ... *)
  eapply triple_bind with (Q := fun _ => filling le lb ∅).
  { apply triple_write. intros w [-> Hw].
    assert (Hf : filling le lb ∅ (set_results le w)).
    { split; [reflexivity |]. split; [apply le_lb |].
      eexists _, ∅. simpl. rewrite Hw.
      split; [apply lookup_insert_eq |].
      split; [reflexivity |]. split; [reflexivity |].
      split; [| apply dom_empty_L].
      rewrite lookup_insert_ne by apply le_lb. apply lookup_insert_eq. }
    split; [exact Hf | eapply filling_inv, Hf]. }
  intros ?; cbv beta.
  (* if custom_name: ... *)
  eapply triple_bind with (Q := fun _ => filling le lb ∅).
  { destruct (truthy custom_name).
    - apply triple_write. intros w Hf.
      pose proof (filling_custom_name _ _ _ _ (VStr (default "" custom_name)) Hf) as Hf'.
      split; [exact Hf' | eapply filling_inv, Hf'].
    - apply triple_ret. auto. }
  intros ?; cbv beta.
  eapply triple_bind; [apply triple_frame_filling, po_set_progress | intros ?; cbv beta].
  (* the four adapters *)
  eapply triple_bind; [apply triple_frame_filling, po_cpu | intros cpu].
  eapply triple_bind with (Q := fun _ => filling le lb _).
  { apply triple_write. intros w Hf.
    pose proof (filling_store _ _ _ _ "cpu" (VDict cpu) Hf) as Hf'.
    split; [exact Hf' | eapply filling_inv, Hf']. }
  intros ?; cbv beta.
  eapply triple_bind; [apply triple_frame_filling, po_memory | intros memory].
  eapply triple_bind with (Q := fun _ => filling le lb _).
  { apply triple_write. intros w Hf.
    pose proof (filling_store _ _ _ _ "memory" (VDict memory) Hf) as Hf'.
    split; [exact Hf' | eapply filling_inv, Hf']. }
  intros ?; cbv beta.
  eapply triple_bind; [apply triple_frame_filling, po_disk | intros disk].
  eapply triple_bind with (Q := fun _ => filling le lb _).
  { apply triple_write. intros w Hf.
    pose proof (filling_store _ _ _ _ "disk" (VDict disk) Hf) as Hf'.
    split; [exact Hf' | eapply filling_inv, Hf']. }
  intros ?; cbv beta.
  eapply triple_bind; [apply triple_frame_filling, po_network | intros network].
  eapply triple_bind with (Q := fun _ => filling le lb _).
  { apply triple_write. intros w Hf.
    pose proof (filling_store _ _ _ _ "network" (VDict network) Hf) as Hf'.
    split; [exact Hf' | eapply filling_inv, Hf']. }
  intros ?; cbv beta.
  (* the end of the run *)
  eapply triple_bind; [apply triple_frame_filling, po_set_current_test | intros ?; cbv beta].
  eapply triple_bind; [apply triple_frame_filling, po_set_progress | intros ?; cbv beta].
  eapply triple_bind; [apply triple_frame_filling, po_set_message | intros ?; cbv beta].
  eapply triple_bind with
    (Q := fun _ s => results s = le
                     /\ envelope_of s !! "completed_at" = Some (VStr (completed_now E))
                     /\ dom (benchmarks_of s) = adapter_names).
  { apply triple_write. intros w Hf.
    destruct (filling_completed _ _ _ _ (VStr (completed_now E)) Hf) as (Hr & Hc & Hd).
    assert (Hd' : dom (benchmarks_of (results_set "completed_at" (VStr (completed_now E)) w))
                  = adapter_names).
    { rewrite Hd. unfold adapter_names. set_solver. }
    split; [repeat split; assumption |].
    intros _ _. exact Hd'. }
  intros ?; cbv beta.
  eapply triple_bind with
    (Q := fun _ s => results s = le
                     /\ envelope_of s !! "completed_at" = Some (VStr (completed_now E))
                     /\ dom (benchmarks_of s) = adapter_names).
  { apply triple_write. intros w (Hr & Hc & Hd).
    split; [repeat split; assumption |].
    intros _ _. exact Hd. }
  intros ?; cbv beta.
  apply triple_get. intros w (Hr & Hc & Hd). repeat split; assumption.
Qed.
End RunAll.


(** * The result store *)

Lemma append_cons (c : ascii) (s t : string) :
  (String c s ++ t)%string = String c (s ++ t)%string.
Proof. reflexivity. Qed.

Lemma append_empty_r (s : string) : (s ++ "")%string = s.
Proof.
  induction s as [|c s IH]; [reflexivity |].
  rewrite append_cons, IH. reflexivity.
Qed.

Lemma append_assoc (a b c : string) : ((a ++ b) ++ c)%string = (a ++ (b ++ c))%string.
Proof.
  induction a as [|x a IH]; [reflexivity |].
  rewrite !append_cons, IH. reflexivity.
Qed.

Lemma written_snoc (cs : list string) (c : string) :
  written (cs ++ [c]) = (written cs ++ c)%string.
Proof.
  induction cs as [|x cs IH]; simpl.
  - apply append_empty_r.
  - rewrite IH, append_assoc. reflexivity.
Qed.

Section Store.
Context `{L : PyLib}.

(** Writing the chunks [cs] after the chunks [done]. *)
Lemma write_chunks_spec (cs done : list string) (w : World) :
  db_file w = Some (written done) ->
  run_world (write_chunks cs) w = set_db_file (Some (written (done ++ cs))) w
  /\ snaps (run_log (write_chunks cs) w)
     = (fun k => set_db_file (Some (written (take k (done ++ cs)))) w)
         <$> seq (S (length done)) (length cs).
Proof.
  revert done w. induction cs as [|c cs IH]; intros done w Hf.
  - simpl. rewrite app_nil_r. split; [| reflexivity].
    destruct w; unfold set_db_file; simpl in *. rewrite Hf. reflexivity.
  - cbn [write_chunks]. rewrite run_world_bind, run_log_bind, snaps_app.
    set (w1 := set_db_file (Some (written (done ++ [c]))) w).
    assert (Hw1 : run_world (write (fun w => set_db_file
                     (Some (default "" (db_file w) ++ c)%string) w)) w = w1).
    { unfold w1. cbn. rewrite Hf. simpl. rewrite written_snoc. reflexivity. }
    assert (Hl1 : snaps (run_log (write (fun w => set_db_file
                     (Some (default "" (db_file w) ++ c)%string) w)) w) = [w1]).
    { unfold w1. cbn. rewrite Hf. simpl. rewrite written_snoc. reflexivity. }
    rewrite Hw1, Hl1.
    destruct (IH (done ++ [c]) w1 eq_refl) as [IHw IHt].
    rewrite IHw, IHt.
    assert (Hlen : length (done ++ [c]) = S (length done)).
    { rewrite length_app. simpl. lia. }
    assert (Happ : (done ++ [c]) ++ cs = done ++ c :: cs).
    { rewrite <- app_assoc. reflexivity. }
    rewrite Hlen, Happ.
    split; [reflexivity |].
    cbn [length seq fmap list_fmap app].
    f_equal.
    unfold w1. rewrite <- Happ, <- Hlen, take_app_length. reflexivity.
Qed.

Lemma save_world (w : World) :
  run_world save w
  = set_db_file (Some (written (json_iterencode (objs w) (db_data w)))) w.
Proof.
  unfold save. rewrite !run_world_bind. cbn [run_value run_world write get fst snd].
  destruct (write_chunks_spec (json_iterencode (objs w) (db_data w)) []
              (set_db_file (Some "") w) eq_refl) as [Hw _].
  exact Hw.
Qed.

Lemma save_files (w : World) :
  files_during save w
  = (fun k => Some (written (take k (json_iterencode (objs w) (db_data w)))))
      <$> seq 0 (S (length (json_iterencode (objs w) (db_data w)))).
Proof.
  unfold files_during, save. rewrite !run_log_bind, !snaps_app.
  cbn [run_value run_world run_log write get fst snd]. simpl snaps at 1 2.
  destruct (write_chunks_spec (json_iterencode (objs w) (db_data w)) []
              (set_db_file (Some "") w) eq_refl) as [_ Ht].
  change (objs (set_db_file (Some "") w)) with (objs w).
  change (db_data (set_db_file (Some "") w)) with (db_data w).
  rewrite Ht. cbn [app length seq fmap list_fmap].
  f_equal. rewrite <- list_fmap_compose. reflexivity.
Qed.
End Store.

Section StoreOps.
Context `{L : PyLib}.

Lemma add_result_world new_id now result w :
  run_world (add_result new_id now result) w = run_world save (added new_id now result w).
Proof. unfold add_result. rewrite !run_world_bind. reflexivity. Qed.

Lemma add_result_log new_id now result w :
  run_log (add_result new_id now result) w
  = [Snap (store result "id" (VStr new_id) w);
     Snap (store result "timestamp" (VStr now) (store result "id" (VStr new_id) w));
     Snap (added new_id now result w)]
    ++ run_log save (added new_id now result w).
Proof.
  unfold add_result. rewrite !run_log_bind. cbn [run_log write get snd].
  rewrite app_nil_r. reflexivity.
Qed.

Lemma deref_added new_id now result w :
  deref (added new_id now result w) result
  = <["timestamp" := VStr now]> (<["id" := VStr new_id]> (deref w result)).
Proof.
  unfold added, deref, store; simpl. unfold deref; simpl.
  rewrite !lookup_insert_eq. reflexivity.
Qed.

Lemma deref_added_other new_id now result w l :
  l <> result -> deref (added new_id now result w) l = deref w l.
Proof.
  intros Hne. unfold added, deref, store; simpl.
  rewrite !lookup_insert_ne by congruence. reflexivity.
Qed.

Lemma deref_save w l : deref (run_world save w) l = deref w l.
Proof. rewrite save_world. reflexivity. Qed.

Lemma delete_world result_id w :
  run_world (delete result_id) w
  = run_world save (set_servers (List.filter (id_differs w result_id) (servers w)) w).
Proof. unfold delete. rewrite !run_world_bind. reflexivity. Qed.

Lemma clear_all_world w : run_world clear_all w = run_world save (set_servers [] w).
Proof. unfold clear_all. rewrite !run_world_bind. reflexivity. Qed.

Lemma id_differs_spec w result_id l :
  id_differs w result_id l = true <-> record_id w l <> Some result_id.
Proof.
  unfold id_differs, record_id.
  destruct (deref w l !! "id") as [[| | | |i| | |]|]; try (split; [discriminate | reflexivity]).
  destruct (String.eqb_spec i result_id) as [->|Hne]; simpl.
  - split; [discriminate | intros H; exfalso; apply H; reflexivity].
  - split; [intros _ Heq; apply Hne; congruence | reflexivity].
Qed.

Lemma filter_sublist {A} (f : A -> bool) (l : list A) : sublist (List.filter f l) l.
Proof.
  induction l as [|x l IH]; simpl; [constructor |].
  destruct (f x); [apply sublist_skip | apply sublist_cons]; exact IH.
Qed.

Lemma filter_all {A} (f : A -> bool) (l : list A) :
  (forall x, x ∈ l -> f x = true) -> List.filter f l = l.
Proof.
  induction l as [|x l IH]; intros Hall; simpl; [reflexivity |].
  rewrite (Hall x) by apply list_elem_of_here.
  f_equal. apply IH. intros y Hy. apply Hall. apply list_elem_of_further, Hy.
Qed.

Lemma filter_one {A} (f : A -> bool) (pre post : list A) (x : A) :
  f x = false -> (forall y, y ∈ pre ++ post -> f y = true) ->
  List.filter f (pre ++ x :: post) = pre ++ post.
Proof.
  intros Hx Hall. rewrite List.filter_app. simpl. rewrite Hx.
  rewrite <- List.filter_app. apply filter_all, Hall.
Qed.
End StoreOps.

(** C2 (as amended). Every mutating call of the store rewrites the backing
    file in place with the whole collection: the file is first emptied,
    then filled chunk by chunk, and when the call returns it holds the
    encoding of the collection as the call leaves it. *)
Theorem mutations_rewrite_file_in_place `{L : PyLib} (w : World)
    (new_id now result_id : string) (result : loc) :
  rewrites_in_place (add_result new_id now result) 3 w
  /\ rewrites_in_place (delete result_id) 1 w
  /\ rewrites_in_place clear_all 1 w.
Proof.
  unfold rewrites_in_place. repeat split.
  - rewrite add_result_world, save_world. reflexivity.
  - unfold files_during. rewrite add_result_log, snaps_app, fmap_app.
    rewrite add_result_world, save_world.
    change (db_file <$> snaps (run_log save (added new_id now result w)))
      with (files_during save (added new_id now result w)).
    rewrite save_files. reflexivity.
  - rewrite delete_world, save_world. reflexivity.
  - unfold files_during, delete. rewrite run_log_bind, snaps_app, fmap_app.
    rewrite run_world_bind, save_world.
    cbn [run_log run_world run_value write fst snd].
    change (db_file <$> snaps (run_log save ?x)) with (files_during save x).
    rewrite save_files. reflexivity.
  - rewrite clear_all_world, save_world. reflexivity.
  - unfold files_during, clear_all. rewrite run_log_bind, snaps_app, fmap_app.
    rewrite run_world_bind, save_world.
    cbn [run_log run_world run_value write fst snd].
    change (db_file <$> snaps (run_log save ?x)) with (files_during save x).
    rewrite save_files. reflexivity.
Qed.

(** C5. [add_result] appends the envelope it is given, which from then on
    is the same record except for the keys id and timestamp, and returns the
    new id; [delete] keeps, in order, exactly the records whose id is not
    the given one, which leaves the collection as it is when no record has
    that id and removes one record when one record has it; after
    [clear_all] the collection is empty. *)
Theorem store_round_trip `{L : PyLib} (w : World) (new_id now result_id : string)
    (e : loc) :
  (let w' := run_world (add_result new_id now e) w in
   run_value get_all w' = run_value get_all w ++ [e]
   /\ deref w' e = <["timestamp" := VStr now]> (<["id" := VStr new_id]> (deref w e))
   /\ (forall k, k <> "id" -> k <> "timestamp" -> deref w' e !! k = deref w e !! k)
   /\ (forall l, l <> e -> deref w' l = deref w l)
   /\ run_value (add_result new_id now e) w = VStr new_id)
  /\ (let w' := run_world (delete result_id) w in
      (forall l, l ∈ run_value get_all w'
                 <-> l ∈ run_value get_all w /\ record_id w l <> Some result_id)
      /\ sublist (run_value get_all w') (run_value get_all w)
      /\ objs w' = objs w
      /\ ((forall l, l ∈ run_value get_all w -> record_id w l <> Some result_id) ->
          run_value get_all w' = run_value get_all w)
      /\ (forall pre l post,
            run_value get_all w = pre ++ l :: post ->
            record_id w l = Some result_id ->
            (forall l', l' ∈ pre ++ post -> record_id w l' <> Some result_id) ->
            run_value get_all w' = pre ++ post))
  /\ run_value get_all (run_world clear_all w) = [].
Proof.
  split; [| split].
  - cbv zeta. rewrite add_result_world, save_world.
    change (run_value get_all (set_db_file ?f ?x)) with (servers x).
    change (deref (set_db_file ?f ?x)) with (deref x).
    split; [reflexivity |].
    split; [apply deref_added |].
    split.
    { intros k Hid Hts. rewrite deref_added.
      rewrite !lookup_insert_ne by congruence. reflexivity. }
    split; [intros l Hl; apply deref_added_other, Hl |].
    unfold add_result. rewrite !run_value_bind.
    cbn [run_value get fst].
    change (run_world (write ?f) ?x) with (f x).
    rewrite deref_save.
    change (set_servers (servers ?x ++ [e]) ?x) with (added new_id now e w).
    rewrite deref_added, lookup_insert_ne by discriminate.
    rewrite lookup_insert_eq. reflexivity.
  - cbv zeta. rewrite delete_world, save_world.
    change (run_value get_all (set_db_file ?f ?x)) with (servers x).
    change (run_value get_all w) with (servers w).
    cbn [servers set_servers objs set_db_file].
    split.
    { intros l. rewrite !list_elem_of_In, List.filter_In, id_differs_spec. reflexivity. }
    split; [apply filter_sublist |].
    split; [reflexivity |].
    split.
    { intros Hall. apply filter_all. intros l Hl. apply id_differs_spec, Hall, Hl. }
    intros pre l post Heq Hl Hothers. rewrite Heq. apply filter_one.
    + destruct (id_differs w result_id l) eqn:Hd; [| reflexivity].
      apply id_differs_spec in Hd. contradiction.
    + intros l' Hl'. apply id_differs_spec, Hothers, Hl'.
  - rewrite clear_all_world, save_world. reflexivity.
Qed.

(** * The CPU adapter *)

Ltac run_simpl :=
  repeat first
    [ rewrite run_value_bind | rewrite run_world_bind | rewrite run_log_bind
    | progress cbn [run_value run_world run_log perform subprocess write ret get fst snd] ].

Section Cpu.
Context `{L : PyLib}.
Variable E : Env.




Lemma sysbench_except_value e w :
  run_value (sysbench_except e) w
  = error_result match exn_cls e with
                 | TimeoutExpired => "Timeout"
                 | FileNotFoundError => "sysbench not installed"
                 | _ => exn_str e
                 end.
Proof. unfold sysbench_except. destruct (exn_cls e); reflexivity. Qed.



End Cpu.


(** * The disk adapter *)

Section Disk.
Context `{L : PyLib}.
Variable E : Env.

Lemma result3_status (a b : value) :
  ({[ "read_mib_per_sec" := a; "write_mib_per_sec" := b;
      "status" := VStr "completed" ]} : gmap string value) !! "status"
  = Some (VStr "completed").
Proof.
  rewrite !lookup_insert_ne by discriminate. apply lookup_singleton_eq.
Qed.

Lemma result3_error (a b : value) :
  ({[ "read_mib_per_sec" := a; "write_mib_per_sec" := b;
      "status" := VStr "completed" ]} : gmap string value) !! "error" = None.
Proof.
  rewrite !lookup_insert_ne by discriminate. apply lookup_singleton_ne. discriminate.
Qed.

(** The adapter once the three stages have returned. *)
Lemma run_disk_measured prep result c w :
  subprocess_run E FileioPrepare = inr prep ->
  subprocess_run E FileioRun = inr result ->
  subprocess_run E FileioCleanup = inr c ->
  exists measured : value * value,
    run_value (run_disk_benchmark E) w
    = {[ "read_mib_per_sec" := measured.1; "write_mib_per_sec" := measured.2;
         "status" := VStr "completed" ]}
    /\ (num_is_zero (disk_parse (stdout result)).1
        && num_is_zero (disk_parse (stdout result)).2 = false ->
        measured = disk_parse (stdout result)).
Proof.
  intros Hp Hr Hc. unfold run_disk_benchmark. run_simpl.
  rewrite Hp. run_simpl. rewrite Hr. run_simpl. rewrite Hc. run_simpl.
  eexists. split; [reflexivity |].
  intros Hz. rewrite Hz. reflexivity.
Qed.

Lemma run_disk_cleanup_raises prep result e w :
  subprocess_run E FileioPrepare = inr prep ->
  subprocess_run E FileioRun = inr result ->
  subprocess_run E FileioCleanup = inl e ->
  run_value (run_disk_benchmark E) w = error_result (exn_str e)
  /\ calls (run_log (run_disk_benchmark E) w)
     = [Run FileioPrepare; Run FileioRun; Run FileioCleanup].
Proof.
  intros Hp Hr Hc. unfold run_disk_benchmark. run_simpl.
  rewrite Hp. run_simpl. rewrite Hr. run_simpl. rewrite Hc.
  unfold disk_except. run_simpl. split; reflexivity.
Qed.

Lemma run_disk_calls prep result w :
  subprocess_run E FileioPrepare = inr prep ->
  subprocess_run E FileioRun = inr result ->
  take 3 (calls (run_log (run_disk_benchmark E) w))
  = [Run FileioPrepare; Run FileioRun; Run FileioCleanup].
Proof.
  intros Hp Hr. unfold run_disk_benchmark. run_simpl.
  rewrite Hp. run_simpl. rewrite Hr. run_simpl.
  rewrite !calls_app. reflexivity.
Qed.
End Disk.

(** C7 (as amended). When the prepare and the run stage return, the
    cleanup is invoked next, before the report is parsed; if the cleanup
    returns, whatever its exit status, the adapter's result is a completed
    one; if the cleanup invocation raises, the adapter's result is an
    error with that exception's message. *)
Theorem disk_cleanup_runs_and_may_fail_the_adapter `{L : PyLib} (E : Env) (w : World)
    (prep result : completed) :
  subprocess_run E FileioPrepare = inr prep ->
  subprocess_run E FileioRun = inr result ->
  let r := run_value (run_disk_benchmark E) w in
  take 3 (calls (run_log (run_disk_benchmark E) w))
  = [Run FileioPrepare; Run FileioRun; Run FileioCleanup]
  /\ (forall c, subprocess_run E FileioCleanup = inr c ->
                r !! "status" = Some (VStr "completed") /\ r !! "error" = None)
  /\ (forall e, subprocess_run E FileioCleanup = inl e -> r = error_result (exn_str e)).
Proof.
  intros Hp Hr. cbv zeta.
  split; [eapply run_disk_calls; eassumption |].
  split.
  - intros c Hc.
    destruct (run_disk_measured E prep result c w Hp Hr Hc) as (m & -> & _).
    split; [apply result3_status | apply result3_error].
  - intros e He. eapply run_disk_cleanup_raises; eassumption.
Qed.

(** * The parse of the fileio report *)

Section Legacy.
Context `{L : PyLib}.

Lemma py_index_app_last {A} (xs ys : list A) (x : A) :
  py_index (xs ++ x :: ys) (length xs) = inr x.
Proof.
  unfold py_index.
  rewrite nth_error_app2 by lia. rewrite Nat.sub_diag. reflexivity.
Qed.

(** Past the first word, the inner loop skips the words without mb and
    stops at the first word with mb. *)
Lemma legacy_figure_skips parts unit post xs i :
  (0 < i)%nat ->
  PyStr.contains "mb" (PyStr.lower unit) = true ->
  Forall no_mb xs ->
  legacy_figure parts i (xs ++ unit :: post)
  = (tok <- py_index parts (i + length xs - 1) ;;
     mb <- py_float tok ;;
     inr (Some (PrimFloat.mul mb mb_to_mib)))%res.
Proof.
  intros Hi Hu Hxs. revert i Hi.
  induction Hxs as [|x xs Hx _ IH]; intros i Hi; simpl.
  - rewrite Hu. destruct (Nat.ltb_spec 0 i) as [_|]; [| lia]. simpl.
    rewrite Nat.add_0_r. reflexivity.
  - unfold no_mb in Hx. rewrite Hx. simpl.
    rewrite IH by lia. do 2 f_equal. lia.
Qed.

Lemma legacy_figure_of l fig v :
  Report.figure_of l fig -> float_of_string fig = inr v ->
  legacy_figure (PyStr.split_ws l) 0 (PyStr.split_ws l)
  = inr (Some (PrimFloat.mul v mb_to_mib)).
Proof.
  intros (pre & unit & post & Hs & Hu & Hno) Hf. rewrite Hs.
  assert (Hne : exists x xs, pre ++ [fig] = x :: xs).
  { destruct pre as [|x pre]; simpl; eauto. }
  destruct Hne as (x & xs & Hx). rewrite Hx in Hno. simpl in Hno.
  replace (pre ++ fig :: unit :: post) with ((x :: xs) ++ unit :: post)
    by (rewrite <- Hx, <- app_assoc; reflexivity).
  cbn [legacy_figure app]. rewrite andb_false_r.
  rewrite (legacy_figure_skips _ unit post xs 1) by (try lia; assumption).
  replace (1 + length xs - 1)%nat with (length pre).
  2:{ apply (f_equal (@length _)) in Hx. rewrite length_app in Hx. simpl in Hx. lia. }
  change (x :: xs ++ unit :: post) with ((x :: xs) ++ unit :: post).
  rewrite <- Hx, <- app_assoc. simpl.
  rewrite py_index_app_last. simpl.
  unfold py_float. rewrite Hf. reflexivity.
Qed.

Ltac case_markers l :=
  destruct (PyStr.contains "read, mib/s:" (PyStr.lower l));
  destruct (PyStr.contains "written, mib/s:" (PyStr.lower l));
  destruct (PyStr.contains "read" (PyStr.lower l));
  destruct (PyStr.contains "written" (PyStr.lower l));
  destruct (PyStr.contains "mb/sec" (PyStr.lower l));
  destruct (PyStr.contains "mb/s" (PyStr.lower l));
  simpl in *; try discriminate.

Lemma disk_line_silent acc l : Report.silent l = true -> disk_line acc l = acc.
Proof.
  unfold Report.silent, Report.modern, Report.has_unit, disk_line. intros H.
  case_markers l; reflexivity.
Qed.

Lemma disk_line_legacy_read acc l fig v :
  Report.legacy_read l = true -> Report.figure_of l fig -> float_of_string fig = inr v ->
  disk_line acc l = (VFloat (PrimFloat.mul v mb_to_mib), acc.2).
Proof.
  unfold Report.legacy_read, Report.modern, Report.has_unit, disk_line. intros H Hfig Hf.
  rewrite (legacy_figure_of _ _ _ Hfig Hf).
  case_markers l; reflexivity.
Qed.

Lemma disk_line_legacy_written acc l fig v :
  Report.legacy_written l = true -> Report.figure_of l fig -> float_of_string fig = inr v ->
  disk_line acc l = (acc.1, VFloat (PrimFloat.mul v mb_to_mib)).
Proof.
  unfold Report.legacy_written, Report.modern, Report.has_unit, disk_line. intros H Hfig Hf.
  rewrite (legacy_figure_of _ _ _ Hfig Hf).
  case_markers l; reflexivity.
Qed.

Lemma fold_silent ls acc :
  Forall (fun l => Report.silent l = true) ls -> fold_left disk_line ls acc = acc.
Proof.
  intros H. revert acc. induction H as [|l ls Hl _ IH]; intros acc; simpl; [reflexivity |].
  rewrite (disk_line_silent _ _ Hl). apply IH.
Qed.
End Legacy.

(** C9 (as amended). For a report without modern lines in which one line
    gives the read figure and another line gives the written figure in the
    legacy phrasing (each figure a number standing just before the line's
    first word, after its first, that contains mb; the line of the written
    figure not containing read), and whose other lines the parser does not
    look at, the parsed values are the figures multiplied by 0.9537; they
    are the adapter's result when the three stages return and the two
    values are not both zero. *)
Theorem legacy_figures_are_converted `{L : PyLib} (output : string)
    (n1 n2 n3 : list string) (lr lw fr fw : string) (r w : float) :
  PyStr.lines output = n1 ++ lr :: n2 ++ lw :: n3
  \/ PyStr.lines output = n1 ++ lw :: n2 ++ lr :: n3 ->
  Forall (fun l => Report.silent l = true) (n1 ++ n2 ++ n3) ->
  Report.legacy_read lr = true -> Report.figure_of lr fr -> float_of_string fr = inr r ->
  Report.legacy_written lw = true -> Report.figure_of lw fw -> float_of_string fw = inr w ->
  disk_parse output = (VFloat (PrimFloat.mul r mb_to_mib), VFloat (PrimFloat.mul w mb_to_mib))
  /\ forall (E : Env) (s : World) (prep result c : completed),
       subprocess_run E FileioPrepare = inr prep ->
       subprocess_run E FileioRun = inr result ->
       subprocess_run E FileioCleanup = inr c ->
       stdout result = output ->
       PrimFloat.eqb (PrimFloat.mul r mb_to_mib) PrimFloat.zero
       && PrimFloat.eqb (PrimFloat.mul w mb_to_mib) PrimFloat.zero = false ->
       run_value (run_disk_benchmark E) s
       = {[ "read_mib_per_sec" := VFloat (PrimFloat.mul r mb_to_mib);
            "write_mib_per_sec" := VFloat (PrimFloat.mul w mb_to_mib);
            "status" := VStr "completed" ]}.
Proof.
  intros Hlines Hsilent Hlr Hfr Hr Hlw Hfw Hw.
  apply Forall_app in Hsilent as [H1 Hsilent]. apply Forall_app in Hsilent as [H2 H3].
  assert (Hparse : disk_parse output
                   = (VFloat (PrimFloat.mul r mb_to_mib), VFloat (PrimFloat.mul w mb_to_mib))).
  { unfold disk_parse.
    destruct Hlines as [-> | ->];
      rewrite fold_left_app, (fold_silent _ _ H1); cbn [fold_left];
      rewrite fold_left_app; cbn [fold_left].
    - rewrite (disk_line_legacy_read _ _ _ _ Hlr Hfr Hr), (fold_silent _ _ H2).
      rewrite (disk_line_legacy_written _ _ _ _ Hlw Hfw Hw), (fold_silent _ _ H3).
      reflexivity.
    - rewrite (disk_line_legacy_written _ _ _ _ Hlw Hfw Hw), (fold_silent _ _ H2).
      rewrite (disk_line_legacy_read _ _ _ _ Hlr Hfr Hr), (fold_silent _ _ H3).
      reflexivity. }
  split; [exact Hparse |].
  intros E s prep result c Hp Hrun Hc Hout Hz.
  destruct (run_disk_measured E prep result c s Hp Hrun Hc) as (m & -> & Hm).
  rewrite Hout, Hparse in Hm. rewrite (Hm Hz). reflexivity.
Qed.

(** * The network adapter *)

Section NetworkProofs.
Context `{L : PyLib}.
Variable E : Env.

Lemma throughput_except_error e results :
  throughput_except e results !! "throughput_error" = Some (VStr (iperf_message e)).
Proof.
  unfold throughput_except, iperf_message.
  destruct (exn_cls e); apply lookup_insert_eq.
Qed.

(** Each probe writes keys of its own only. *)
Lemma throughput_except_other e results k :
  String.prefix "throughput_" k = false ->
  throughput_except e results !! k = results !! k.
Proof.
  intros Hk. unfold throughput_except.
  destruct (exn_cls e); apply lookup_insert_ne; intros <-; discriminate.
Qed.

Lemma throughput_parse_other output results k :
  String.prefix "throughput_" k = false ->
  throughput_parse output results !! k = results !! k.
Proof.
  intros Hk. unfold throughput_parse.
  repeat match goal with
         | |- context [match ?x with _ => _ end] => destruct x
         end;
    rewrite ?throughput_except_other by exact Hk;
    rewrite ?lookup_insert_ne by (intros <-; discriminate); reflexivity.
Qed.

Lemma throughput_probe_other results w k :
  String.prefix "throughput_" k = false ->
  run_value (throughput_probe E results) w !! k = results !! k.
Proof.
  intros Hk. unfold throughput_probe. run_simpl.
  repeat match goal with
         | |- context [match ?x with _ => _ end] => destruct x; run_simpl
         end;
    rewrite ?throughput_except_other, ?throughput_parse_other by exact Hk; reflexivity.
Qed.

Lemma latency_except_other e results k :
  String.prefix "latency_" k = false ->
  latency_except e results !! k = results !! k.
Proof. intros Hk. apply lookup_insert_ne. intros <-. discriminate. Qed.

Lemma latency_line_other gateway line results k :
  String.prefix "latency_" k = false ->
  latency_line gateway line results !! k = results !! k.
Proof.
  intros Hk. unfold latency_line.
  repeat match goal with
         | |- context [match ?x with _ => _ end] => destruct x
         end;
    rewrite ?latency_except_other by exact Hk;
    rewrite ?lookup_insert_ne by (intros <-; discriminate); reflexivity.
Qed.

Lemma latency_scan_other gateway ls results k :
  String.prefix "latency_" k = false ->
  latency_scan gateway ls results !! k = results !! k.
Proof.
  intros Hk. induction ls as [|l ls IH]; simpl; [reflexivity |].
  destruct (_ || _); [apply latency_line_other, Hk | exact IH].
Qed.

Lemma latency_probe_other results w k :
  String.prefix "latency_" k = false ->
  run_value (latency_probe E results) w !! k = results !! k.
Proof.
  intros Hk. unfold latency_probe. run_simpl.
  repeat match goal with
         | |- context [match ?x with _ => _ end] => destruct x; run_simpl
         end;
    rewrite ?latency_except_other, ?latency_scan_other by exact Hk; reflexivity.
Qed.

Lemma dns_probe_other results w k :
  String.prefix "dns_" k = false ->
  run_value (dns_probe E results) w !! k = results !! k.
Proof.
  intros Hk. unfold dns_probe. run_simpl.
  destruct (run_value (dns_loop E test_domains []) _) as [e|[|t ts]]; run_simpl;
    rewrite ?lookup_insert_ne by (intros <-; discriminate); reflexivity.
Qed.

Lemma counters_probe_other results w k :
  String.prefix "total_bytes_" k = false ->
  run_value (counters_probe E results) w !! k = results !! k.
Proof.
  intros Hk. unfold counters_probe. run_simpl.
  destruct (net_io_counters E) as [e|[sent recv]]; run_simpl;
    rewrite ?lookup_insert_ne by (intros <-; discriminate); reflexivity.
Qed.

(** What the adapter returns under a key, from the probe that owns it. *)
Lemma network_value w :
  exists w1 w2 w3 w4,
    let r1 := run_value (counters_probe E ∅) w1 in
    let r2 := run_value (throughput_probe E r1) w2 in
    let r3 := run_value (latency_probe E r2) w3 in
    let r4 := run_value (dns_probe E r3) w4 in
    run_value (run_network_benchmark E) w = <["status" := VStr "completed"]> r4.
Proof.
  unfold run_network_benchmark. run_simpl. do 4 eexists. reflexivity.
Qed.

Lemma network_status w :
  run_value (run_network_benchmark E) w !! "status" = Some (VStr "completed").
Proof.
  destruct (network_value w) as (w1 & w2 & w3 & w4 & ->). apply lookup_insert_eq.
Qed.

(** The throughput probe, when one of its three interactions raises. *)
Lemma throughput_probe_raises results w e :
  popen_iperf_server E = inl e
  \/ (exists u, popen_iperf_server E = inr u) /\ subprocess_run E IperfClient = inl e
  \/ (exists u result, popen_iperf_server E = inr u
                       /\ subprocess_run E IperfClient = inr result)
     /\ wait_iperf_server E = inl e ->
  run_value (throughput_probe E results) w !! "throughput_error"
  = Some (VStr (iperf_message e)).
Proof.
  unfold throughput_probe. run_simpl.
  intros [Hp | [[[u Hp] Hc] | [(u & result & Hp & Hc) Hw]]].
  - rewrite Hp. run_simpl. apply throughput_except_error.
  - rewrite Hp. run_simpl. rewrite Hc. run_simpl. apply throughput_except_error.
  - rewrite Hp. run_simpl. rewrite Hc. run_simpl. rewrite Hw. run_simpl.
    apply throughput_except_error.
Qed.

(** The report of the client is not JSON. *)
Lemma throughput_probe_bad_report results w result m :
  (exists u, popen_iperf_server E = inr u) ->
  subprocess_run E IperfClient = inr result ->
  (exists u, wait_iperf_server E = inr u) ->
  returncode result = 0 ->
  json_loads (stdout result) = inl m ->
  run_value (throughput_probe E results) w !! "throughput_error" = Some (VStr m).
Proof.
  intros [u Hp] Hc [u' Hw] Hrc Hj. unfold throughput_probe. run_simpl.
  rewrite Hp. run_simpl. rewrite Hc. run_simpl. rewrite Hw. run_simpl.
  rewrite Hrc. simpl. run_simpl.
  unfold throughput_parse. rewrite Hj. apply lookup_insert_eq.
Qed.

Lemma latency_probe_raises results w e :
  subprocess_run E IpRouteDefault = inl e
  \/ (exists gw gateway, subprocess_run E IpRouteDefault = inr gw
                         /\ returncode gw = 0
                         /\ py_index (PyStr.split_ws (stdout gw)) 2 = inr gateway
                         /\ subprocess_run E (Ping gateway) = inl e) ->
  run_value (latency_probe E results) w !! "latency_error" = Some (VStr (exn_str e)).
Proof.
  unfold latency_probe. run_simpl.
  intros [Hg | (gw & gateway & Hg & Hrc & Hi & Hp)].
  - rewrite Hg. run_simpl. apply lookup_insert_eq.
  - rewrite Hg. run_simpl. rewrite Hrc. simpl. rewrite Hi. run_simpl.
    rewrite Hp. run_simpl. apply lookup_insert_eq.
Qed.

Lemma dns_loop_raises done d rest e ts w :
  Forall (fun x => exists t, resolve E x = inr t) done ->
  resolve E d = inl e ->
  run_value (dns_loop E (done ++ d :: rest) ts) w = inl e.
Proof.
  intros Hdone Hd. revert ts w.
  induction Hdone as [|x done [t Hx] _ IH]; intros ts w; simpl; run_simpl.
  - rewrite Hd. reflexivity.
  - rewrite Hx. apply IH.
Qed.

Lemma dns_probe_raises results w done d rest e :
  test_domains = done ++ d :: rest ->
  Forall (fun x => exists t, resolve E x = inr t) done ->
  resolve E d = inl e ->
  run_value (dns_probe E results) w !! "dns_error" = Some (VStr (exn_str e)).
Proof.
  intros Hdom Hdone Hd. unfold dns_probe. run_simpl. rewrite Hdom.
  rewrite (dns_loop_raises _ _ _ _ _ _ Hdone Hd). run_simpl. apply lookup_insert_eq.
Qed.

(** The first interaction of each probe is in the log of the adapter. *)
Lemma logs_perform {A} c (a : A) : logs c (perform c a).
Proof. intros w. apply list_elem_of_here. Qed.

Lemma logs_bind_l {A B} c (m : M A) (k : A -> M B) : logs c m -> logs c (bind m k).
Proof.
  intros Hm w. rewrite run_log_bind, calls_app. apply elem_of_app. left. apply Hm.
Qed.

Lemma logs_bind_r {A B} c (m : M A) (k : A -> M B) :
  (forall a, logs c (k a)) -> logs c (bind m k).
Proof.
  intros Hk w. rewrite run_log_bind, calls_app. apply elem_of_app. right. apply Hk.
Qed.

Lemma network_calls w :
  let log := calls (run_log (run_network_benchmark E) w) in
  NetIoCounters ∈ log /\ PopenIperfServer ∈ log
  /\ Run IpRouteDefault ∈ log /\ GetHostByName "google.com" ∈ log.
Proof.
  cbv zeta. unfold run_network_benchmark.
  split; [| split; [| split]].
  - apply logs_bind_r; intros _. apply logs_bind_r; intros _.
    apply logs_bind_l. unfold counters_probe.
    apply logs_bind_l, logs_perform.
  - apply logs_bind_r; intros _. apply logs_bind_r; intros _.
    apply logs_bind_r; intros r1. apply logs_bind_l. unfold throughput_probe.
    apply logs_bind_r; intros _. apply logs_bind_l, logs_perform.
  - apply logs_bind_r; intros _. apply logs_bind_r; intros _.
    apply logs_bind_r; intros r1. apply logs_bind_r; intros r2.
    apply logs_bind_l. unfold latency_probe.
    apply logs_bind_r; intros _. apply logs_bind_l, logs_perform.
  - apply logs_bind_r; intros _. apply logs_bind_r; intros _.
    apply logs_bind_r; intros r1. apply logs_bind_r; intros r2.
    apply logs_bind_r; intros r3. apply logs_bind_l. unfold dns_probe.
    apply logs_bind_r; intros _. apply logs_bind_l.
    unfold test_domains. cbn [dns_loop]. apply logs_bind_l, logs_perform.
Qed.
End NetworkProofs.

(** * Persisting a run *)

Section Persist.
Context `{L : PyLib}.
Variable E : Env.
Variable custom_name : option string.
Variable w : World.

Lemma run_and_save_world :
  run_world (_run_and_save E custom_name) w
  = run_world (add_result (uuid4 E) (saved_now E)
                 (run_value (run_all_benchmarks E custom_name) w))
      (run_world (run_all_benchmarks E custom_name) w).
Proof. unfold _run_and_save. rewrite !run_world_bind. reflexivity. Qed.

Lemma run_all_returns_results :
  run_value (run_all_benchmarks E custom_name) w
  = results (run_world (run_all_benchmarks E custom_name) w).
Proof.
  destruct (run_all_triple E custom_name w w eq_refl) as [(Hl & Hr & _) _].
  rewrite Hl, Hr. reflexivity.
Qed.
End Persist.

(** C10. [_run_and_save] stores the very envelope that the run returned
    and that [results] refers to: after it, a reader of the status sees
    the envelope of the run with the keys id and timestamp added and all
    its other keys as they were, every other object is unchanged, and the
    last record of the store is that same object. *)
Theorem persisting_stamps_the_shared_envelope `{L : PyLib} (E : Env)
    (custom_name : option string) (w : World) :
  let w1 := run_world (run_all_benchmarks E custom_name) w in
  let w2 := run_world (_run_and_save E custom_name) w in
  results w2 = results w1
  /\ status_response w2
     = (running w1,
        <["timestamp" := VStr (saved_now E)]> (<["id" := VStr (uuid4 E)]> (envelope_of w1)),
        prog w1)
  /\ (forall k, k <> "id" -> k <> "timestamp" -> envelope_of w2 !! k = envelope_of w1 !! k)
  /\ (forall l, l <> results w1 -> deref w2 l = deref w1 l)
  /\ servers w2 = servers w1 ++ [results w2].
Proof.
  cbv zeta. rewrite run_and_save_world, run_all_returns_results.
  set (w1 := run_world (run_all_benchmarks E custom_name) w).
  rewrite add_result_world, save_world.
  unfold status_response, envelope_of.
  change (deref (set_db_file ?f ?x)) with (deref x).
  cbn [results running prog servers set_db_file added set_servers store set_objs].
  rewrite !deref_added.
  split; [reflexivity |].
  split; [reflexivity |].
  split.
  { intros k Hid Hts. rewrite !lookup_insert_ne by congruence. reflexivity. }
  split; [| reflexivity].
  intros l Hl. apply deref_added_other, Hl.
Qed.

(** * The progress counter *)

Lemma advances_ret {A} (a : A) : advances (ret a) 0.
Proof. intros w. unfold run_world. cbn. lia. Qed.

Lemma advances_perform {A} c (a : A) : advances (perform c a) 0.
Proof. intros w. unfold run_world. cbn. lia. Qed.

Lemma advances_set_current_test s : advances (set_current_test s) 0.
Proof. intros w. unfold run_world. cbn. lia. Qed.

Lemma advances_set_message s : advances (set_message s) 0.
Proof. intros w. unfold run_world. cbn. lia. Qed.

Lemma advances_incr : advances incr_progress 1.
Proof. intros w. reflexivity. Qed.

Lemma advances_bind {A B} (m : M A) (k : A -> M B) (i j n : Z) :
  advances m i -> (forall a, advances (k a) j) -> n = i + j -> advances (bind m k) n.
Proof.
  intros Hm Hk -> w. rewrite run_world_bind, Hk, Hm. lia.
Qed.

Create HintDb adv.

Ltac adv :=
  lazymatch goal with
  | |- advances (bind _ _) _ =>
      eapply advances_bind; [adv | intros ?; adv | try reflexivity]
  | |- advances (ret _) _ => apply advances_ret
  | |- advances (perform _ _) _ => apply advances_perform
  | |- advances (subprocess _ _) _ => apply advances_perform
  | |- advances (set_current_test _) _ => apply advances_set_current_test
  | |- advances (set_message _) _ => apply advances_set_message
  | |- advances incr_progress _ => apply advances_incr
  | |- advances (match ?x with _ => _ end) _ => destruct x; adv
  | _ => solve [eauto with adv]
  end.

Section Counting.
Context `{L : PyLib}.
Variable E : Env.

Lemma sysbench_except_once e : advances (sysbench_except e) 1.
Proof. unfold sysbench_except. adv. Qed.

(** The CPU, the disk and the network adapter count themselves once on
    every path. *)
Lemma cpu_counts_once : advances (run_cpu_benchmark E) 1.
Proof.
  pose proof sysbench_except_once as Hx.
  unfold run_cpu_benchmark. adv.
Qed.

Lemma dd_fallback_counts_nothing r w : advances (dd_fallback E r w) 0.
Proof. unfold dd_fallback. adv. Qed.

Lemma disk_counts_once : advances (run_disk_benchmark E) 1.
Proof.
  pose proof dd_fallback_counts_nothing as Hx.
  unfold run_disk_benchmark, disk_except. adv.
Qed.

Lemma dns_loop_counts_nothing ds ts : advances (dns_loop E ds ts) 0.
Proof. revert ts. induction ds as [|d ds IH]; intros ts; simpl; adv. Qed.

Lemma network_counts_once : advances (run_network_benchmark E) 1.
Proof.
  pose proof dns_loop_counts_nothing as Hx.
  unfold run_network_benchmark, counters_probe, throughput_probe, latency_probe, dns_probe.
  adv.
Qed.

(** The memory adapter counts itself once, except when the text it cut
    out of the report is not a number: then the increment before
    [float(parts)] and the one of the handler both take place. *)
Lemma memory_counts_twice (w : World) (result : completed) (parts m : string) :
  subprocess_run E SysbenchMemory = inr result ->
  memory_scan (PyStr.lines (stdout result)) = inr (Some parts) ->
  float_of_string parts = inl m ->
  progress (prog (run_world (run_memory_benchmark E) w)) = progress (prog w) + 2
  /\ run_value (run_memory_benchmark E) w = error_result m.
Proof.
  intros Hr Hs Hf. unfold run_memory_benchmark. run_simpl.
  rewrite Hr. cbn [res_bind]. rewrite Hs. run_simpl.
  unfold py_float. rewrite Hf. unfold sysbench_except. cbn [exn_cls exn_str].
  run_simpl. split; [cbn; lia | reflexivity].
Qed.
End Counting.

(** * The guard on the running flag *)

(** C1 (as amended). A start request whose read of the flag gives True
    starts nothing and answers with the flag it reads then; a request
    starts a run only after its own read gave False; and a step of the
    server starts at most one run, from a handler that stands after such a
    read. *)
Theorem guard_reads_then_starts (s : Server.state) (i : nat) :
  Server.handlers s !! i = Some Server.HCheck ->
  (Server.flag s = true ->
   Server.handle s i
   = Some (Server.mkState true (<[i := Server.HDone true]> (Server.handlers s))
             (Server.runs s)))
  /\ (Server.flag s = false ->
      Server.handle s i
      = Some (Server.mkState false (<[i := Server.HDone false]> (Server.handlers s))
                (Server.runs s ++ [Server.RSetRunning])))
  /\ (forall s', Server.step s s' ->
        length (Server.runs s') <= S (length (Server.runs s))
        /\ (length (Server.runs s') = S (length (Server.runs s)) ->
            exists j, Server.handlers s !! j = Some Server.HStart))%nat.
Proof.
  intros Hi.
  assert (Hlt : (i < length (Server.handlers s))%nat) by (eapply lookup_lt_Some; eauto).
  assert (Hat : forall (h : Server.handler) (l : list Server.handler),
             (i < length l)%nat -> <[i := h]> l !! i = Some h).
  { intros h l Hl. apply list_lookup_insert_eq, Hl. }
  split; [| split].
  - intros Hf. unfold Server.handle, Server.handler_step. rewrite Hi, Hf.
    cbn [mbind option_bind Server.handlers Server.flag Server.runs].
    rewrite ?Hat by (rewrite ?length_insert; exact Hlt).
    cbn [Server.handlers Server.flag Server.runs].
    rewrite list_insert_insert_eq. reflexivity.
  - intros Hf. unfold Server.handle, Server.handler_step. rewrite Hi, Hf.
    cbn [mbind option_bind Server.handlers Server.flag Server.runs].
    rewrite ?Hat by (rewrite ?length_insert; exact Hlt).
    cbn [mbind option_bind Server.handlers Server.flag Server.runs].
    rewrite ?Hat by (rewrite ?length_insert; exact Hlt).
    cbn [mbind option_bind Server.handlers Server.flag Server.runs].
    rewrite ?Hat by (rewrite ?length_insert; exact Hlt).
    rewrite !list_insert_insert_eq. reflexivity.
  - intros s' Hstep. destruct Hstep as [s0 j s1 Hh | s0 j s1 Hr].
    + unfold Server.handler_step in Hh.
      destruct (Server.handlers s0 !! j) as [[| | |b]|] eqn:Hj; try discriminate;
        injection Hh as <-; simpl.
      * split; [lia | intros; lia].
      * rewrite length_app. simpl. split; [lia |]. intros _. eauto.
      * split; [lia | intros; lia].
    + unfold Server.run_step in Hr.
      destruct (Server.runs s0 !! j) as [[| | |]|]; try discriminate;
        injection Hr as <-; simpl; rewrite length_insert; split; lia.
Qed.

(** Two requests at an idle server: the first starts its run, and the
    second, whose read of the flag comes before the first statement of
    that run, starts a second one. *)
Lemma two_requests_start_two_runs :
  exists s1 s2,
    rtc Server.step (Server.arrivals 2) s1
    /\ Server.runs s1 = [Server.RSetRunning]
    /\ Server.handlers s1 !! 1%nat = Some Server.HCheck
    /\ rtc Server.step s1 s2
    /\ Server.runs s2 = [Server.RSetRunning; Server.RSetRunning].
Proof.
  exists (Server.mkState false [Server.HRespond; Server.HCheck] [Server.RSetRunning]).
  exists (Server.mkState false [Server.HRespond; Server.HRespond]
            [Server.RSetRunning; Server.RSetRunning]).
  repeat split.
  - eapply rtc_l; [apply (Server.step_handler _ 0%nat); reflexivity |].
    eapply rtc_l; [apply (Server.step_handler _ 0%nat); reflexivity |].
    apply rtc_refl.
  - eapply rtc_l; [apply (Server.step_handler _ 1%nat); reflexivity |].
    eapply rtc_l; [apply (Server.step_handler _ 1%nat); reflexivity |].
    apply rtc_refl.
Qed.

Lemma guard_reads_then_starts_witness :
  Server.handle (Server.mkState true [Server.HCheck] [Server.RBenchmarks]) 0
  = Some (Server.mkState true [Server.HDone true] [Server.RBenchmarks]).
Proof.
  exact (proj1 (guard_reads_then_starts
                  (Server.mkState true [Server.HCheck] [Server.RBenchmarks]) 0 eq_refl)
           eq_refl).
Defined.

(** * The model at sample inputs *)

(** C4. A memory report whose throughput is not a number: the memory
    adapter adds two to the progress counter (3, then 4), so the counter
    reaches 6, above the total of 5, during the network test and falls
    back to 5 at the end of the run.  The list gives the counter in every
    state written during the run. *)
Theorem progress_counted_twice_by_memory :
  counters (run_all_benchmarks (L := reference_lib)
              (Sample.sysbench_host Sample.memory_report_nan Sample.fileio_modern) None)
    initial_world
  = [0; 0; 0; 1; 1; 1; 2; 2; 2; 2; 3; 4; 4; 4; 4; 4; 4; 5; 5; 5; 5; 5; 5; 5; 6; 6; 6;
     5; 5; 5; 5].
Proof. vm_compute. reflexivity. Qed.

(** A delete that removes nothing still empties the backing file before
    it writes the same collection again: cut short there, the stored
    record is gone from the file. *)
Lemma save_truncates_the_committed_file :
  db_file (run_world (_run_and_save (L := reference_lib) Sample.bare (Some "node-a"))
             initial_world) <> Some ""
  /\ files_during (delete (L := reference_lib) "no-such-id")
       (run_world (_run_and_save (L := reference_lib) Sample.bare (Some "node-a"))
          initial_world) !! 1%nat = Some (Some "")
  /\ db_file (run_world (delete (L := reference_lib) "no-such-id")
                (run_world (_run_and_save (L := reference_lib) Sample.bare (Some "node-a"))
                   initial_world))
     = db_file (run_world (_run_and_save (L := reference_lib) Sample.bare (Some "node-a"))
                  initial_world).
Proof. split; [| split]; vm_compute; [discriminate | reflexivity | reflexivity]. Qed.

(** The interface counters cannot be read: the result of the network
    adapter has no error key at all, although all other probes succeed. *)
Lemma counters_failure_leaves_no_error_field :
  net_io_counters Sample.network_host = inl (Exn OtherError "no counters")
  /\ error_fields (run_value (run_network_benchmark (L := reference_lib) Sample.network_host)
                     initial_world) = []
  /\ run_value (run_network_benchmark (L := reference_lib) Sample.network_host) initial_world
     !! "total_bytes_sent_gb" = None.
Proof. split; [| split]; vm_compute; reflexivity. Qed.

(** Prepare and run succeed, the cleanup runs into its timeout: the
    adapter returns an error. *)
Lemma cleanup_timeout_fails_the_disk_adapter :
  subprocess_run Sample.cleanup_times_out FileioPrepare = Sample.ok ""
  /\ subprocess_run Sample.cleanup_times_out FileioRun = Sample.ok Sample.fileio_modern
  /\ run_value (run_disk_benchmark (L := reference_lib) Sample.cleanup_times_out) initial_world
       !! "status" = Some (VStr "error").
Proof. split; [| split]; vm_compute; reflexivity. Qed.

(** Legacy phrasing only, both figures on one line: the written figure is
    never parsed. *)
Lemma one_line_legacy_report_loses_the_written_figure :
  Report.modern Sample.fileio_legacy_one_line = false
  /\ disk_parse (L := reference_lib) Sample.fileio_legacy_one_line
     = (VFloat (PrimFloat.mul 100 mb_to_mib), VInt 0)
  /\ VInt 0 <> VFloat (PrimFloat.mul 50 mb_to_mib).
Proof. split; [| split]; [vm_compute; reflexivity | vm_compute; reflexivity | discriminate]. Qed.

Lemma disk_cleanup_witness :
  run_value (run_disk_benchmark (L := reference_lib) Sample.cleanup_times_out) initial_world
  = error_result
      "Command '['sysbench', 'fileio', '--file-total-size=2G', 'cleanup']' timed out after 10 seconds".
Proof.
  exact (proj2 (proj2 (disk_cleanup_runs_and_may_fail_the_adapter (L := reference_lib)
                         Sample.cleanup_times_out initial_world
                         (Completed 0 "" "") (Completed 0 Sample.fileio_modern "")
                         eq_refl eq_refl))
           _ eq_refl).
Defined.

Lemma legacy_figures_witness :
  disk_parse (L := reference_lib) Sample.fileio_legacy
  = (VFloat (PrimFloat.mul 100 mb_to_mib), VFloat (PrimFloat.mul 50 mb_to_mib)).
Proof.
  refine (proj1 (legacy_figures_are_converted (L := reference_lib) Sample.fileio_legacy
                   ["Throughput:"] [] [] "read 100 mb/sec" "written 50 mb/sec" "100" "50"
                   100 50 (or_introl eq_refl) _ eq_refl _ eq_refl eq_refl _ eq_refl)).
  - repeat constructor.
  - exists ["read"], "mb/sec", []. repeat split. repeat constructor.
  - exists ["written"], "mb/sec", []. repeat split. repeat constructor.
Defined.


Lemma store_round_trip_witness :
  run_value get_all
    (run_world (delete (L := reference_lib) "no-such-id")
       (run_world (_run_and_save (L := reference_lib) Sample.bare None) initial_world))
  = [2%nat].
Proof.
  refine (proj1 (proj2 (proj2 (proj2 (proj1 (proj2
            (store_round_trip (L := reference_lib)
               (run_world (_run_and_save (L := reference_lib) Sample.bare None) initial_world)
               "" "" "no-such-id" O)))))) _).
  intros l Hl. vm_compute in Hl. apply list_elem_of_In in Hl.
  destruct Hl as [<- | []]. vm_compute. discriminate.
Defined.

(** * The string functions and the reference library at sample inputs *)

Example split_colon :
  PyStr.split ":" "    events per second:  1234.56" = ["    events per second"; "  1234.56"].
Proof. reflexivity. Qed.

Example split_word :
  PyStr.split "MiB/sec" "10240.00 MiB transferred (9313.41 MiB/sec)"
  = ["10240.00 MiB transferred (9313.41 "; ")"].
Proof. reflexivity. Qed.

Example split_trailing : PyStr.split "," "a,,b," = ["a"; ""; "b"; ""].
Proof. reflexivity. Qed.

Example split_empty : PyStr.split "," "" = [""].
Proof. reflexivity. Qed.

Example split_ws_ex : PyStr.split_ws "  read  12.5   mb/sec " = ["read"; "12.5"; "mb/sec"].
Proof. reflexivity. Qed.

Example strip_ex : PyStr.strip "  1234.56  " = "1234.56".
Proof. reflexivity. Qed.

Example lower_ex : PyStr.lower "Read, MiB/s:" = "read, mib/s:".
Proof. reflexivity. Qed.

Example contains_ex :
  PyStr.contains "mb/s" "read 3 mb/sec" = true /\ PyStr.contains "gb/s" "read 3 mb/sec" = false.
Proof. split; reflexivity. Qed.

Example float_plain : Reference.float_of_string "  1234.56 " = inr 1234.56%float.
Proof. vm_compute. reflexivity. Qed.

Example float_word : Reference.float_of_string "Read" = inl "could not convert string to float: 'Read'".
Proof. reflexivity. Qed.

Example round2_ex : Reference.round2 2.675%float = 2.67%float /\ Reference.round2 0.125%float = 0.12%float.
Proof. split; vm_compute; reflexivity. Qed.

Example encode_empty_store :
  String.concat "" (Reference.json_iterencode ∅ (VDict {[ "servers" := VList [] ]}))
  = ("{" ++ PyStr.nl ++ "  " ++ Reference.quoted "servers" ++ ": []" ++ PyStr.nl ++ "}")%string.
Proof. vm_compute. reflexivity. Qed.

(** * Further properties of the adapters *)

Section MemoryOutcomes.
Context `{L : PyLib}.
Variable E : Env.

Lemma memory_scan_none ls :
  Forall (fun l => PyStr.contains "MiB/sec" l && PyStr.contains "transferred" l = false) ls ->
  memory_scan ls = inr None.
Proof.
  induction 1 as [|l ls Hl _ IH]; simpl; [reflexivity |].
  rewrite Hl. exact IH.
Qed.

Lemma memory_scan_first before line after :
  Forall (fun l => PyStr.contains "MiB/sec" l && PyStr.contains "transferred" l = false)
    before ->
  PyStr.contains "MiB/sec" line && PyStr.contains "transferred" line = true ->
  memory_scan (before ++ line :: after)
  = (rest <- py_index (PyStr.split "(" line) 1 ;;
     text <- py_index (PyStr.split "MiB/sec" rest) 0 ;;
     inr (Some (PyStr.strip text)))%res.
Proof.
  intros Hb Hl. induction Hb as [|l ls Hn _ IH]; simpl.
  - rewrite Hl. reflexivity.
  - rewrite Hn. exact IH.
Qed.

Lemma run_memory_value w :
  run_value (run_memory_benchmark E) w
  = match (result <- subprocess_run E SysbenchMemory ;;
           memory_scan (PyStr.lines (stdout result)))%res with
    | inr (Some parts) =>
        match float_of_string parts with
        | inr v => {[ "throughput_mib_per_sec" := VFloat v; "status" := VStr "completed" ]}
        | inl m => error_result m
        end
    | inr None => {[ "throughput_mib_per_sec" := VInt 0; "status" := VStr "completed" ]}
    | inl e => error_result match exn_cls e with
                            | TimeoutExpired => "Timeout"
                            | FileNotFoundError => "sysbench not installed"
                            | _ => exn_str e
                            end
    end.
Proof.
  unfold run_memory_benchmark. run_simpl.
  destruct (res_bind _ _) as [e|[parts|]]; run_simpl; try reflexivity.
  - apply sysbench_except_value.
  - unfold py_float. destruct (float_of_string parts) as [m|v]; run_simpl; [| reflexivity].
    rewrite sysbench_except_value. reflexivity.
Qed.
End MemoryOutcomes.

(** X1. The memory adapter: a missing tool, a timeout and any other
    failure of the invocation give an error with the fixed or the
    failure's message; a report without a line that has both MiB/sec and
    transferred gives a completed result with the figure 0; otherwise the
    first such line decides: an error (list index out of range) when it
    has no opening parenthesis, else the text between the parenthesis and
    MiB/sec, stripped, as the figure, or an error with the message of
    [float] when that text is not a number. *)
Theorem memory_adapter_outcomes `{L : PyLib} (E : Env) (w : World) :
  let r := run_value (run_memory_benchmark E) w in
  match subprocess_run E SysbenchMemory with
  | inl e =>
      r = error_result match exn_cls e with
                       | TimeoutExpired => "Timeout"
                       | FileNotFoundError => "sysbench not installed"
                       | _ => exn_str e
                       end
  | inr result =>
      (Forall (fun l => PyStr.contains "MiB/sec" l && PyStr.contains "transferred" l = false)
         (PyStr.lines (stdout result)) ->
       r = {[ "throughput_mib_per_sec" := VInt 0; "status" := VStr "completed" ]})
      /\ (forall before line after,
            PyStr.lines (stdout result) = before ++ line :: after ->
            Forall (fun l => PyStr.contains "MiB/sec" l && PyStr.contains "transferred" l
                             = false) before ->
            PyStr.contains "MiB/sec" line && PyStr.contains "transferred" line = true ->
            match PyStr.split "(" line with
            | _ :: rest :: _ =>
                match PyStr.split "MiB/sec" rest with
                | text :: _ =>
                    match float_of_string (PyStr.strip text) with
                    | inr v => r = {[ "throughput_mib_per_sec" := VFloat v;
                                      "status" := VStr "completed" ]}
                    | inl m => r = error_result m
                    end
                | [] => r = error_result "list index out of range"
                end
            | _ => r = error_result "list index out of range"
            end)
  end.
Proof.
  cbv zeta. rewrite run_memory_value.
  destruct (subprocess_run E SysbenchMemory) as [e|result]; simpl; [reflexivity |].
  split.
  - intros Hnone. rewrite (memory_scan_none _ Hnone). reflexivity.
  - intros before line after Hlines Hb Hl. rewrite Hlines.
    rewrite (memory_scan_first _ _ _ Hb Hl).
    destruct (PyStr.split "(" line) as [|x [|rest tl]]; try reflexivity.
    cbn [py_index nth_error res_bind].
    destruct (PyStr.split "MiB/sec" rest) as [|text tl']; [reflexivity |].
    cbn [py_index nth_error res_bind].
    destruct (float_of_string (PyStr.strip text)); reflexivity.
Qed.

Lemma memory_adapter_witness :
  run_value (run_memory_benchmark (L := reference_lib)
               (Sample.sysbench_host Sample.memory_report Sample.fileio_modern))
    initial_world
  = {[ "throughput_mib_per_sec" := VFloat 9313.41; "status" := VStr "completed" ]}.
Proof.
  refine (proj2 (memory_adapter_outcomes (L := reference_lib)
                   (Sample.sysbench_host Sample.memory_report Sample.fileio_modern)
                   initial_world)
            ["Total operations: 10240 (9313.41 per second)"]
            "10240.00 MiB transferred (9313.41 MiB/sec)" [] eq_refl _ eq_refl).
  repeat constructor.
Defined.

Section MemoryCount.
Context `{L : PyLib}.
Variable E : Env.

Lemma memory_counts_once_or_twice :
  advances (run_memory_benchmark E)
    match (result <- subprocess_run E SysbenchMemory ;;
           memory_scan (PyStr.lines (stdout result)))%res with
    | inr (Some parts) =>
        match float_of_string parts with
        | inr _ => 1
        | inl _ => 2
        end
    | _ => 1
    end.
Proof.
  intros w. unfold run_memory_benchmark. run_simpl.
  destruct (res_bind _ _) as [e|[parts|]]; run_simpl.
  - rewrite sysbench_except_once. cbn. lia.
  - unfold py_float. destruct (float_of_string parts) as [m|v]; run_simpl.
    + rewrite sysbench_except_once. cbn. lia.
    + cbn. lia.
  - cbn. lia.
Qed.
End MemoryCount.

(** X2. The CPU, the disk and the network adapter add exactly one to the
    progress counter on every path, whatever the tools do.  The memory
    adapter adds one, except when the text cut out of the first matching
    line is not a number: then it adds two. *)
Theorem adapters_count_themselves `{L : PyLib} (E : Env) (w : World) :
  progress (prog (run_world (run_cpu_benchmark E) w)) = progress (prog w) + 1
  /\ progress (prog (run_world (run_disk_benchmark E) w)) = progress (prog w) + 1
  /\ progress (prog (run_world (run_network_benchmark E) w)) = progress (prog w) + 1
  /\ progress (prog (run_world (run_memory_benchmark E) w))
     = progress (prog w)
       + match (result <- subprocess_run E SysbenchMemory ;;
                memory_scan (PyStr.lines (stdout result)))%res with
         | inr (Some parts) =>
             match float_of_string parts with
             | inr _ => 1
             | inl _ => 2
             end
         | _ => 1
         end.
Proof.
  split; [apply cpu_counts_once |].
  split; [apply disk_counts_once |].
  split; [apply network_counts_once |].
  apply memory_counts_once_or_twice.
Qed.

(** * What a run leaves alone *)

Lemma keeps_store_set_prog w s p : keeps_store w s -> keeps_store w (set_prog p s).
Proof. intros H. exact H. Qed.

Lemma keeps_store_store w s l k v :
  l ∉ dom (objs w) -> keeps_store w s -> keeps_store w (store l k v s).
Proof.
  intros Hl (Hs & Hf & Ho). repeat split; try assumption.
  intros l' Hl'. unfold store; simpl.
  rewrite lookup_insert_ne by (intros ->; contradiction). apply Ho, Hl'.
Qed.

Lemma filling_benchmarks_set le lb N s name v :
  filling le lb N s -> benchmarks_set name v s = store lb name v s.
Proof.
  intros (Hr & Hne & e & bm & He & Hb & Hc & Hbm & Hd).
  unfold benchmarks_set, deref. rewrite Hr, He. simpl. rewrite Hb. reflexivity.
Qed.

Lemma total_ret {A} (a : A) : keeps_total (ret a).
Proof. intros w. reflexivity. Qed.

Lemma total_perform {A} c (a : A) : keeps_total (perform c a).
Proof. intros w. reflexivity. Qed.

Lemma total_set_current_test s : keeps_total (set_current_test s).
Proof. intros w. reflexivity. Qed.

Lemma total_set_message s : keeps_total (set_message s).
Proof. intros w. reflexivity. Qed.

Lemma total_set_progress n : keeps_total (set_progress n).
Proof. intros w. reflexivity. Qed.

Lemma total_incr : keeps_total incr_progress.
Proof. intros w. reflexivity. Qed.

Lemma total_bind {A B} (m : M A) (k : A -> M B) :
  keeps_total m -> (forall a, keeps_total (k a)) -> keeps_total (bind m k).
Proof. intros Hm Hk w. rewrite run_world_bind, Hk, Hm. reflexivity. Qed.

Ltac total :=
  lazymatch goal with
  | |- keeps_total (bind _ _) => apply total_bind; [total | intros ?; total]
  | |- keeps_total (ret _) => apply total_ret
  | |- keeps_total (perform _ _) => apply total_perform
  | |- keeps_total (subprocess _ _) => apply total_perform
  | |- keeps_total (set_current_test _) => apply total_set_current_test
  | |- keeps_total (set_message _) => apply total_set_message
  | |- keeps_total (set_progress _) => apply total_set_progress
  | |- keeps_total incr_progress => apply total_incr
  | |- keeps_total (match ?x with _ => _ end) => destruct x; total
  | _ => solve [eauto]
  end.

Section Totals.
Context `{L : PyLib}.
Variable E : Env.

Lemma total_sysbench_except e : keeps_total (sysbench_except e).
Proof. unfold sysbench_except. total. Qed.

Lemma total_cpu : keeps_total (run_cpu_benchmark E).
Proof. pose proof total_sysbench_except. unfold run_cpu_benchmark. total. Qed.

Lemma total_memory : keeps_total (run_memory_benchmark E).
Proof. pose proof total_sysbench_except. unfold run_memory_benchmark. total. Qed.

Lemma total_dd r w : keeps_total (dd_fallback E r w).
Proof. unfold dd_fallback. total. Qed.

Lemma total_disk : keeps_total (run_disk_benchmark E).
Proof. pose proof total_dd. unfold run_disk_benchmark, disk_except. total. Qed.

Lemma total_dns ds ts : keeps_total (dns_loop E ds ts).
Proof. revert ts. induction ds as [|d ds IH]; intros ts; simpl; total. Qed.

Lemma total_network : keeps_total (run_network_benchmark E).
Proof.
  pose proof total_dns.
  unfold run_network_benchmark, counters_probe, throughput_probe, latency_probe, dns_probe.
  total.
Qed.
End Totals.

Section RunFrame.
Context `{L : PyLib}.
Variable E : Env.
Variable custom_name : option string.
Variable w0 : World.

Let lb : loc := fresh (dom (objs w0)).
Let le : loc := fresh (dom (<[lb := ∅]> (objs w0))).

Let busy (N : gset string) (s : World) : Prop :=
  filling le lb N s /\ keeps_store w0 s /\ running s = true /\ total_tests (prog s) = 5.

Let quiet (s : World) : Prop :=
  keeps_store w0 s
  /\ (running s = false ->
      is_Some (envelope_of s !! "completed_at") /\ prog s = final_progress).

Lemma lb_new : lb ∉ dom (objs w0).
Proof. apply is_fresh. Qed.

Lemma le_new : le ∉ dom (objs w0).
Proof. apply not_elem_of_dom. apply (le_unallocated w0). Qed.

Lemma busy_quiet N s : busy N s -> quiet s.
Proof. intros (_ & Hk & Hr & _). split; [exact Hk |]. rewrite Hr. discriminate. Qed.

Lemma busy_frame {A} (m : M A) N :
  progress_only m -> keeps_total m -> triple (busy N) m (fun _ => busy N) quiet.
Proof.
  intros Hm Htot w HP. destruct (Hm w) as [Hw Ht]. split.
  - destruct HP as (Hf & Hk & Hr & H5).
    split; [| split; [| split]]; [| | | rewrite Htot; exact H5];
      rewrite (same_frame_eq _ _ Hw); assumption.
  - eapply Forall_impl; [exact Ht |].
    intros s Hs. rewrite (same_frame_eq _ _ Hs).
    destruct HP as (Hf & Hk & Hr & H5). split; [exact Hk |].
    cbn. rewrite Hr. discriminate.
Qed.

Lemma busy_store N name v :
  triple (busy N) (write (benchmarks_set name v)) (fun _ => busy ({[ name ]} ∪ N)) quiet.
Proof.
  apply triple_write. intros w (Hf & Hk & Hr & H5).
  assert (Hb : busy ({[ name ]} ∪ N) (benchmarks_set name v w)).
  { split; [apply filling_store, Hf |].
    rewrite (filling_benchmarks_set _ _ _ _ _ _ Hf).
    split; [apply keeps_store_store; [apply lb_new | exact Hk] |].
    split; [exact Hr | exact H5]. }
  split; [exact Hb | eapply busy_quiet, Hb].
Qed.

Lemma run_all_frame_triple :
  triple (fun s => s = w0) (run_all_benchmarks E custom_name)
    (fun l s => running s = false /\ prog s = final_progress /\ keeps_store w0 s
                /\ results s = le)
    quiet.
Proof.
  unfold run_all_benchmarks.
  eapply triple_bind with
    (Q := fun _ s => objs s = objs w0 /\ servers s = servers w0
                     /\ db_file s = db_file w0 /\ running s = true).
  { apply triple_write. intros w ->.
    split; [repeat split |]. split; [repeat split | discriminate]. }
  intros ?; cbv beta.
  eapply triple_bind with
    (Q := fun _ s => objs s = objs w0 /\ servers s = servers w0
                     /\ db_file s = db_file w0 /\ running s = true
                     /\ total_tests (prog s) = 5).
  { apply triple_write. intros w (Ho & Hs & Hf & Hr).
    split; [repeat split; assumption |].
    split; [split; [exact Hs |]; split; [exact Hf |]; intros l _; cbn; rewrite Ho; reflexivity |].
    cbn. rewrite Hr. discriminate. }
  intros ?; cbv beta.
  eapply triple_bind with
    (Q := fun l s => l = lb /\ objs s = <[lb := ∅]> (objs w0) /\ servers s = servers w0
                     /\ db_file s = db_file w0 /\ running s = true
                     /\ total_tests (prog s) = 5).
  { apply triple_alloc. intros w (Ho & Hs & Hf & Hr & H5). cbn. rewrite Ho.
    repeat split; assumption. }
  intros benchmarks.
  eapply triple_bind with
    (Q := fun l s => l = le /\
            objs s = <[le := {[ "system_info" := VDict (get_system_info E);
                                "benchmarks" := VRef lb ]}]> (<[lb := ∅]> (objs w0))
            /\ servers s = servers w0 /\ db_file s = db_file w0 /\ running s = true
            /\ total_tests (prog s) = 5).
  { apply triple_alloc. intros w (-> & Ho & Hs & Hf & Hr & H5). cbn. rewrite Ho.
    repeat split; assumption. }
  intros envelope.
  eapply triple_bind with (Q := fun _ => busy ∅).
  { apply triple_write. intros w (-> & Ho & Hs & Hf & Hr & H5).
    assert (Hb : busy ∅ (set_results le w)).
    { split; [| split; [| split; [exact Hr | exact H5]]].
      - split; [reflexivity |]. split; [apply (le_lb w0) |].
        eexists _, ∅. simpl. rewrite Ho.
        split; [apply lookup_insert_eq |].
        split; [reflexivity |]. split; [reflexivity |].
        split; [| apply dom_empty_L].
        rewrite lookup_insert_ne by apply (le_lb w0). apply lookup_insert_eq.
      - split; [exact Hs |]. split; [exact Hf |].
        intros l Hl. simpl. rewrite Ho.
        rewrite !lookup_insert_ne; [reflexivity | |].
        + intros <-. apply lb_new, Hl.
        + intros <-. apply le_new, Hl. }
    split; [exact Hb | eapply busy_quiet, Hb]. }
  intros ?; cbv beta.
  eapply triple_bind with (Q := fun _ => busy ∅).
  { destruct (truthy custom_name).
    - apply triple_write. intros w (Hf & Hk & Hr & H5).
      assert (Hb : busy ∅ (results_set "custom_name" (VStr (default "" custom_name)) w)).
      { split; [apply filling_custom_name, Hf |].
        split; [| split; [exact Hr | exact H5]].
        unfold results_set. destruct Hf as (-> & _).
        apply keeps_store_store; [apply le_new | exact Hk]. }
      split; [exact Hb | eapply busy_quiet, Hb].
    - apply triple_ret. auto. }
  intros ?; cbv beta.
  eapply triple_bind;
    [apply busy_frame; [apply po_set_progress | apply total_set_progress] | intros ?; cbv beta].
  eapply triple_bind; [apply busy_frame; [apply po_cpu | apply total_cpu] | intros cpu].
  eapply triple_bind; [apply busy_store | intros ?; cbv beta].
  eapply triple_bind; [apply busy_frame; [apply po_memory | apply total_memory] | intros memory].
  eapply triple_bind; [apply busy_store | intros ?; cbv beta].
  eapply triple_bind; [apply busy_frame; [apply po_disk | apply total_disk] | intros disk].
  eapply triple_bind; [apply busy_store | intros ?; cbv beta].
  eapply triple_bind; [apply busy_frame; [apply po_network | apply total_network] | intros network].
  eapply triple_bind; [apply busy_store | intros ?; cbv beta].
  (* the end of the run *)
  eapply triple_bind with
    (Q := fun _ s => busy adapter_names s /\ current_test (prog s) = "Completed").
  { apply triple_write. intros w Hb.
    assert (Hb' : busy adapter_names w).
    { destruct Hb as (Hf & Hrest). split; [| exact Hrest].
      destruct Hf as (H1 & H2 & e & bm & H3 & H4 & H5 & H6 & H7).
      split; [exact H1 |]. split; [exact H2 |]. exists e, bm.
      repeat split; assumption. }
    split; [split; [exact Hb' | reflexivity] | eapply busy_quiet, Hb']. }
  intros ?; cbv beta.
  eapply triple_bind with
    (Q := fun _ s => busy adapter_names s /\ current_test (prog s) = "Completed"
                     /\ progress (prog s) = 5).
  { apply triple_write. intros w (Hb & Hc).
    split; [split; [exact Hb |]; split; [exact Hc | reflexivity] | eapply busy_quiet, Hb]. }
  intros ?; cbv beta.
  eapply triple_bind with
    (Q := fun _ s => busy adapter_names s /\ prog s = final_progress).
  { apply triple_write. intros w (Hb & Hc & Hp).
    assert (Hfin : prog (set_prog (mkProgress (current_test (prog w)) (progress (prog w))
                                     (total_tests (prog w)) "All benchmarks completed!") w)
                   = final_progress).
    { destruct Hb as (_ & _ & _ & H5). cbn. rewrite Hc, Hp, H5. reflexivity. }
    split; [split; [exact Hb | exact Hfin] | eapply busy_quiet, Hb]. }
  intros ?; cbv beta.
  eapply triple_bind with
    (Q := fun _ s => results s = le /\ keeps_store w0 s /\ running s = true
                     /\ prog s = final_progress
                     /\ is_Some (envelope_of s !! "completed_at")).
  { apply triple_write. intros w ((Hf & Hk & Hr & H5) & Hp).
    destruct (filling_completed _ _ _ _ (VStr (completed_now E)) Hf) as (Hre & Hc & Hd).
    assert (Hk' : keeps_store w0 (results_set "completed_at" (VStr (completed_now E)) w)).
    { unfold results_set. destruct Hf as (-> & _).
      apply keeps_store_store; [apply le_new | exact Hk]. }
    split; [| split; [exact Hk' | cbn; rewrite Hr; discriminate]].
    split; [exact Hre |]. split; [exact Hk' |]. split; [exact Hr |].
    split; [exact Hp |]. rewrite Hc. eauto. }
  intros ?; cbv beta.
  eapply triple_bind with
    (Q := fun _ s => results s = le /\ keeps_store w0 s /\ running s = false
                     /\ prog s = final_progress).
  { apply triple_write. intros w (Hre & Hk & Hr & Hp & Hc).
    split; [repeat split; try assumption; apply Hk |].
    split; [exact Hk |]. intros _. split; [exact Hc | exact Hp]. }
  intros ?; cbv beta.
  apply triple_get. intros w (Hre & Hk & Hr & Hp). repeat split; try assumption; apply Hk.
Qed.
End RunFrame.

(** X3. A run ends with the flag cleared and the progress at Completed,
    5 of 5.  It never touches the records of the store, the backing file
    or a dict object that existed before it (its envelope is a new
    object), and in every state it writes in which the flag is cleared,
    the envelope already has its completion time and the progress is the
    final one. *)
Theorem run_ends_idle_and_leaves_the_store `{L : PyLib} (E : Env)
    (custom_name : option string) (w : World) :
  let w' := run_world (run_all_benchmarks E custom_name) w in
  running w' = false
  /\ prog w' = final_progress
  /\ keeps_store w w'
  /\ (results w' ∉ dom (objs w))
  /\ Forall (fun s => keeps_store w s
                      /\ (running s = false ->
                          is_Some (envelope_of s !! "completed_at")
                          /\ prog s = final_progress))
       (snaps (run_log (run_all_benchmarks E custom_name) w)).
Proof.
  destruct (run_all_frame_triple E custom_name w w eq_refl) as [(Hr & Hp & Hk & Hre) Ht].
  cbv zeta. repeat split; try assumption; try apply Hk.
  rewrite Hre. apply le_new.
Qed.

(** * Further properties of the network adapter *)

Section NetworkMore.
Context `{L : PyLib}.
Variable E : Env.

Lemma dns_loop_returns ds ts w :
  Forall (fun d => exists t, resolve E d = inr t) ds ->
  exists ts', run_value (dns_loop E ds ts) w = inr (ts ++ ts') /\ length ts' = length ds.
Proof.
  intros Hds. revert ts w.
  induction Hds as [|d ds [t Hd] _ IH]; intros ts w; simpl; run_simpl.
  - exists []. rewrite app_nil_r. split; reflexivity.
  - rewrite Hd.
    match goal with
    | |- context [run_value (dns_loop E ds ?a) ?b] => destruct (IH a b) as (ts' & Hv & Hlen)
    end.
    exists (PrimFloat.mul t (float_of_Z 1000) :: ts').
    rewrite Hv, <- app_assoc. split; [reflexivity | simpl; lia].
Qed.

(** The result before the DNS probe has no key of that probe. *)
Lemma before_dns_no_key w1 w2 w3 k :
  String.prefix "total_bytes_" k = false -> String.prefix "throughput_" k = false ->
  String.prefix "latency_" k = false ->
  run_value (latency_probe E (run_value (throughput_probe E
               (run_value (counters_probe E ∅) w1)) w2)) w3 !! k = None.
Proof.
  intros Hc Ht Hl.
  rewrite latency_probe_other, throughput_probe_other, counters_probe_other by assumption.
  apply lookup_empty.
Qed.

Lemma before_latency_no_key w1 w2 k :
  String.prefix "total_bytes_" k = false -> String.prefix "throughput_" k = false ->
  run_value (throughput_probe E (run_value (counters_probe E ∅) w1)) w2 !! k = None.
Proof.
  intros Hc Ht.
  rewrite throughput_probe_other, counters_probe_other by assumption.
  apply lookup_empty.
Qed.

Lemma dns_probe_fails results w done d rest e k :
  test_domains = done ++ d :: rest ->
  Forall (fun x => exists t, resolve E x = inr t) done ->
  resolve E d = inl e ->
  k <> "dns_error" ->
  run_value (dns_probe E results) w !! k = results !! k.
Proof.
  intros Hdom Hdone Hd Hk. unfold dns_probe. run_simpl. rewrite Hdom.
  rewrite (dns_loop_raises _ _ _ _ _ _ _ Hdone Hd). run_simpl.
  apply lookup_insert_ne. congruence.
Qed.

Lemma dns_probe_succeeds results w :
  Forall (fun d => exists t, resolve E d = inr t) test_domains ->
  let r := run_value (dns_probe E results) w in
  is_Some (r !! "dns_avg_ms") /\ is_Some (r !! "dns_min_ms") /\ is_Some (r !! "dns_max_ms")
  /\ r !! "dns_error" = results !! "dns_error".
Proof.
  intros Hall. cbv zeta. unfold dns_probe. run_simpl.
  destruct (dns_loop_returns test_domains [] (run_world (set_message "Testing DNS resolution speed...") w) Hall)
    as (ts & Hv & Hlen).
  rewrite Hv. simpl. destruct ts as [|t ts]; [discriminate Hlen |]. run_simpl.
  repeat split.
  - rewrite !lookup_insert_ne by discriminate. rewrite lookup_insert_eq. eauto.
  - rewrite lookup_insert_ne by discriminate. rewrite lookup_insert_eq. eauto.
  - rewrite lookup_insert_eq. eauto.
  - rewrite !lookup_insert_ne by discriminate. reflexivity.
Qed.
End NetworkMore.

(** X4. The DNS probe is all or nothing.  When a domain of the list
    fails to resolve (the ones before it having resolved), the result of
    the network adapter has dns_error with the exception's message and none
    of dns_avg_ms, dns_min_ms, dns_max_ms; when the three domains resolve,
    it has these three keys and no dns_error. *)
Theorem dns_probe_is_all_or_nothing `{L : PyLib} (E : Env) (w : World) :
  let r := run_value (run_network_benchmark E) w in
  (forall done d rest e,
     test_domains = done ++ d :: rest ->
     Forall (fun x => exists t, resolve E x = inr t) done ->
     resolve E d = inl e ->
     r !! "dns_error" = Some (VStr (exn_str e))
     /\ r !! "dns_avg_ms" = None /\ r !! "dns_min_ms" = None /\ r !! "dns_max_ms" = None)
  /\ (Forall (fun d => exists t, resolve E d = inr t) test_domains ->
      is_Some (r !! "dns_avg_ms") /\ is_Some (r !! "dns_min_ms")
      /\ is_Some (r !! "dns_max_ms") /\ r !! "dns_error" = None).
Proof.
  cbv zeta.
  destruct (network_value E w) as (w1 & w2 & w3 & w4 & Hr). cbv zeta in Hr. rewrite Hr.
  split.
  - intros done d rest e Hdom Hdone Hd.
    rewrite !lookup_insert_ne by discriminate.
    split; [eapply dns_probe_raises; eassumption |].
    rewrite !(dns_probe_fails E _ _ done d rest e) by (assumption || discriminate).
    rewrite !before_dns_no_key by reflexivity. repeat split.
  - intros Hall. rewrite !lookup_insert_ne by discriminate.
    destruct (dns_probe_succeeds E
                (run_value (latency_probe E (run_value (throughput_probe E
                   (run_value (counters_probe E ∅) w1)) w2)) w3) w4 Hall)
      as (Ha & Hmin & Hmax & He).
    repeat split; try assumption.
    rewrite He. apply before_dns_no_key; reflexivity.
Qed.

Lemma dns_probe_witness :
  run_value (run_network_benchmark (L := reference_lib) Sample.bare) initial_world
    !! "dns_avg_ms" = None.
Proof.
  exact (proj1 (proj2 (proj1 (dns_probe_is_all_or_nothing (L := reference_lib)
                                Sample.bare initial_world)
                         [] "google.com" ["github.com"; "cloudflare.com"]
                         (Exn OtherError "[Errno -2] Name or service not known")
                         eq_refl (Forall_nil_2 _) eq_refl))).
Defined.

Section SilentProbes.
Context `{L : PyLib}.
Variable E : Env.

Lemma throughput_probe_silent results w u result u' :
  popen_iperf_server E = inr u ->
  subprocess_run E IperfClient = inr result ->
  wait_iperf_server E = inr u' ->
  returncode result <> 0 ->
  run_value (throughput_probe E results) w = results.
Proof.
  intros Hp Hc Hw Hrc. unfold throughput_probe. run_simpl.
  rewrite Hp. run_simpl. rewrite Hc. run_simpl. rewrite Hw. run_simpl.
  destruct (Z.eqb_spec (returncode result) 0) as [Heq | _]; [contradiction | reflexivity].
Qed.

Lemma latency_scan_silent gateway ls results :
  forallb no_summary ls = true -> latency_scan gateway ls results = results.
Proof.
  induction ls as [|l ls IH]; simpl; [reflexivity |].
  unfold no_summary at 1. intros [Hl Hls]%andb_true_iff.
  apply negb_true_iff in Hl. rewrite Hl. exact (IH Hls).
Qed.

Lemma latency_probe_silent results w :
  (exists gw, subprocess_run E IpRouteDefault = inr gw /\ returncode gw <> 0)
  \/ (exists gw gateway p,
        subprocess_run E IpRouteDefault = inr gw /\ returncode gw = 0
        /\ py_index (PyStr.split_ws (stdout gw)) 2 = inr gateway
        /\ subprocess_run E (Ping gateway) = inr p
        /\ (returncode p <> 0
            \/ forallb no_summary (PyStr.lines (stdout p)) = true)) ->
  run_value (latency_probe E results) w = results.
Proof.
  unfold latency_probe. run_simpl.
  intros [(gw & Hg & Hrc) | (gw & gateway & p & Hg & Hrc & Hi & Hp & Hq)].
  - rewrite Hg. run_simpl.
    destruct (Z.eqb_spec (returncode gw) 0) as [Heq | _]; [contradiction | reflexivity].
  - rewrite Hg. run_simpl. rewrite Hrc. simpl. rewrite Hi. run_simpl.
    rewrite Hp. run_simpl.
    destruct (Z.eqb_spec (returncode p) 0) as [Heq | Hne]; run_simpl.
    + destruct Hq as [Hq | Hq]; [contradiction | apply latency_scan_silent, Hq].
    + reflexivity.
Qed.

Lemma network_lookup w k :
  k <> "status" -> String.prefix "dns_" k = false ->
  exists w1 w2 w3,
    run_value (run_network_benchmark E) w !! k
    = run_value (latency_probe E (run_value (throughput_probe E
         (run_value (counters_probe E ∅) w1)) w2)) w3 !! k.
Proof.
  intros Hk Hd. destruct (network_value E w) as (w1 & w2 & w3 & w4 & Hr).
  cbv zeta in Hr. rewrite Hr. exists w1, w2, w3.
  rewrite lookup_insert_ne by congruence. apply dns_probe_other, Hd.
Qed.
End SilentProbes.

(** X5. A command of the network adapter that ends with a non-zero exit
    status, without raising, leaves no trace in the result: neither a
    figure nor an error of its probe.  This holds for the iperf3 client
    (throughput probe), for the route lookup and for ping (latency probe);
    a report of ping without a summary line is silent in the same way. *)
Theorem failed_commands_leave_no_trace `{L : PyLib} (E : Env) (w : World) :
  let r := run_value (run_network_benchmark E) w in
  (forall u result u',
     popen_iperf_server E = inr u ->
     subprocess_run E IperfClient = inr result ->
     wait_iperf_server E = inr u' ->
     returncode result <> 0 ->
     Forall (fun k => r !! k = None) throughput_keys)
  /\ (forall gw,
        subprocess_run E IpRouteDefault = inr gw -> returncode gw <> 0 ->
        Forall (fun k => r !! k = None) latency_keys)
  /\ (forall gw gateway p,
        subprocess_run E IpRouteDefault = inr gw -> returncode gw = 0 ->
        py_index (PyStr.split_ws (stdout gw)) 2 = inr gateway ->
        subprocess_run E (Ping gateway) = inr p ->
        returncode p <> 0 \/ forallb no_summary (PyStr.lines (stdout p)) = true ->
        Forall (fun k => r !! k = None) latency_keys).
Proof.
  cbv zeta. split; [| split].
  - intros u result u' Hp Hc Hw Hrc.
    unfold throughput_keys. repeat apply Forall_cons_2; try apply Forall_nil_2;
      match goal with
      | |- _ !! ?k = None =>
          destruct (network_lookup E w k) as (w1 & w2 & w3 & ->);
            [discriminate | reflexivity |];
            rewrite latency_probe_other by reflexivity;
            rewrite (throughput_probe_silent E _ _ u result u' Hp Hc Hw Hrc);
            rewrite counters_probe_other by reflexivity; apply lookup_empty
      end.
  - intros gw Hg Hrc.
    unfold latency_keys. repeat apply Forall_cons_2; try apply Forall_nil_2;
      match goal with
      | |- _ !! ?k = None =>
          destruct (network_lookup E w k) as (w1 & w2 & w3 & ->);
            [discriminate | reflexivity |];
            rewrite latency_probe_silent by (left; eauto);
            rewrite throughput_probe_other by reflexivity;
            rewrite counters_probe_other by reflexivity; apply lookup_empty
      end.
  - intros gw gateway p Hg Hrc Hi Hp Hq.
    unfold latency_keys. repeat apply Forall_cons_2; try apply Forall_nil_2;
      match goal with
      | |- _ !! ?k = None =>
          destruct (network_lookup E w k) as (w1 & w2 & w3 & ->);
            [discriminate | reflexivity |];
            rewrite latency_probe_silent by (right; exists gw, gateway, p; auto);
            rewrite throughput_probe_other by reflexivity;
            rewrite counters_probe_other by reflexivity; apply lookup_empty
      end.
Qed.

Lemma failed_commands_witness :
  Forall (fun k => run_value (run_network_benchmark (L := reference_lib)
                                MoreSamples.refused_host) initial_world !! k = None)
         throughput_keys.
Proof.
  apply (proj1 (failed_commands_leave_no_trace (L := reference_lib)
                  MoreSamples.refused_host initial_world)
           tt (Completed 1 "" "iperf3: error - unable to connect to server") tt);
    [reflexivity | reflexivity | reflexivity | discriminate].
Defined.

Section PartialResults.
Context `{L : PyLib}.
Variable E : Env.

Lemma throughput_probe_half results w u result u' data send e :
  popen_iperf_server E = inr u ->
  subprocess_run E IperfClient = inr result ->
  wait_iperf_server E = inr u' ->
  returncode result = 0 ->
  json_loads (stdout result) = inr data ->
  mbps data "sum_sent" = inr send ->
  mbps data "sum_received" = inl e ->
  run_value (throughput_probe E results) w
  = throughput_except e (<["throughput_send_mbps" := VFloat (round2 send)]> results).
Proof.
  intros Hp Hc Hw Hrc Hj Hs Hr. unfold throughput_probe. run_simpl.
  rewrite Hp. run_simpl. rewrite Hc. run_simpl. rewrite Hw. run_simpl.
  rewrite Hrc. simpl. run_simpl. unfold throughput_parse. rewrite Hj, Hs, Hr. reflexivity.
Qed.

Lemma throughput_except_figure e results k :
  k <> "throughput_error" -> throughput_except e results !! k = results !! k.
Proof.
  intros Hk. unfold throughput_except.
  destruct (exn_cls e); apply lookup_insert_ne; congruence.
Qed.

Lemma latency_scan_first gateway pre line post results :
  forallb no_summary pre = true -> no_summary line = false ->
  latency_scan gateway (pre ++ line :: post) results = latency_line gateway line results.
Proof.
  intros Hpre Hline. induction pre as [|l pre IH]; simpl.
  - unfold no_summary in Hline. apply negb_false_iff in Hline. rewrite Hline. reflexivity.
  - simpl in Hpre. apply andb_true_iff in Hpre as [Hl Hpre].
    unfold no_summary in Hl. apply negb_true_iff in Hl. rewrite Hl. exact (IH Hpre).
Qed.

Lemma latency_line_half gateway line results stats a b c d mn e :
  (after <- py_index (PyStr.split "=" line) 1 ;;
   py_index (PyStr.split_ws (PyStr.strip after)) 0)%res = inr stats ->
  PyStr.split "/" stats = [a; b; c; d] ->
  py_float a = inr mn -> py_float b = inl e ->
  latency_line gateway line results
  = latency_except e (<["latency_min_ms" := VFloat mn]> results).
Proof.
  intros Hstats Hsplit Ha Hb. unfold latency_line.
  rewrite Hstats, Hsplit, Ha, Hb. reflexivity.
Qed.

Lemma latency_probe_scans results w gw gateway p :
  subprocess_run E IpRouteDefault = inr gw -> returncode gw = 0 ->
  py_index (PyStr.split_ws (stdout gw)) 2 = inr gateway ->
  subprocess_run E (Ping gateway) = inr p -> returncode p = 0 ->
  run_value (latency_probe E results) w
  = latency_scan gateway (PyStr.lines (stdout p)) results.
Proof.
  intros Hg Hrc Hi Hp Hrp. unfold latency_probe. run_simpl.
  rewrite Hg. run_simpl. rewrite Hrc. simpl. rewrite Hi. run_simpl.
  rewrite Hp. run_simpl. rewrite Hrp. reflexivity.
Qed.
End PartialResults.

(** X6. The throughput and latency probes keep what they stored before
    failing.  When the report of iperf3 has the sent sum but reading the
    received sum raises, the result has throughput_send_mbps together with
    throughput_error, and no throughput_recv_mbps.  When the summary line
    of ping has a minimum that is a number and an average that is not, the
    result has latency_min_ms together with latency_error, and none of
    latency_avg_ms, latency_max_ms, latency_gateway. *)
Theorem probes_keep_partial_results `{L : PyLib} (E : Env) (w : World) :
  let r := run_value (run_network_benchmark E) w in
  (forall u result u' data send e,
     popen_iperf_server E = inr u ->
     subprocess_run E IperfClient = inr result ->
     wait_iperf_server E = inr u' ->
     returncode result = 0 ->
     json_loads (stdout result) = inr data ->
     mbps data "sum_sent" = inr send ->
     mbps data "sum_received" = inl e ->
     r !! "throughput_send_mbps" = Some (VFloat (round2 send))
     /\ r !! "throughput_recv_mbps" = None
     /\ r !! "throughput_error" = Some (VStr (iperf_message e)))
  /\ (forall gw gateway p pre line post stats a b c d mn e,
        subprocess_run E IpRouteDefault = inr gw -> returncode gw = 0 ->
        py_index (PyStr.split_ws (stdout gw)) 2 = inr gateway ->
        subprocess_run E (Ping gateway) = inr p -> returncode p = 0 ->
        PyStr.lines (stdout p) = pre ++ line :: post ->
        forallb no_summary pre = true -> no_summary line = false ->
        (after <- py_index (PyStr.split "=" line) 1 ;;
         py_index (PyStr.split_ws (PyStr.strip after)) 0)%res = inr stats ->
        PyStr.split "/" stats = [a; b; c; d] ->
        py_float a = inr mn -> py_float b = inl e ->
        r !! "latency_min_ms" = Some (VFloat mn)
        /\ r !! "latency_error" = Some (VStr (exn_str e))
        /\ r !! "latency_avg_ms" = None
        /\ r !! "latency_max_ms" = None
        /\ r !! "latency_gateway" = None).
Proof.
  cbv zeta. split.
  - intros u result u' data send e Hp Hc Hw Hrc Hj Hs Hr.
    repeat split;
      match goal with
      | |- _ !! ?k = _ =>
          destruct (network_lookup E w k) as (w1 & w2 & w3 & ->);
            [discriminate | reflexivity |];
            rewrite latency_probe_other by reflexivity;
            rewrite (throughput_probe_half E _ _ u result u' data send e Hp Hc Hw Hrc Hj Hs Hr)
      end.
    + rewrite throughput_except_figure by discriminate. apply lookup_insert_eq.
    + rewrite throughput_except_figure by discriminate.
      rewrite lookup_insert_ne by discriminate.
      rewrite counters_probe_other by reflexivity. apply lookup_empty.
    + apply throughput_except_error.
  - intros gw gateway p pre line post stats a b c d mn e
           Hg Hrc Hi Hp Hrp Hlines Hpre Hline Hstats Hsplit Ha Hb.
    repeat split;
      match goal with
      | |- _ !! ?k = _ =>
          destruct (network_lookup E w k) as (w1 & w2 & w3 & ->);
            [discriminate | reflexivity |];
            rewrite (latency_probe_scans E _ _ gw gateway p Hg Hrc Hi Hp Hrp), Hlines,
              (latency_scan_first gateway pre line post _ Hpre Hline),
              (latency_line_half gateway line _ stats a b c d mn e Hstats Hsplit Ha Hb);
            unfold latency_except
      end.
    + rewrite lookup_insert_ne by discriminate. apply lookup_insert_eq.
    + apply lookup_insert_eq.
    + rewrite !lookup_insert_ne by discriminate.
      rewrite throughput_probe_other, counters_probe_other by reflexivity. apply lookup_empty.
    + rewrite !lookup_insert_ne by discriminate.
      rewrite throughput_probe_other, counters_probe_other by reflexivity. apply lookup_empty.
    + rewrite !lookup_insert_ne by discriminate.
      rewrite throughput_probe_other, counters_probe_other by reflexivity. apply lookup_empty.
Qed.

Lemma partial_results_witness :
  let r := run_value (run_network_benchmark (L := reference_lib) MoreSamples.half_host)
             initial_world in
  r !! "latency_min_ms" = Some (VFloat 0.321%float)
  /\ r !! "latency_error" = Some (VStr "could not convert string to float: 'n.a'")
  /\ r !! "latency_avg_ms" = None
  /\ r !! "latency_max_ms" = None
  /\ r !! "latency_gateway" = None.
Proof.
  refine (proj2 (probes_keep_partial_results (L := reference_lib)
                   MoreSamples.half_host initial_world)
            (Completed 0 "default via 192.168.1.1 dev eth0" "") "192.168.1.1"
            (Completed 0 MoreSamples.ping_half_report "")
            ["10 packets transmitted, 10 received, 0% packet loss, time 9012ms"]
            "rtt min/avg/max/mdev = 0.321/n.a/0.789/0.101 ms" []
            "0.321/n.a/0.789/0.101" "0.321" "n.a" "0.789" "0.101" 0.321%float
            (Exn ValueError "could not convert string to float: 'n.a'")
            _ _ _ _ _ _ _ _ _ _ _ _); vm_compute; reflexivity.
Defined.

Section Fallback.
Context `{L : PyLib}.
Variable E : Env.

Lemma dd_fallback_calls a b w :
  calls (run_log (dd_fallback E a b) w) = Run DdWrite :: dd_calls_after_write E a b.
Proof.
  unfold dd_fallback, dd_calls_after_write, dd_completes. run_simpl.
  destruct (subprocess_run E DdWrite) as [e | ddw]; run_simpl; [reflexivity |].
  destruct (dd_scan b (PyStr.lines (stderr ddw))) as [wv [e |]]; run_simpl; [reflexivity |].
  destruct (subprocess_run E DdRead) as [e | ddr]; run_simpl; [reflexivity |].
  destruct (dd_scan a (PyStr.lines (stderr ddr))) as [rv [e |]]; run_simpl; reflexivity.
Qed.

Lemma dd_fallback_write_raises a b w e :
  subprocess_run E DdWrite = inl e -> run_value (dd_fallback E a b) w = (a, b).
Proof. intros He. unfold dd_fallback. run_simpl. rewrite He. reflexivity. Qed.

Lemma rm_after_write a b :
  Run RmScratch ∈ dd_calls_after_write E a b <-> dd_completes E a b = true.
Proof.
  unfold dd_calls_after_write, dd_completes.
  destruct (subprocess_run E DdWrite) as [e | ddw].
  { split; [intros H; inversion H | discriminate]. }
  destruct (dd_scan b (PyStr.lines (stderr ddw))) as [wv [e |]].
  { split; [intros H; inversion H | discriminate]. }
  destruct (subprocess_run E DdRead) as [e | ddr].
  { split; [| discriminate]. intros H. apply elem_of_cons in H as [H | H]; [discriminate | inversion H]. }
  destruct (dd_scan a (PyStr.lines (stderr ddr))) as [rv [e |]].
  - split; [| discriminate]. intros H. apply elem_of_cons in H as [H | H]; [discriminate | inversion H].
  - split; [reflexivity |]. intros _. apply list_elem_of_further, list_elem_of_here.
Qed.

(** The adapter once the three stages have returned: its interactions
    and its value. *)
Lemma run_disk_after_stages prep result c w :
  subprocess_run E FileioPrepare = inr prep ->
  subprocess_run E FileioRun = inr result ->
  subprocess_run E FileioCleanup = inr c ->
  let parsed := disk_parse (stdout result) in
  exists w',
    calls (run_log (run_disk_benchmark E) w)
    = [Run FileioPrepare; Run FileioRun; Run FileioCleanup]
      ++ (if num_is_zero parsed.1 && num_is_zero parsed.2
          then Run DdWrite :: dd_calls_after_write E parsed.1 parsed.2 else [])
    /\ run_value (run_disk_benchmark E) w
       = let measured := if num_is_zero parsed.1 && num_is_zero parsed.2
                         then run_value (dd_fallback E parsed.1 parsed.2) w' else parsed in
         {[ "read_mib_per_sec" := measured.1; "write_mib_per_sec" := measured.2;
            "status" := VStr "completed" ]}.
Proof.
  intros Hp Hr Hc. cbv zeta. unfold run_disk_benchmark. run_simpl.
  rewrite Hp. run_simpl. rewrite Hr. run_simpl. rewrite Hc. run_simpl.
  destruct (num_is_zero _ && num_is_zero _); run_simpl.
  - eexists. rewrite !calls_app, dd_fallback_calls. cbn. rewrite app_nil_r.
    split; reflexivity.
  - exists w. split; reflexivity.
Qed.
End Fallback.

(** X7. The dd fallback of the disk adapter.  When the three sysbench
    stages return, dd is run exactly when both parsed figures are zero;
    the scratch file is removed (rm) exactly when, besides, both dd
    commands return and both trailers are read without an exception;
    whatever dd does the result is a completed one, and when the first dd
    raises it is the completed result with the two parsed zeros. *)
Theorem dd_fallback_runs_on_zeros_and_is_swallowed `{L : PyLib} (E : Env) (w : World)
    (prep result c : completed) :
  subprocess_run E FileioPrepare = inr prep ->
  subprocess_run E FileioRun = inr result ->
  subprocess_run E FileioCleanup = inr c ->
  let parsed := disk_parse (stdout result) in
  let zeros := num_is_zero parsed.1 && num_is_zero parsed.2 in
  let r := run_value (run_disk_benchmark E) w in
  let log := calls (run_log (run_disk_benchmark E) w) in
  (Run DdWrite ∈ log <-> zeros = true)
  /\ (Run RmScratch ∈ log <-> zeros = true /\ dd_completes E parsed.1 parsed.2 = true)
  /\ r !! "status" = Some (VStr "completed")
  /\ (forall e, zeros = true -> subprocess_run E DdWrite = inl e ->
        r = {[ "read_mib_per_sec" := parsed.1; "write_mib_per_sec" := parsed.2;
               "status" := VStr "completed" ]}
        /\ log = [Run FileioPrepare; Run FileioRun; Run FileioCleanup; Run DdWrite]).
Proof.
  intros Hp Hr Hc. cbv zeta.
  destruct (run_disk_after_stages E prep result c w Hp Hr Hc) as (w' & Hcalls & Hval).
  cbv zeta in Hcalls, Hval. rewrite Hcalls, Hval.
  destruct (num_is_zero _ && num_is_zero _) eqn:Hz.
  - split; [| split; [| split]].
    + split; [reflexivity |]. intros _. do 3 apply list_elem_of_further. apply list_elem_of_here.
    + rewrite <- rm_after_write. split.
      * intros H. split; [reflexivity |].
        repeat (apply elem_of_cons in H as [H | H]; [discriminate |]). exact H.
      * intros [_ H]. do 4 apply list_elem_of_further. exact H.
    + rewrite !lookup_insert_ne by discriminate. apply lookup_singleton_eq.
    + intros e _ He. rewrite (dd_fallback_write_raises E _ _ _ e He).
      split; [reflexivity |].
      unfold dd_calls_after_write. rewrite He. reflexivity.
  - split; [| split; [| split]].
    + split; [| discriminate]. intros H.
      repeat (apply elem_of_cons in H as [H | H]; [discriminate |]). inversion H.
    + split; [| intros [H _]; discriminate]. intros H.
      repeat (apply elem_of_cons in H as [H | H]; [discriminate |]). inversion H.
    + rewrite !lookup_insert_ne by discriminate. apply lookup_singleton_eq.
    + intros e H. discriminate.
Qed.

Lemma dd_fallback_witness :
  calls (run_log (run_disk_benchmark (L := reference_lib)
                    (Sample.sysbench_host Sample.memory_report "")) initial_world)
  = [Run FileioPrepare; Run FileioRun; Run FileioCleanup; Run DdWrite].
Proof.
  exact (proj2 (proj2 (proj2 (proj2
           (dd_fallback_runs_on_zeros_and_is_swallowed (L := reference_lib)
              (Sample.sysbench_host Sample.memory_report "") initial_world
              (Completed 0 "" "") (Completed 0 "" "") (Completed 0 "" "")
              eq_refl eq_refl eq_refl)))
           (Sample.missing "dd") eq_refl eq_refl)).
Defined.

Section Modern.
Context `{L : PyLib}.

Lemma disk_line_modern_read acc l v :
  PyStr.contains "read, mib/s:" (PyStr.lower l) = true ->
  colon_figure l = inr v ->
  disk_line acc l = (VFloat v, acc.2).
Proof. intros Hm Hv. unfold disk_line. rewrite Hm, Hv. reflexivity. Qed.

Lemma disk_line_modern_written acc l v :
  PyStr.contains "read, mib/s:" (PyStr.lower l) = false ->
  PyStr.contains "written, mib/s:" (PyStr.lower l) = true ->
  colon_figure l = inr v ->
  disk_line acc l = (acc.1, VFloat v).
Proof. intros Hr Hm Hv. unfold disk_line. rewrite Hr, Hm, Hv. reflexivity. Qed.

Lemma disk_line_modern_unreadable acc l e :
  Report.modern l = true -> colon_figure l = inl e -> disk_line acc l = acc.
Proof.
  unfold Report.modern, disk_line. intros Hm He. rewrite He.
  destruct (PyStr.contains "read, mib/s:" (PyStr.lower l)); [reflexivity |].
  simpl in Hm. rewrite Hm. reflexivity.
Qed.
End Modern.

(** X8. The modern phrasing of the fileio report.  For a report in which
    one line has the marker of the read figure and another line the marker
    of the written figure (and not the one of the read figure), each with
    a number after its first colon, and whose other lines either are not
    looked at by the parser or are modern lines whose figure cannot be
    read, the parsed values are the two numbers as printed, without any
    factor; they are the adapter's result when the three stages return and
    the two values are not both zero. *)
Theorem modern_figures_are_taken_as_printed `{L : PyLib} (output : string)
    (n1 n2 n3 : list string) (lr lw : string) (r w : float) :
  PyStr.lines output = n1 ++ lr :: n2 ++ lw :: n3
  \/ PyStr.lines output = n1 ++ lw :: n2 ++ lr :: n3 ->
  Forall (fun l => Report.silent l = true
                   \/ Report.modern l = true /\ exists e, colon_figure l = inl e)
         (n1 ++ n2 ++ n3) ->
  PyStr.contains "read, mib/s:" (PyStr.lower lr) = true -> colon_figure lr = inr r ->
  PyStr.contains "read, mib/s:" (PyStr.lower lw) = false ->
  PyStr.contains "written, mib/s:" (PyStr.lower lw) = true -> colon_figure lw = inr w ->
  disk_parse output = (VFloat r, VFloat w)
  /\ forall (E : Env) (s : World) (prep result c : completed),
       subprocess_run E FileioPrepare = inr prep ->
       subprocess_run E FileioRun = inr result ->
       subprocess_run E FileioCleanup = inr c ->
       stdout result = output ->
       PrimFloat.eqb r PrimFloat.zero && PrimFloat.eqb w PrimFloat.zero = false ->
       run_value (run_disk_benchmark E) s
       = {[ "read_mib_per_sec" := VFloat r; "write_mib_per_sec" := VFloat w;
            "status" := VStr "completed" ]}.
Proof.
  intros Hlines Hquiet Hlr Hr Hlw' Hlw Hw.
  assert (Hfold : forall ls acc,
             Forall (fun l => Report.silent l = true
                              \/ Report.modern l = true /\ exists e, colon_figure l = inl e) ls ->
             fold_left disk_line ls acc = acc).
  { intros ls acc H. revert acc.
    induction H as [|l ls [Hl | [Hl [e He]]] _ IH]; intros acc; simpl; [reflexivity | |].
    - rewrite (disk_line_silent _ _ Hl). apply IH.
    - rewrite (disk_line_modern_unreadable _ _ e Hl He). apply IH. }
  apply Forall_app in Hquiet as [H1 Hquiet]. apply Forall_app in Hquiet as [H2 H3].
  assert (Hparse : disk_parse output = (VFloat r, VFloat w)).
  { unfold disk_parse.
    destruct Hlines as [-> | ->];
      rewrite fold_left_app, (Hfold _ _ H1); cbn [fold_left];
      rewrite fold_left_app; cbn [fold_left].
    - rewrite (disk_line_modern_read _ _ _ Hlr Hr), (Hfold _ _ H2).
      rewrite (disk_line_modern_written _ _ _ Hlw' Hlw Hw), (Hfold _ _ H3). reflexivity.
    - rewrite (disk_line_modern_written _ _ _ Hlw' Hlw Hw), (Hfold _ _ H2).
      rewrite (disk_line_modern_read _ _ _ Hlr Hr), (Hfold _ _ H3). reflexivity. }
  split; [exact Hparse |].
  intros E s prep result c Hp Hrun Hc Hout Hz.
  destruct (run_disk_measured E prep result c s Hp Hrun Hc) as (m & -> & Hm).
  rewrite Hout, Hparse in Hm. rewrite (Hm Hz). reflexivity.
Qed.

Lemma modern_figures_witness :
  disk_parse (L := reference_lib) Sample.fileio_modern
  = (VFloat 12.5%float, VFloat 8.25%float).
Proof.
  refine (proj1 (modern_figures_are_taken_as_printed (L := reference_lib)
                   Sample.fileio_modern ["Throughput:"] [] []
                   "    read, MiB/s:                  12.50"
                   "    written, MiB/s:               8.25" 12.5%float 8.25%float
                   (or_introl eq_refl) _ eq_refl _ eq_refl eq_refl _)).
  - repeat constructor.
  - vm_compute. reflexivity.
  - vm_compute. reflexivity.
Defined.

(** * Results that do not depend on the shared state *)

Lemma sf_ret {A} (a : A) : state_free (ret a).
Proof. intros w w'. split; reflexivity. Qed.

Lemma sf_perform {A} c (a : A) : state_free (perform c a).
Proof. intros w w'. split; reflexivity. Qed.

Lemma sf_write f : state_free (write f).
Proof. intros w w'. split; reflexivity. Qed.

Lemma sf_bind {A B} (m : M A) (k : A -> M B) :
  state_free m -> (forall a, state_free (k a)) -> state_free (bind m k).
Proof.
  intros Hm Hk w w'. destruct (Hm w w') as [Hv Hc].
  rewrite !run_value_bind, !run_log_bind, !calls_app, Hv, Hc.
  destruct (Hk (run_value m w') (run_world m w) (run_world m w')) as [Hv' Hc'].
  rewrite Hv', Hc'. split; reflexivity.
Qed.

Ltac sfree :=
  lazymatch goal with
  | |- state_free (bind _ _) => apply sf_bind; [sfree | intros ?; sfree]
  | |- state_free (ret _) => apply sf_ret
  | |- state_free (perform _ _) => apply sf_perform
  | |- state_free (subprocess _ _) => apply sf_perform
  | |- state_free (write _) => apply sf_write
  | |- state_free (set_current_test _) => apply sf_write
  | |- state_free (set_message _) => apply sf_write
  | |- state_free (set_progress _) => apply sf_write
  | |- state_free incr_progress => apply sf_write
  | |- state_free (match ?x with _ => _ end) => destruct x; sfree
  | _ => solve [eauto]
  end.

Section StateFree.
Context `{L : PyLib}.
Variable E : Env.

Lemma sf_sysbench_except e : state_free (sysbench_except e).
Proof. unfold sysbench_except. sfree. Qed.

Lemma sf_cpu : state_free (run_cpu_benchmark E).
Proof. pose proof sf_sysbench_except. unfold run_cpu_benchmark. sfree. Qed.

Lemma sf_memory : state_free (run_memory_benchmark E).
Proof. pose proof sf_sysbench_except. unfold run_memory_benchmark. sfree. Qed.

Lemma sf_dd r w : state_free (dd_fallback E r w).
Proof. unfold dd_fallback. sfree. Qed.

Lemma sf_disk : state_free (run_disk_benchmark E).
Proof. pose proof sf_dd. unfold run_disk_benchmark, disk_except. sfree. Qed.

Lemma sf_dns ds ts : state_free (dns_loop E ds ts).
Proof. revert ts. induction ds as [|d ds IH]; intros ts; simpl; sfree. Qed.

Lemma sf_network : state_free (run_network_benchmark E).
Proof.
  pose proof sf_dns.
  unfold run_network_benchmark, counters_probe, throughput_probe, latency_probe, dns_probe.
  sfree.
Qed.
End StateFree.

Lemma holding_set_prog le lb env bm s p :
  holding le lb env bm s -> holding le lb env bm (set_prog p s).
Proof. intros H. exact H. Qed.

Lemma holding_benchmarks_set le lb env bm s name v :
  holding le lb env bm s ->
  holding le lb env (<[name := v]> bm) (benchmarks_set name v s).
Proof.
  intros (Hr & Hne & He & Hbm & Hb).
  unfold benchmarks_set, deref. rewrite Hr, He. simpl. rewrite Hb.
  unfold store, deref. rewrite Hbm. simpl.
  split; [exact Hr |]. split; [exact Hne |]. simpl.
  rewrite lookup_insert_ne by congruence. rewrite lookup_insert_eq.
  repeat split; assumption.
Qed.

Lemma holding_results_set le lb env bm s k v :
  k <> "benchmarks" ->
  holding le lb env bm s -> holding le lb (<[k := v]> env) bm (results_set k v s).
Proof.
  intros Hk (Hr & Hne & He & Hbm & Hb).
  unfold results_set, store, deref. rewrite Hr, He. simpl.
  split; [exact Hr |]. split; [exact Hne |]. simpl.
  rewrite lookup_insert_eq.
  rewrite (lookup_insert_ne _ le lb) by exact Hne.
  rewrite lookup_insert_ne by congruence.
  repeat split; assumption.
Qed.

Lemma holding_envelope le lb env bm s :
  holding le lb env bm s -> envelope_of s = env /\ benchmarks_of s = bm.
Proof.
  intros (Hr & Hne & He & Hbm & Hb).
  unfold benchmarks_of, envelope_of, deref. rewrite Hr, He. simpl.
  rewrite Hb, Hbm. split; reflexivity.
Qed.

Lemma triple_pre {A} (P P' : World -> Prop) (m : M A) Q I :
  (forall w, P' w -> P w) -> triple P m Q I -> triple P' m Q I.
Proof. intros Hp Hm w HP. apply Hm, Hp, HP. Qed.

Section Envelope.
Context `{L : PyLib}.
Variable E : Env.
Variable custom_name : option string.
Variable w0 w1 w2 w3 w4 : World.

Let lb : loc := fresh (dom (objs w0)).
Let le : loc := fresh (dom (<[lb := ∅]> (objs w0))).

Let filled : gmap string value :=
  <["network" := VDict (run_value (run_network_benchmark E) w4)]>
    (<["disk" := VDict (run_value (run_disk_benchmark E) w3)]>
       (<["memory" := VDict (run_value (run_memory_benchmark E) w2)]>
          (<["cpu" := VDict (run_value (run_cpu_benchmark E) w1)]> ∅))).

Lemma holding_frame {A} (m : M A) env bm (a0 : World) :
  progress_only m -> state_free m ->
  triple (holding le lb env bm) m
    (fun a s => a = run_value m a0 /\ holding le lb env bm s) (fun _ => True).
Proof.
  intros Hm Hs. apply triple_frame; [exact Hm | | ].
  - intros w. apply Hs.
  - intros w p H. split; [exact H | exact I].
Qed.

Lemma holding_store env bm name v :
  triple (holding le lb env bm) (write (benchmarks_set name v))
    (fun _ => holding le lb env (<[name := v]> bm)) (fun _ => True).
Proof.
  apply triple_write. intros w H. split; [apply holding_benchmarks_set, H | exact I].
Qed.

Lemma run_all_envelope_triple :
  triple (fun s => s = w0) (run_all_benchmarks E custom_name)
    (fun l s =>
       l = le
       /\ holding le lb
            (<["completed_at" := VStr (completed_now E)]> (new_envelope E custom_name lb))
            (<["network" := VDict (run_value (run_network_benchmark E) w4)]>
               (<["disk" := VDict (run_value (run_disk_benchmark E) w3)]>
                  (<["memory" := VDict (run_value (run_memory_benchmark E) w2)]>
                     (<["cpu" := VDict (run_value (run_cpu_benchmark E) w1)]> ∅))))
            s)
    (fun _ => True).
Proof.
  unfold run_all_benchmarks.
  eapply triple_bind with (Q := fun _ s => objs s = objs w0).
  { apply triple_write. intros w ->. split; [reflexivity | exact I]. }
  intros ?; cbv beta.
  eapply triple_bind with (Q := fun _ s => objs s = objs w0).
  { apply triple_write. intros w Ho. split; [exact Ho | exact I]. }
  intros ?; cbv beta.
  eapply triple_bind with (Q := fun l s => l = lb /\ objs s = <[lb := ∅]> (objs w0)).
  { apply triple_alloc. intros w Ho. cbn. rewrite Ho. split; reflexivity. }
  intros benchmarks.
  eapply triple_bind with
    (Q := fun l s => l = le /\ benchmarks = lb /\
            objs s = <[le := {[ "system_info" := VDict (get_system_info E);
                                "benchmarks" := VRef lb ]}]> (<[lb := ∅]> (objs w0))).
  { apply triple_alloc. intros w (-> & Ho). cbn. rewrite Ho. repeat split. }
  intros envelope.
  eapply triple_bind with
    (Q := fun _ => holding le lb {[ "system_info" := VDict (get_system_info E);
                                    "benchmarks" := VRef lb ]} ∅).
  { apply triple_write. intros w (-> & -> & Ho). split; [| exact I].
    split; [reflexivity |]. split; [apply (le_lb w0) |]. simpl. rewrite Ho.
    split; [apply lookup_insert_eq |].
    split; [| reflexivity].
    rewrite lookup_insert_ne by apply (le_lb w0). apply lookup_insert_eq. }
  intros ?; cbv beta.
  eapply triple_bind with (Q := fun _ => holding le lb (new_envelope E custom_name lb) ∅).
  { unfold new_envelope. destruct (truthy custom_name).
    - apply triple_write. intros w H. split; [| exact I].
      apply holding_results_set; [discriminate | exact H].
    - apply triple_ret. auto. }
  intros ?; cbv beta.
  eapply triple_bind;
    [apply (holding_frame _ _ _ w0); [apply po_set_progress | apply sf_write] | intros ?; cbv beta].
  eapply triple_pre; [intros w [_ H]; exact H |].
  eapply triple_bind; [apply (holding_frame _ _ _ w1); [apply po_cpu | apply sf_cpu] | intros cpu].
  eapply triple_bind with
    (Q := fun _ => holding le lb (new_envelope E custom_name lb)
                     (<["cpu" := VDict (run_value (run_cpu_benchmark E) w1)]> ∅)).
  { apply triple_write. intros w [-> H]. split; [apply holding_benchmarks_set, H | exact I]. }
  intros ?; cbv beta.
  eapply triple_bind;
    [apply (holding_frame _ _ _ w2); [apply po_memory | apply sf_memory] | intros memory].
  eapply triple_bind with
    (Q := fun _ => holding le lb (new_envelope E custom_name lb)
                     (<["memory" := VDict (run_value (run_memory_benchmark E) w2)]>
                        (<["cpu" := VDict (run_value (run_cpu_benchmark E) w1)]> ∅))).
  { apply triple_write. intros w [-> H]. split; [apply holding_benchmarks_set, H | exact I]. }
  intros ?; cbv beta.
  eapply triple_bind;
    [apply (holding_frame _ _ _ w3); [apply po_disk | apply sf_disk] | intros disk].
  eapply triple_bind with
    (Q := fun _ => holding le lb (new_envelope E custom_name lb)
                     (<["disk" := VDict (run_value (run_disk_benchmark E) w3)]>
                        (<["memory" := VDict (run_value (run_memory_benchmark E) w2)]>
                           (<["cpu" := VDict (run_value (run_cpu_benchmark E) w1)]> ∅)))).
  { apply triple_write. intros w [-> H]. split; [apply holding_benchmarks_set, H | exact I]. }
  intros ?; cbv beta.
  eapply triple_bind;
    [apply (holding_frame _ _ _ w4); [apply po_network | apply sf_network] | intros network].
  eapply triple_bind with
    (Q := fun _ => holding le lb (new_envelope E custom_name lb)
                     (<["network" := VDict (run_value (run_network_benchmark E) w4)]>
                        (<["disk" := VDict (run_value (run_disk_benchmark E) w3)]>
                           (<["memory" := VDict (run_value (run_memory_benchmark E) w2)]>
                              (<["cpu" := VDict (run_value (run_cpu_benchmark E) w1)]> ∅))))).
  { apply triple_write. intros w [-> H]. split; [apply holding_benchmarks_set, H | exact I]. }
  intros ?; cbv beta.
  eapply triple_bind with
    (Q := fun _ => holding le lb (new_envelope E custom_name lb) filled).
  { apply triple_write. intros w H. split; [exact H | exact I]. }
  intros ?; cbv beta.
  eapply triple_bind with
    (Q := fun _ => holding le lb (new_envelope E custom_name lb) filled).
  { apply triple_write. intros w H. split; [exact H | exact I]. }
  intros ?; cbv beta.
  eapply triple_bind with
    (Q := fun _ => holding le lb (new_envelope E custom_name lb) filled).
  { apply triple_write. intros w H. split; [exact H | exact I]. }
  intros ?; cbv beta.
  eapply triple_bind with
    (Q := fun _ => holding le lb
                     (<["completed_at" := VStr (completed_now E)]>
                        (new_envelope E custom_name lb)) filled).
  { apply triple_write. intros w H. split; [| exact I].
    apply (holding_results_set _ _ _ _ _ "completed_at" (VStr (completed_now E)));
      [discriminate | exact H]. }
  intros ?; cbv beta.
  eapply triple_bind with
    (Q := fun _ => holding le lb
                     (<["completed_at" := VStr (completed_now E)]>
                        (new_envelope E custom_name lb)) filled).
  { apply triple_write. intros w H. split; [exact H | exact I]. }
  intros ?; cbv beta.
  apply triple_get. intros w H. split; [apply H | exact H].
Qed.
End Envelope.

(** X9. What a run stores.  The envelope that [run_all_benchmarks]
    returns has the host facts, the reference to its mapping of
    benchmarks, the completion time, and the custom name exactly when one
    was given and is not empty; the mapping has, under cpu, memory, disk
    and network, the results of the four adapters, which depend on the
    outside only and not on the shared state they are run in. *)
Theorem run_stores_the_adapters_results `{L : PyLib} (E : Env)
    (custom_name : option string) (w w1 w2 w3 w4 : World) :
  let w' := run_world (run_all_benchmarks E custom_name) w in
  benchmarks_of w'
  = <["network" := VDict (run_value (run_network_benchmark E) w4)]>
      (<["disk" := VDict (run_value (run_disk_benchmark E) w3)]>
         (<["memory" := VDict (run_value (run_memory_benchmark E) w2)]>
            (<["cpu" := VDict (run_value (run_cpu_benchmark E) w1)]> ∅)))
  /\ (exists lb, envelope_of w'
                 = <["completed_at" := VStr (completed_now E)]>
                     (new_envelope E custom_name lb))
  /\ envelope_of w' !! "system_info" = Some (VDict (get_system_info E))
  /\ envelope_of w' !! "custom_name"
     = (if truthy custom_name then VStr <$> custom_name else None)
  /\ state_free (run_cpu_benchmark E) /\ state_free (run_memory_benchmark E)
  /\ state_free (run_disk_benchmark E) /\ state_free (run_network_benchmark E).
Proof.
  destruct (run_all_envelope_triple E custom_name w w1 w2 w3 w4 w eq_refl) as [[_ H] _].
  apply holding_envelope in H as [He Hb]. cbv zeta. rewrite He, Hb.
  split; [reflexivity |]. split; [eexists; reflexivity |].
  split; [| split].
  - rewrite lookup_insert_ne by discriminate. unfold new_envelope.
    destruct (truthy custom_name); rewrite ?lookup_insert_ne by discriminate;
      apply lookup_insert_eq.
  - rewrite lookup_insert_ne by discriminate. unfold new_envelope.
    destruct custom_name as [n |]; simpl.
    + destruct (negb (n =? ""))%string; [apply lookup_insert_eq | reflexivity].
    + reflexivity.
  - repeat split; first [apply sf_cpu | apply sf_memory | apply sf_disk | apply sf_network].
Qed.

(** * Host facts *)

Lemma cpu_model_scan_none ls :
  forallb (fun l => negb (PyStr.contains "model name" l)) ls = true ->
  cpu_model_scan ls = inr "Unknown".
Proof.
  induction ls as [|l ls IH]; simpl; [reflexivity |].
  intros [Hl Hls]%andb_true_iff. apply negb_true_iff in Hl. rewrite Hl. exact (IH Hls).
Qed.

Lemma cpu_model_scan_first pre line post :
  forallb (fun l => negb (PyStr.contains "model name" l)) pre = true ->
  PyStr.contains "model name" line = true ->
  cpu_model_scan (pre ++ line :: post)
  = (field <- py_index (PyStr.split ":" line) 1 ;; inr (PyStr.strip field))%res.
Proof.
  intros Hpre Hline. induction pre as [|l pre IH]; simpl.
  - rewrite Hline. reflexivity.
  - simpl in Hpre. apply andb_true_iff in Hpre as [Hl Hpre].
    apply negb_true_iff in Hl. rewrite Hl. exact (IH Hpre).
Qed.

(** X10. [_get_cpu_model] never raises and looks at one line only: the
    first line of /proc/cpuinfo with the marker.  Its answer is the text
    between the first and the second colon of that line, stripped, and
    Unknown when that line has no colon, whatever the later lines are; it
    is Unknown as well when no line has the marker and when the file
    cannot be read. *)
Theorem cpu_model_is_decided_by_the_first_marked_line (cpuinfo : res (list string)) :
  (forall e, cpuinfo = inl e -> _get_cpu_model cpuinfo = "Unknown")
  /\ (forall ls, cpuinfo = inr ls ->
        forallb (fun l => negb (PyStr.contains "model name" l)) ls = true ->
        _get_cpu_model cpuinfo = "Unknown")
  /\ (forall pre line post, cpuinfo = inr (pre ++ line :: post) ->
        forallb (fun l => negb (PyStr.contains "model name" l)) pre = true ->
        PyStr.contains "model name" line = true ->
        _get_cpu_model cpuinfo
        = match PyStr.split ":" line with
          | _ :: field :: _ => PyStr.strip field
          | _ => "Unknown"
          end).
Proof.
  split; [| split].
  - intros e ->. reflexivity.
  - intros ls -> Hls. unfold _get_cpu_model. simpl. rewrite (cpu_model_scan_none _ Hls).
    reflexivity.
  - intros pre line post -> Hpre Hline. unfold _get_cpu_model. simpl.
    rewrite (cpu_model_scan_first _ _ _ Hpre Hline).
    destruct (PyStr.split ":" line) as [|a [|field rest]]; reflexivity.
Qed.

Lemma cpu_model_witness :
  _get_cpu_model (inr ["processor : 0"; "model name"; "model name : Xeon E5 : 2.4GHz"])
  = "Unknown".
Proof.
  exact (proj2 (proj2 (cpu_model_is_decided_by_the_first_marked_line
                         (inr ["processor : 0"; "model name"; "model name : Xeon E5 : 2.4GHz"])))
           ["processor : 0"] "model name" ["model name : Xeon E5 : 2.4GHz"]
           eq_refl eq_refl eq_refl).
Defined.

(** * The store across a restart and across calls *)

Section Restart.
Context `{L : PyLib}.

Lemma save_first_state w :
  head (snaps (run_log save w)) = Some (set_db_file (Some "") w).
Proof. unfold save. rewrite run_log_bind, snaps_app. reflexivity. Qed.

Lemma id_differs_frame w w' result_id l :
  objs w' = objs w -> id_differs w' result_id l = id_differs w result_id l.
Proof. intros Ho. unfold id_differs, deref. rewrite Ho. reflexivity. Qed.

Lemma filter_idem {A} (f g : A -> bool) (l : list A) :
  (forall x, g x = f x) -> List.filter g (List.filter f l) = List.filter f l.
Proof.
  intros Hfg. induction l as [|x l IH]; simpl; [reflexivity |].
  destruct (f x) eqn:Hx; [| exact IH]. simpl. rewrite Hfg, Hx, IH. reflexivity.
Qed.
End Restart.

(** X11. The store at a restart.  [_load] gives the empty collection when
    there is no backing file and when the file's text is not JSON; so a
    process stopped in the first state that [save] writes, where the file
    has just been truncated, restarts with an empty collection whatever the
    store held, given that the empty text is not JSON.  After a [save] that
    ran to its end, [_load] gives what [json.load] makes of the encoding. *)
Theorem load_after_save `{L : PyLib} (w : World) :
  (db_file w = None -> _load w = empty_data)
  /\ (forall m, json_loads "" = inl m ->
        exists s, head (snaps (run_log save w)) = Some s /\ _load s = empty_data)
  /\ (forall data,
        json_loads (written (json_iterencode (objs w) (db_data w))) = inr data ->
        _load (run_world save w) = data).
Proof.
  split; [| split].
  - intros Hf. unfold _load. rewrite Hf. reflexivity.
  - intros m Hm. exists (set_db_file (Some "") w).
    split; [apply save_first_state |]. unfold _load. simpl. rewrite Hm. reflexivity.
  - intros data Hd. rewrite save_world. unfold _load. simpl. rewrite Hd. reflexivity.
Qed.

Lemma load_after_save_witness :
  exists s, head (snaps (run_log (save (L := reference_lib)) initial_world)) = Some s
            /\ _load (L := reference_lib) s = empty_data.
Proof.
  exact (proj1 (proj2 (load_after_save (L := reference_lib) initial_world))
           "Expecting value: line 1 column 1 (char 0)" eq_refl).
Defined.

(** X12. [delete] after [add_result], and [delete] twice.  Deleting the
    id that [add_result] has just given, when the envelope was not yet a
    record and no record had that id, gives back the records there were,
    in order; the envelope keeps the id it was stamped with and the file
    holds the encoding of the collection.  A second [delete] of the same
    id changes nothing: not the records, not the objects, not the file. *)
Theorem delete_undoes_add_and_is_idempotent `{L : PyLib} (w : World)
    (new_id now result_id : string) (e : loc) :
  (e ∉ servers w ->
   (forall l, l ∈ servers w -> record_id w l <> Some new_id) ->
   let w' := run_world (delete new_id) (run_world (add_result new_id now e) w) in
   servers w' = servers w
   /\ record_id w' e = Some new_id
   /\ db_file w' = Some (written (json_iterencode (objs w') (db_data w'))))
  /\ run_world (delete result_id) (run_world (delete result_id) w)
     = run_world (delete result_id) w.
Proof.
  split.
  - intros He Hfresh. cbv zeta.
    set (w1 := run_world (add_result new_id now e) w).
    assert (Hs1 : servers w1 = servers w ++ [e]).
    { unfold w1. rewrite add_result_world, save_world. reflexivity. }
    assert (Hd1 : forall l, deref w1 l = deref (added new_id now e w) l).
    { intros l. unfold w1. rewrite add_result_world, save_world. reflexivity. }
    assert (Hid : forall l, id_differs w1 new_id l
                            = if decide (l = e) then false else id_differs w new_id l).
    { intros l. unfold id_differs. rewrite Hd1.
      destruct (decide (l = e)) as [-> | Hne].
      - rewrite deref_added. rewrite lookup_insert_ne by discriminate.
        rewrite lookup_insert_eq. rewrite String.eqb_refl. reflexivity.
      - rewrite (deref_added_other _ _ _ _ _ Hne). reflexivity. }
    assert (Hfilter : List.filter (id_differs w1 new_id) (servers w1) = servers w).
    { rewrite Hs1, List.filter_app. simpl.
      rewrite (Hid e). destruct (decide (e = e)) as [_ | Hne]; [| contradiction].
      rewrite app_nil_r. apply filter_all. intros l Hl. rewrite Hid.
      destruct (decide (l = e)) as [-> | _]; [contradiction |].
      apply id_differs_spec, Hfresh, Hl. }
    rewrite delete_world, save_world.
    cbn [servers set_db_file set_servers db_file].
    split; [exact Hfilter |]. split; [| reflexivity].
    unfold record_id.
    change (deref (set_db_file ?f ?x)) with (deref x).
    change (deref (set_servers ?f ?x)) with (deref x).
    rewrite Hd1, deref_added. rewrite lookup_insert_ne by discriminate.
    rewrite lookup_insert_eq. reflexivity.
  - rewrite !delete_world, !save_world.
    cbn [servers objs set_db_file set_servers db_file].
    rewrite (filter_idem (id_differs w result_id)); [reflexivity |].
    intros l. apply id_differs_frame. reflexivity.
Qed.

Lemma delete_undoes_add_witness :
  servers (run_world (delete (L := reference_lib) "0b7c1e0e")
             (run_world (add_result (L := reference_lib) "0b7c1e0e" "2024-05-01T10:00:41"
                           (fresh (dom (objs initial_world)))) initial_world))
  = servers initial_world.
Proof.
  refine (proj1 (proj1 (delete_undoes_add_and_is_idempotent (L := reference_lib)
                          initial_world "0b7c1e0e" "2024-05-01T10:00:41" "0b7c1e0e"
                          (fresh (dom (objs initial_world)))) _ _)).
  - intros H. inversion H.
  - intros l H. inversion H.
Defined.

(** * Invariants of the guard *)

Lemma pending_insert (hs : list Server.handler) (i : nat) (h h' : Server.handler) :
  hs !! i = Some h ->
  (pending (<[i := h']> hs) + (if is_pending h then 1 else 0)
   = pending hs + (if is_pending h' then 1 else 0))%nat.
Proof.
  unfold pending. revert i.
  induction hs as [|x hs IH]; intros i Hi; [discriminate |].
  destruct i as [|i]; simpl in *.
  - injection Hi as ->. destruct h, h'; simpl; lia.
  - specialize (IH i Hi). destruct x; simpl; lia.
Qed.

Lemma pending_replicate n : pending (replicate n Server.HCheck) = n.
Proof. unfold pending. induction n as [|n IH]; simpl; [reflexivity | rewrite IH; reflexivity]. Qed.

Lemma exists_holds_insert (rs : list Server.run) (j : nat) (r : Server.run) :
  (j < length rs)%nat -> holds_flag r -> Exists holds_flag (<[j := r]> rs).
Proof.
  intros Hj Hr. apply Exists_exists. exists r. split; [| exact Hr].
  apply list_elem_of_lookup. exists j. apply list_lookup_insert_eq. exact Hj.
Qed.

Lemma server_step_invariant (n : nat) (s s' : Server.state) :
  Server.step s s' ->
  length (Server.handlers s) = n
  /\ (length (Server.runs s) + pending (Server.handlers s) <= n)%nat
  /\ (Server.flag s = true -> Exists holds_flag (Server.runs s)) ->
  length (Server.handlers s') = n
  /\ (length (Server.runs s') + pending (Server.handlers s') <= n)%nat
  /\ (Server.flag s' = true -> Exists holds_flag (Server.runs s')).
Proof.
  intros Hstep (Hlen & Hcount & Hflag).
  destruct Hstep as [s i s' Hh | s j s' Hr].
  - unfold Server.handler_step in Hh.
    destruct (Server.handlers s !! i) as [h |] eqn:Hi; [| discriminate].
    destruct h as [| | | b]; try discriminate; injection Hh as <-; simpl.
    + split; [rewrite length_insert; exact Hlen |]. split; [| exact Hflag].
      pose proof (pending_insert _ i _ (if Server.flag s then Server.HRespond else Server.HStart) Hi)
        as Hp.
      simpl in Hp. destruct (Server.flag s); simpl in Hp; lia.
    + split; [rewrite length_insert; exact Hlen |]. split.
      * pose proof (pending_insert _ i _ Server.HRespond Hi) as Hp. simpl in Hp.
        rewrite length_app. simpl. lia.
      * intros Hf. apply Exists_app. left. apply Hflag, Hf.
    + split; [rewrite length_insert; exact Hlen |]. split; [| exact Hflag].
      pose proof (pending_insert _ i _ (Server.HDone (Server.flag s)) Hi) as Hp.
      simpl in Hp. lia.
  - unfold Server.run_step in Hr.
    destruct (Server.runs s !! j) as [r |] eqn:Hj; [| discriminate].
    assert (Hlt : (j < length (Server.runs s))%nat) by (eapply lookup_lt_Some; exact Hj).
    destruct r; try discriminate; injection Hr as <-; simpl.
    + split; [exact Hlen |]. split; [rewrite length_insert; exact Hcount |].
      intros _. apply exists_holds_insert; [exact Hlt | left; reflexivity].
    + split; [exact Hlen |]. split; [rewrite length_insert; exact Hcount |].
      intros _. apply exists_holds_insert; [exact Hlt | right; reflexivity].
    + split; [exact Hlen |]. split; [rewrite length_insert; exact Hcount |].
      discriminate.
Qed.

(** X13. Invariants of the guard on [running], for [n] requests arriving
    at an idle server and any interleaving of the handlers and the runs
    they start.  There are never more runs than requests: each handler
    starts at most one thread.  And the flag is set only while some run is
    between its [self.running = True] and its [self.running = False]; so
    once every run has finished the flag is cleared. *)
Theorem guard_invariants (n : nat) (s : Server.state) :
  rtc Server.step (Server.arrivals n) s ->
  length (Server.handlers s) = n
  /\ (length (Server.runs s) + pending (Server.handlers s) <= n)%nat
  /\ (Server.flag s = true -> Exists holds_flag (Server.runs s))
  /\ (Forall (fun r => r = Server.RFinished) (Server.runs s) -> Server.flag s = false).
Proof.
  intros Hreach.
  assert (Hinv : length (Server.handlers s) = n
                 /\ (length (Server.runs s) + pending (Server.handlers s) <= n)%nat
                 /\ (Server.flag s = true -> Exists holds_flag (Server.runs s))).
  { revert s Hreach.
    apply (rtc_ind_r (fun s => length (Server.handlers s) = n
                               /\ (length (Server.runs s) + pending (Server.handlers s) <= n)%nat
                               /\ (Server.flag s = true -> Exists holds_flag (Server.runs s)))).
    - simpl. rewrite length_replicate, pending_replicate.
      split; [reflexivity |]. split; [lia | discriminate].
    - intros y z _ Hstep IH. eapply server_step_invariant; eassumption. }
  destruct Hinv as (Hlen & Hcount & Hflag).
  split; [exact Hlen |]. split; [exact Hcount |]. split; [exact Hflag |].
  intros Hall. destruct (Server.flag s) eqn:Hf; [| reflexivity].
  specialize (Hflag eq_refl). apply Exists_exists in Hflag as (r & Hin & Hr).
  rewrite Forall_forall in Hall. specialize (Hall r Hin).
  destruct Hr as [-> | ->]; discriminate.
Qed.

Lemma guard_invariants_witness :
  length (Server.handlers (Server.mkState false [Server.HRespond] [Server.RSetRunning])) = 1%nat
  /\ (length (Server.runs (Server.mkState false [Server.HRespond] [Server.RSetRunning]))
      + pending (Server.handlers (Server.mkState false [Server.HRespond] [Server.RSetRunning]))
      <= 1)%nat
  /\ (Server.flag (Server.mkState false [Server.HRespond] [Server.RSetRunning]) = true ->
      Exists holds_flag (Server.runs (Server.mkState false [Server.HRespond] [Server.RSetRunning])))
  /\ (Forall (fun r => r = Server.RFinished)
        (Server.runs (Server.mkState false [Server.HRespond] [Server.RSetRunning])) ->
      Server.flag (Server.mkState false [Server.HRespond] [Server.RSetRunning]) = false).
Proof.
  apply (guard_invariants 1).
  eapply rtc_l; [apply (Server.step_handler _ 0); reflexivity |].
  eapply rtc_l; [apply (Server.step_handler _ 0); reflexivity |].
  apply rtc_refl.
Defined.

(** * A run that is saved *)

Section SavedRun.
Context `{L : PyLib}.

Lemma write_chunks_running cs w :
  Forall (fun s => running s = running w) (snaps (run_log (write_chunks cs) w)).
Proof.
  revert w. induction cs as [|c cs IH]; intros w; simpl; [constructor |].
  rewrite run_log_bind, snaps_app. apply Forall_app. split.
  - repeat constructor.
  - exact (IH (run_world (write (fun w => set_db_file
                                    (Some (default "" (db_file w) ++ c)%string) w)) w)).
Qed.

Lemma save_running w :
  Forall (fun s => running s = running w) (snaps (run_log save w)).
Proof.
  unfold save. rewrite !run_log_bind, !snaps_app.
  apply Forall_app. split; [repeat constructor |].
  apply Forall_app. split; [constructor |].
  exact (write_chunks_running _ (run_world (get (fun w => json_iterencode (objs w) (db_data w)))
                                   (run_world (write (set_db_file (Some ""))) w))).
Qed.

Lemma add_result_running new_id now result w :
  Forall (fun s => running s = running w) (snaps (run_log (add_result new_id now result) w)).
Proof.
  rewrite add_result_log, snaps_app. apply Forall_app. split.
  - repeat constructor.
  - exact (save_running (added new_id now result w)).
Qed.
End SavedRun.

(** X14. A run that is saved.  [_run_and_save] appends exactly one
    record, the new envelope, stamped with the id and the time drawn when
    it is stored; the records and the objects there were before are as they
    were; at the end the file holds the encoding of the collection, the
    flag is cleared and the progress is the final one.  Nothing is stored
    while the flag is set: in every state written with the flag set, the
    records and the file are those from before the call. *)
Theorem saved_run_appends_one_record `{L : PyLib} (E : Env)
    (custom_name : option string) (w : World) :
  let w2 := run_world (_run_and_save E custom_name) w in
  servers w2 = servers w ++ [results w2]
  /\ (results w2 ∉ dom (objs w))
  /\ (forall l, l ∈ dom (objs w) -> deref w2 l = deref w l)
  /\ record_id w2 (results w2) = Some (uuid4 E)
  /\ envelope_of w2 !! "timestamp" = Some (VStr (saved_now E))
  /\ db_file w2 = Some (written (json_iterencode (objs w2) (db_data w2)))
  /\ running w2 = false
  /\ prog w2 = final_progress
  /\ Forall (fun s => running s = true -> servers s = servers w /\ db_file s = db_file w)
       (snaps (run_log (_run_and_save E custom_name) w)).
Proof.
  destruct (run_all_frame_triple E custom_name w w eq_refl)
    as [(Hr & Hp & (Hs & Hf & Ho) & Hre) Ht].
  pose proof (le_new w) as Hnew. rewrite <- Hre in Hnew.
  cbv zeta. rewrite run_and_save_world, run_all_returns_results.
  set (w1 := run_world (run_all_benchmarks E custom_name) w) in *.
  rewrite add_result_world, save_world.
  unfold record_id, envelope_of.
  change (deref (set_db_file ?f ?x)) with (deref x).
  cbn [results running prog servers set_db_file added set_servers store set_objs db_file].
  rewrite !deref_added.
  split; [rewrite Hs; reflexivity |].
  split; [exact Hnew |].
  split.
  { intros l Hl. rewrite deref_added_other by (intros ->; contradiction).
    unfold deref. rewrite (Ho l Hl). reflexivity. }
  split; [rewrite lookup_insert_ne by discriminate; rewrite lookup_insert_eq; reflexivity |].
  split; [apply lookup_insert_eq |].
  split; [reflexivity |].
  split; [exact Hr |]. split; [exact Hp |].
  unfold _run_and_save. rewrite !run_log_bind, !snaps_app.
  apply Forall_app. split.
  - eapply Forall_impl; [exact Ht |]. intros s [(Hs' & Hf' & _) _] _. split; assumption.
  - apply Forall_app. split; [| constructor].
    rewrite run_all_returns_results. fold w1.
    eapply Forall_impl; [apply add_result_running |].
    intros s Hrun Htrue. cbv beta in Hrun. rewrite Hrun, Hr in Htrue. discriminate.
Qed.

Section DdFigures.
Context `{L : PyLib}.
Variable E : Env.

Lemma dd_speed_first pre part post tok v :
  forallb (fun p => negb (Trailer.has_rate p)) pre = true ->
  Trailer.has_rate part = true ->
  py_index (PyStr.split_ws (PyStr.strip part)) 0 = inr tok ->
  float_of_string tok = inr v ->
  dd_speed (pre ++ part :: post) = inr (Some v).
Proof.
  intros Hpre Hpart Htok Hv. induction pre as [|p pre IH]; simpl.
  - unfold Trailer.has_rate in Hpart. rewrite Hpart, Htok. simpl.
    unfold py_float. rewrite Hv. reflexivity.
  - simpl in Hpre. apply andb_true_iff in Hpre as [Hp Hpre].
    apply negb_true_iff in Hp. unfold Trailer.has_rate in Hp. rewrite Hp. exact (IH Hpre).
Qed.

Lemma dd_scan_others cur ls :
  forallb Trailer.other ls = true -> dd_scan cur ls = (cur, None).
Proof.
  induction ls as [|l ls IH]; simpl; [reflexivity |].
  intros [Hl Hls]%andb_true_iff. unfold Trailer.other in Hl.
  apply negb_true_iff in Hl. rewrite Hl. exact (IH Hls).
Qed.

Lemma dd_scan_gives cur n1 line n2 v :
  forallb Trailer.other n1 = true -> Trailer.gives line v ->
  forallb Trailer.other n2 = true ->
  dd_scan cur (n1 ++ line :: n2) = (VFloat v, None).
Proof.
  intros H1 (Hline & pre & part & post & tok & Hs & Hpre & Hpart & Htok & Hv) H2.
  induction n1 as [|l n1 IH]; simpl.
  - rewrite Hline, Hs, (dd_speed_first _ _ _ _ _ Hpre Hpart Htok Hv).
    apply dd_scan_others, H2.
  - simpl in H1. apply andb_true_iff in H1 as [Hl H1]. unfold Trailer.other in Hl.
    apply negb_true_iff in Hl. rewrite Hl. exact (IH H1).
Qed.
End DdFigures.

(** X15. The figures of the dd fallback.  When the three sysbench stages
    return without a figure, both dd commands return, and the stderr of
    each has one trailer line (with bytes and copied) whose first part
    naming a rate, in MB/s or in GB/s, starts with a number, then the
    adapter runs rm after them and its result has the two numbers as
    printed: a rate printed in GB/s is stored under the MiB/s key
    unconverted. *)
Theorem dd_figures_are_stored_as_printed `{L : PyLib} (E : Env) (w : World)
    (prep result c dd_write dd_read : completed)
    (n1 n2 m1 m2 : list string) (lw lr : string) (vw vr : float) :
  subprocess_run E FileioPrepare = inr prep ->
  subprocess_run E FileioRun = inr result ->
  subprocess_run E FileioCleanup = inr c ->
  disk_parse (stdout result) = (VInt 0, VInt 0) ->
  subprocess_run E DdWrite = inr dd_write ->
  subprocess_run E DdRead = inr dd_read ->
  PyStr.lines (stderr dd_write) = n1 ++ lw :: n2 ->
  forallb Trailer.other (n1 ++ n2) = true -> Trailer.gives lw vw ->
  PyStr.lines (stderr dd_read) = m1 ++ lr :: m2 ->
  forallb Trailer.other (m1 ++ m2) = true -> Trailer.gives lr vr ->
  run_value (run_disk_benchmark E) w
  = {[ "read_mib_per_sec" := VFloat vr; "write_mib_per_sec" := VFloat vw;
       "status" := VStr "completed" ]}
  /\ calls (run_log (run_disk_benchmark E) w)
     = [Run FileioPrepare; Run FileioRun; Run FileioCleanup;
        Run DdWrite; Run DdRead; Run RmScratch].
Proof.
  intros Hp Hr Hc Hparse Hw Hrd Hlw Hnw Hgw Hlr Hnr Hgr.
  rewrite forallb_app in Hnw, Hnr.
  apply andb_true_iff in Hnw as [Hn1 Hn2]. apply andb_true_iff in Hnr as [Hm1 Hm2].
  destruct (run_disk_after_stages E prep result c w Hp Hr Hc) as (w' & Hcalls & Hval).
  cbv zeta in Hcalls, Hval. rewrite Hcalls, Hval, Hparse. simpl.
  unfold dd_calls_after_write, dd_completes, dd_fallback. run_simpl.
  rewrite Hw. run_simpl. rewrite Hlw, (dd_scan_gives _ _ _ _ _ Hn1 Hgw Hn2). run_simpl.
  rewrite Hrd. run_simpl. rewrite Hlr, (dd_scan_gives _ _ _ _ _ Hm1 Hgr Hm2). run_simpl.
  split; reflexivity.
Qed.

Lemma dd_figures_witness :
  run_value (run_disk_benchmark (L := reference_lib) MoreDisk.dd_host) initial_world
  = {[ "read_mib_per_sec" := VFloat 850%float; "write_mib_per_sec" := VFloat 2.1%float;
       "status" := VStr "completed" ]}.
Proof.
  refine (proj1 (dd_figures_are_stored_as_printed (L := reference_lib)
                   MoreDisk.dd_host initial_world
                   (Completed 0 "" "") (Completed 0 "" "") (Completed 0 "" "")
                   (Completed 0 "" (MoreDisk.dd_trailer "2.1 GB/s"))
                   (Completed 0 "" (MoreDisk.dd_trailer "850 MB/s"))
                   ["1024+0 records in"; "1024+0 records out"] []
                   ["1024+0 records in"; "1024+0 records out"] []
                   "1073741824 bytes (1.1 GB, 1.0 GiB) copied, 0.5 s, 2.1 GB/s"
                   "1073741824 bytes (1.1 GB, 1.0 GiB) copied, 0.5 s, 850 MB/s"
                   2.1%float 850%float
                   eq_refl eq_refl eq_refl eq_refl eq_refl eq_refl eq_refl eq_refl _
                   eq_refl eq_refl _)).
  - split; [reflexivity |].
    exists ["1073741824 bytes (1.1 GB"; " 1.0 GiB) copied"; " 0.5 s"], " 2.1 GB/s", [], "2.1".
    repeat split; vm_compute; reflexivity.
  - split; [reflexivity |].
    exists ["1073741824 bytes (1.1 GB"; " 1.0 GiB) copied"; " 0.5 s"], " 850 MB/s", [], "850".
    repeat split; vm_compute; reflexivity.
Defined.

(** * The network adapter: the exceptions of its probes *)

Section NetworkCapture.
Context `{L : PyLib}.
Variable E : Env.

Lemma throughput_probe_captures results w e :
  throughput_raises E e ->
  run_value (throughput_probe E results) w !! "throughput_error"
  = Some (VStr (iperf_message e)).
Proof.
  unfold throughput_probe. run_simpl.
  intros [Hp | (u & Hp & [Hc | (result & Hc & [Hw | (u' & Hw & Hrc & Hparse)])])].
  - rewrite Hp. run_simpl. apply throughput_except_error.
  - rewrite Hp. run_simpl. rewrite Hc. run_simpl. apply throughput_except_error.
  - rewrite Hp. run_simpl. rewrite Hc. run_simpl. rewrite Hw. run_simpl.
    apply throughput_except_error.
  - rewrite Hp. run_simpl. rewrite Hc. run_simpl. rewrite Hw. run_simpl.
    rewrite Hrc. simpl. run_simpl. unfold throughput_parse.
    destruct Hparse as [(m & Hj & ->) | (data & Hj & [Hs | (send & Hs & Hr)])].
    + rewrite Hj. apply throughput_except_error.
    + rewrite Hj, Hs. apply throughput_except_error.
    + rewrite Hj, Hs, Hr. apply throughput_except_error.
Qed.

Lemma throughput_probe_error_only results w v :
  results !! "throughput_error" = None ->
  run_value (throughput_probe E results) w !! "throughput_error" = Some v ->
  exists e, throughput_raises E e /\ v = VStr (iperf_message e).
Proof.
  intros Hnone. unfold throughput_probe. run_simpl.
  destruct (popen_iperf_server E) as [e | u] eqn:Hp; run_simpl.
  { rewrite throughput_except_error. intros [= <-].
    exists e. split; [left; exact Hp | reflexivity]. }
  destruct (subprocess_run E IperfClient) as [e | result] eqn:Hc; run_simpl.
  { rewrite throughput_except_error. intros [= <-].
    exists e. split; [right; exists u; split; [exact Hp | left; exact Hc] | reflexivity]. }
  destruct (wait_iperf_server E) as [e | u'] eqn:Hw; run_simpl.
  { rewrite throughput_except_error. intros [= <-].
    exists e. split; [| reflexivity].
    right. exists u. split; [exact Hp |]. right. exists result. split; [exact Hc |].
    left. exact Hw. }
  destruct (Z.eqb_spec (returncode result) 0) as [Hrc | Hrc]; run_simpl.
  2:{ rewrite Hnone. discriminate. }
  assert (Hcase : forall e,
             (exists m, json_loads (stdout result) = inl m /\ e = Exn ValueError m)
             \/ (exists data, json_loads (stdout result) = inr data /\
                   (mbps data "sum_sent" = inl e
                    \/ exists send, mbps data "sum_sent" = inr send
                                    /\ mbps data "sum_received" = inl e)) ->
             throughput_raises E e).
  { intros e He. right. exists u. split; [exact Hp |]. right. exists result.
    split; [exact Hc |]. right. exists u'. split; [exact Hw |]. split; [exact Hrc | exact He]. }
  unfold throughput_parse.
  destruct (json_loads (stdout result)) as [m | data] eqn:Hj.
  { rewrite throughput_except_error. intros [= <-].
    exists (Exn ValueError m). split; [| reflexivity].
    apply Hcase. left. exists m. split; reflexivity. }
  destruct (mbps data "sum_sent") as [e | send] eqn:Hs.
  { rewrite throughput_except_error. intros [= <-].
    exists e. split; [| reflexivity].
    apply Hcase. right. exists data. split; [reflexivity | left; exact Hs]. }
  destruct (mbps data "sum_received") as [e | recv] eqn:Hr.
  { rewrite throughput_except_error. intros [= <-].
    exists e. split; [| reflexivity].
    apply Hcase. right. exists data. split; [reflexivity |].
    right. exists send. split; [exact Hs | exact Hr]. }
  rewrite !lookup_insert_ne by discriminate. rewrite Hnone. discriminate.
Qed.

(** The error key after the summary line: the exception of its
    statements, if they raise. *)
Lemma latency_line_error gateway line results :
  latency_line gateway line results !! "latency_error"
  = match summary_figures line with
    | inl e => Some (VStr (exn_str e))
    | inr _ => results !! "latency_error"
    end.
Proof.
  unfold latency_line, summary_figures, latency_except.
  destruct (py_index (PyStr.split "=" line) 1) as [e | after]; simpl;
    [apply lookup_insert_eq |].
  destruct (py_index (PyStr.split_ws (PyStr.strip after)) 0) as [e | stats]; simpl;
    [apply lookup_insert_eq |].
  destruct (PyStr.split "/" stats) as [|a [|b [|c [|d [|x rest]]]]];
    try apply lookup_insert_eq.
  destruct (py_float a) as [e | mn]; simpl; [apply lookup_insert_eq |].
  destruct (py_float b) as [e | av]; simpl; [apply lookup_insert_eq |].
  destruct (py_float c) as [e | mx]; simpl; [apply lookup_insert_eq |].
  rewrite !lookup_insert_ne by discriminate. reflexivity.
Qed.

(** A report of ping has no summary line, or a first one. *)
Lemma summary_line_cases (ls : list string) :
  forallb no_summary ls = true
  \/ exists pre line post,
       ls = pre ++ line :: post /\ forallb no_summary pre = true /\ no_summary line = false.
Proof.
  induction ls as [|l ls IH]; [left; reflexivity |].
  destruct (no_summary l) eqn:Hl.
  - destruct IH as [Hall | (pre & line & post & -> & Hpre & Hline)].
    + left. simpl. rewrite Hl, Hall. reflexivity.
    + right. exists (l :: pre), line, post. simpl. rewrite Hl, Hpre.
      split; [reflexivity |]. split; [reflexivity | exact Hline].
  - right. exists [], l, ls. split; [reflexivity |]. split; [reflexivity | exact Hl].
Qed.

Lemma latency_probe_captures results w e :
  latency_raises E e ->
  run_value (latency_probe E results) w !! "latency_error" = Some (VStr (exn_str e)).
Proof.
  intros [Hg | (gw & Hg & Hrc & [Hi | (gateway & Hi & [Hp | Hsum])])].
  - unfold latency_probe. run_simpl. rewrite Hg. run_simpl. apply lookup_insert_eq.
  - unfold latency_probe. run_simpl. rewrite Hg. run_simpl. rewrite Hrc. simpl.
    rewrite Hi. run_simpl. apply lookup_insert_eq.
  - unfold latency_probe. run_simpl. rewrite Hg. run_simpl. rewrite Hrc. simpl.
    rewrite Hi. run_simpl. rewrite Hp. run_simpl. apply lookup_insert_eq.
  - destruct Hsum as (p & Hp & Hrp & pre & line & post & Hlines & Hpre & Hline & Hfig).
    rewrite (latency_probe_scans E _ _ gw gateway p Hg Hrc Hi Hp Hrp), Hlines.
    rewrite (latency_scan_first gateway pre line post _ Hpre Hline).
    rewrite latency_line_error, Hfig. reflexivity.
Qed.

Lemma latency_probe_error_only results w v :
  results !! "latency_error" = None ->
  run_value (latency_probe E results) w !! "latency_error" = Some v ->
  exists e, latency_raises E e /\ v = VStr (exn_str e).
Proof.
  intros Hnone.
  destruct (subprocess_run E IpRouteDefault) as [e | gw] eqn:Hg.
  { unfold latency_probe. run_simpl. rewrite Hg. run_simpl.
    unfold latency_except. rewrite lookup_insert_eq. intros [= <-].
    exists e. split; [left; exact Hg | reflexivity]. }
  destruct (Z.eqb_spec (returncode gw) 0) as [Hrc | Hrc].
  2:{ rewrite latency_probe_silent by (left; exists gw; split; assumption).
      rewrite Hnone. discriminate. }
  destruct (py_index (PyStr.split_ws (stdout gw)) 2) as [e | gateway] eqn:Hi.
  { unfold latency_probe. run_simpl. rewrite Hg. run_simpl. rewrite Hrc. simpl.
    rewrite Hi. run_simpl. unfold latency_except. rewrite lookup_insert_eq. intros [= <-].
    exists e. split; [| reflexivity].
    right. exists gw. split; [exact Hg |]. split; [exact Hrc |]. left. exact Hi. }
  destruct (subprocess_run E (Ping gateway)) as [e | p] eqn:Hp.
  { unfold latency_probe. run_simpl. rewrite Hg. run_simpl. rewrite Hrc. simpl.
    rewrite Hi. run_simpl. rewrite Hp. run_simpl.
    unfold latency_except. rewrite lookup_insert_eq. intros [= <-].
    exists e. split; [| reflexivity].
    right. exists gw. split; [exact Hg |]. split; [exact Hrc |].
    right. exists gateway. split; [exact Hi |]. left. exact Hp. }
  destruct (Z.eqb_spec (returncode p) 0) as [Hrp | Hrp].
  2:{ rewrite latency_probe_silent
        by (right; exists gw, gateway, p; repeat split; try assumption; left; exact Hrp).
      rewrite Hnone. discriminate. }
  destruct (summary_line_cases (PyStr.lines (stdout p)))
    as [Hall | (pre & line & post & Hlines & Hpre & Hline)].
  { rewrite latency_probe_silent
      by (right; exists gw, gateway, p; repeat split; try assumption; right; exact Hall).
    rewrite Hnone. discriminate. }
  rewrite (latency_probe_scans E _ _ gw gateway p Hg Hrc Hi Hp Hrp), Hlines.
  rewrite (latency_scan_first gateway pre line post _ Hpre Hline), latency_line_error.
  destruct (summary_figures line) as [e | figures] eqn:Hfig.
  2:{ rewrite Hnone. discriminate. }
  intros [= <-]. exists e. split; [| reflexivity].
  right. exists gw. split; [exact Hg |]. split; [exact Hrc |].
  right. exists gateway. split; [exact Hi |].
  right. exists p. split; [exact Hp |]. split; [exact Hrp |].
  exists pre, line, post. repeat split; assumption.
Qed.

(** The loop over the domains returns one time for each domain, or
    raises at the first domain that does not resolve. *)
Lemma dns_loop_cases ds ts w :
  (exists ts', run_value (dns_loop E ds ts) w = inr (ts ++ ts') /\ length ts' = length ds)
  \/ exists done d rest e,
       ds = done ++ d :: rest
       /\ Forall (fun x => exists t, resolve E x = inr t) done
       /\ resolve E d = inl e
       /\ run_value (dns_loop E ds ts) w = inl e.
Proof.
  revert ts w. induction ds as [|d ds IH]; intros ts w.
  - left. exists []. rewrite app_nil_r. split; reflexivity.
  - destruct (resolve E d) as [e | t] eqn:Hd.
    + right. exists [], d, ds, e. split; [reflexivity |]. split; [constructor |].
      split; [exact Hd |]. simpl. run_simpl. rewrite Hd. reflexivity.
    + simpl. run_simpl. rewrite Hd.
      match goal with
      | |- context [run_value (dns_loop E ds ?a) ?b] => destruct (IH a b) as [Hok | Hbad]
      end.
      * destruct Hok as (ts' & Hv & Hlen). left.
        exists (PrimFloat.mul t (float_of_Z 1000) :: ts').
        rewrite Hv, <- app_assoc. split; [reflexivity | simpl; lia].
      * destruct Hbad as (done & d' & rest & e & -> & Hdone & Hd' & Hv). right.
        exists (d :: done), d', rest, e. split; [reflexivity |].
        split; [constructor; [exists t; exact Hd | exact Hdone] |].
        split; [exact Hd' | exact Hv].
Qed.

Lemma dns_probe_error_only results w v :
  results !! "dns_error" = None ->
  run_value (dns_probe E results) w !! "dns_error" = Some v ->
  exists e, dns_raises E e /\ v = VStr (exn_str e).
Proof.
  intros Hnone. unfold dns_probe. run_simpl.
  match goal with
  | |- context [run_value (dns_loop E test_domains ?a) ?b] =>
      destruct (dns_loop_cases test_domains a b)
        as [(ts & Hv & Hlen) | (done & d & rest & e & Hdom & Hdone & Hd & Hv)]
  end.
  - rewrite Hv. simpl. destruct ts as [|t ts]; [discriminate Hlen |]. run_simpl.
    rewrite !lookup_insert_ne by discriminate. rewrite Hnone. discriminate.
  - rewrite Hv. run_simpl. rewrite lookup_insert_eq. intros [= <-].
    exists e. split; [| reflexivity]. exists done, d, rest. repeat split; assumption.
Qed.
End NetworkCapture.

(** C6 (as amended). The network adapter always returns a completed
    result, and the first interaction of every probe takes place whatever
    the other probes do.  Every exception raised in the [try] block of the
    throughput probe (start of the server, client, wait for the server,
    decoding of the report, reading of the sent and of the received rate),
    of the latency probe (route lookup, third word of its output, ping,
    statements at the summary line) or of the DNS probe (first domain that
    fails) is recorded under that probe's error key, with the message of
    the handler; and an error key is in the result only for such an
    exception.  An exception of the counters probe leaves the result
    without any key of that probe. *)
Theorem network_adapter_never_fails `{L : PyLib} (E : Env) (w : World) :
  let r := run_value (run_network_benchmark E) w in
  let log := calls (run_log (run_network_benchmark E) w) in
  r !! "status" = Some (VStr "completed")
  /\ (NetIoCounters ∈ log /\ PopenIperfServer ∈ log
      /\ Run IpRouteDefault ∈ log /\ GetHostByName "google.com" ∈ log)
  /\ (forall e, throughput_raises E e ->
        r !! "throughput_error" = Some (VStr (iperf_message e)))
  /\ (forall e, latency_raises E e -> r !! "latency_error" = Some (VStr (exn_str e)))
  /\ (forall e, dns_raises E e -> r !! "dns_error" = Some (VStr (exn_str e)))
  /\ (forall v, r !! "throughput_error" = Some v ->
        exists e, throughput_raises E e /\ v = VStr (iperf_message e))
  /\ (forall v, r !! "latency_error" = Some v ->
        exists e, latency_raises E e /\ v = VStr (exn_str e))
  /\ (forall v, r !! "dns_error" = Some v ->
        exists e, dns_raises E e /\ v = VStr (exn_str e))
  /\ (forall e k,
        net_io_counters E = inl e ->
        String.prefix "throughput_" k = false -> String.prefix "latency_" k = false ->
        String.prefix "dns_" k = false -> k <> "status" ->
        r !! k = None).
Proof.
  cbv zeta.
  split; [apply network_status |].
  split; [apply network_calls |].
  destruct (network_value E w) as (w1 & w2 & w3 & w4 & Hr). cbv zeta in Hr. rewrite Hr.
  split; [| split; [| split; [| split; [| split; [| split]]]]].
  - intros e He. rewrite lookup_insert_ne by discriminate.
    rewrite dns_probe_other, latency_probe_other by reflexivity.
    apply throughput_probe_captures, He.
  - intros e He. rewrite lookup_insert_ne by discriminate.
    rewrite dns_probe_other by reflexivity.
    apply latency_probe_captures, He.
  - intros e (done & d & rest & Hdom & Hdone & Hd). rewrite lookup_insert_ne by discriminate.
    eapply dns_probe_raises; eassumption.
  - intros v. rewrite lookup_insert_ne by discriminate.
    rewrite dns_probe_other, latency_probe_other by reflexivity.
    apply throughput_probe_error_only.
    rewrite counters_probe_other by reflexivity. apply lookup_empty.
  - intros v. rewrite lookup_insert_ne by discriminate.
    rewrite dns_probe_other by reflexivity.
    apply latency_probe_error_only.
    apply before_latency_no_key; reflexivity.
  - intros v. rewrite lookup_insert_ne by discriminate.
    apply dns_probe_error_only.
    apply before_dns_no_key; reflexivity.
  - intros e k He Ht Hl Hd Hs. rewrite lookup_insert_ne by congruence.
    rewrite dns_probe_other, latency_probe_other, throughput_probe_other by assumption.
    unfold counters_probe. run_simpl. rewrite He. apply lookup_empty.
Qed.

Lemma network_adapter_witness :
  run_value (run_network_benchmark (L := reference_lib) Sample.bare) initial_world
    !! "throughput_error" = Some (VStr "iperf3 not installed").
Proof.
  exact (proj1 (proj2 (proj2 (network_adapter_never_fails (L := reference_lib)
                                Sample.bare initial_world)))
           (Sample.missing "iperf3") (or_introl eq_refl)).
Defined.

(** The route lookup prints no third word: the latency probe records the
    IndexError, and the other probes give their figures. *)
Example route_without_gateway :
  let r := run_value (run_network_benchmark (L := reference_lib)
                        MoreSamples.short_route_host) initial_world in
  r !! "latency_error" = Some (VStr "list index out of range")
  /\ r !! "latency_gateway" = None
  /\ is_Some (r !! "dns_avg_ms")
  /\ r !! "status" = Some (VStr "completed").
Proof. vm_compute. repeat split; eauto. Qed.
